(** * pyLIM [DataTools.BaseDataObject]: a shallow embedding

    The development follows [src/pylim/DataTools.py].  A data object is a
    record of the attributes the Python class keeps; every method is a
    computation in a small state-and-exception monad over that record, so
    that the state a raising call leaves behind can be inspected.

    numpy arrays are row-major buffers with a shape.  Array elements
    (float64 in the program) and the numerical kernels applied to them are
    the fields of the class [Numeric]; the functions imported from
    [pylim.Stats], whose source is not part of [DataTools.py], are the
    fields of the class [Stats].  Every theorem holds for all instances. *)

From stdpp Require Import gmap strings list fin_maps.
From Stdlib Require Import ZArith Lia.

Set Default Proof Using "Type".

(** ** Python exceptions and results *)

(** The exceptions the code raises.  [OutsideModel] is no exception of
    Python: a run ends with it where the code goes on with an object that
    the record [DataObj] below cannot hold, because an attribute or a
    method of the class has been replaced by an array (see [setattr]).
    The theorems leave such runs out. *)
Inductive exn : Type :=
  | ValueError
  | KeyError
  | IndexError
  | TypeError
  | ZeroDivisionError
  | AttributeError
  | AssertionError
  | OutsideModel.

Inductive result (A : Type) : Type :=
  | Ok (a : A)
  | Raise (e : exn).
Arguments Ok {A} a.
Arguments Raise {A} e.

Definition is_ok {A} (r : result A) : bool :=
  match r with Ok _ => true | Raise _ => false end.

Definition is_raise {A} (r : result A) : bool := negb (is_ok r).

Definition rbind {A B} (r : result A) (f : A → result B) : result B :=
  match r with Ok a => f a | Raise e => Raise e end.

Definition of_option {A} (e : exn) (o : option A) : result A :=
  match o with Some a => Ok a | None => Raise e end.

(** A method of an object with state [S]: it returns a value or raises,
    and in both cases leaves a state behind. *)
Definition M (S A : Type) : Type := S → result A * S.

Definition ret {S A} (a : A) : M S A := λ s, (Ok a, s).
Definition raise {S A} (e : exn) : M S A := λ s, (Raise e, s).
Definition bind {S A B} (m : M S A) (f : A → M S B) : M S B :=
  λ s, match m s with
       | (Ok a, s') => f a s'
       | (Raise e, s') => (Raise e, s')
       end.
Definition get {S} : M S S := λ s, (Ok s, s).
Definition gets {S A} (f : S → A) : M S A := λ s, (Ok (f s), s).
Definition modify {S} (f : S → S) : M S unit := λ s, (Ok tt, f s).
Definition lift {S A} (r : result A) : M S A := λ s, (r, s).

Global Instance M_ret {S} : MRet (M S) := λ A a, ret a.
Global Instance M_bind {S} : MBind (M S) := λ A B f m, bind m f.

(** ** Python integers, slices and lists *)

(** [//] and [%] round towards minus infinity, as [Z.div] and [Z.modulo]
    do; the divisor zero raises. *)
Definition py_floordiv (a b : Z) : result Z :=
  if (b =? 0)%Z then Raise ZeroDivisionError else Ok (a / b)%Z.
Definition py_mod (a b : Z) : result Z :=
  if (b =? 0)%Z then Raise ZeroDivisionError else Ok (a mod b)%Z.

(** [int(np.ceil(a / float(b)) * b)] for [b >= 1], on integers small
    enough for the quotient to be exact in float64. *)
Definition ceil_div (a b : Z) : Z := (- ((- a) / b))%Z.

Definition prod_shape (shp : list Z) : Z := foldr Z.mul 1%Z shp.

(** A slice object [slice(start, stop, step)]. *)
Record slice : Type := Slice {
  sl_start : option Z;
  sl_stop : option Z;
  sl_step : option Z
}.

(** Clipping of an explicit bound, as [slice.indices] does it. *)
Definition adjust_index (i len step : Z) : Z :=
  if (i <? 0)%Z then
    let i' := (i + len)%Z in
    if (i' <? 0)%Z then (if (step <? 0)%Z then -1 else 0)%Z else i'
  else if (len <=? i)%Z then (if (step <? 0)%Z then len - 1 else len)%Z
  else i.

(** The indices a slice selects from a sequence of length [len]; the
    step is not zero. *)
Definition slice_indices (start stop : option Z) (step len : Z) : list Z :=
  let lo := match start with
            | Some i => adjust_index i len step
            | None => if (step <? 0)%Z then (len - 1)%Z else 0%Z
            end in
  let hi := match stop with
            | Some i => adjust_index i len step
            | None => if (step <? 0)%Z then (-1)%Z else len
            end in
  let n := if (step <? 0)%Z
           then (if (hi <? lo)%Z then (lo - hi - 1) / (- step) + 1 else 0)%Z
           else (if (lo <? hi)%Z then (hi - lo - 1) / step + 1 else 0)%Z in
  map (λ i : nat, (lo + Z.of_nat i * step)%Z) (seq 0 (Z.to_nat n)).

Definition zlookup {A} (l : list A) (i : Z) : option A :=
  if (i <? 0)%Z then None else l !! Z.to_nat i.

(** The elements of [l] at the given (non-negative) positions. *)
Definition gather {A} (l : list A) (idxs : list Z) : list A :=
  omap (zlookup l) idxs.

(** [l[start:stop:step]] *)
Definition py_slice {A} (l : list A) (s : slice) : result (list A) :=
  let step := default 1%Z (sl_step s) in
  if (step =? 0)%Z then Raise ValueError
  else Ok (gather l (slice_indices (sl_start s) (sl_stop s) step
                                   (Z.of_nat (length l)))).

(** [l[i]] for an integer [i]: negative indices count from the end. *)
Definition py_index {A} (l : list A) (i : Z) : result A :=
  let n := Z.of_nat (length l) in
  if ((i <? - n) || (n <=? i))%Z then Raise IndexError
  else of_option IndexError (zlookup l (if (i <? 0)%Z then i + n else i)%Z).

(** [a[idxs]] for a list of integers (numpy integer-array indexing). *)
Fixpoint py_take {A} (l : list A) (idxs : list Z) : result (list A) :=
  match idxs with
  | [] => Ok []
  | i :: rest =>
      rbind (py_index l i) (λ x,
      rbind (py_take l rest) (λ xs, Ok (x :: xs)))
  end.

(** [l.pop(i)] and [l.insert(i, x)] of a Python list. *)
Definition list_pop {A} (l : list A) (i : Z) : result (list A) :=
  let n := Z.of_nat (length l) in
  if ((i <? - n) || (n <=? i))%Z then Raise IndexError
  else let j := Z.to_nat (if (i <? 0)%Z then i + n else i)%Z in
       Ok (take j l ++ drop (S j) l).

Definition list_insert_at {A} (l : list A) (i : Z) (x : A) : list A :=
  let n := Z.of_nat (length l) in
  let j := (if (i <? 0)%Z then Z.max 0 (i + n) else Z.min i n)%Z in
  take (Z.to_nat j) l ++ x :: drop (Z.to_nat j) l.

(** ** numpy arrays *)

(** The element type of the data arrays and the numerical kernels of numpy
    and numexpr that the class applies to elements and vectors. *)
Class Numeric : Type := {
  V : Type;
  nan : V;
  (** what [np.empty] leaves in a fresh buffer *)
  uninit : V;
  isfinite : V → bool;
  (** [x == y] on elements *)
  veqb : V → V → bool;
  (** [np.mean], [np.sum] and [np.var(ddof=1)] of a vector *)
  np_mean1 : list V → V;
  np_sum1 : list V → V;
  np_var1 : list V → V;
  vmul : V → V → V;
  vdiv : V → V → V;
  vsqrt : V → V;
  vone : V;
  (** [abs(np.cos(np.radians(x)))] *)
  abs_cos_radians : V → V
}.

(** A row-major array: its shape and its flat buffer. *)
Record ndarray (A : Type) : Type := NdArray {
  shape : list Z;
  buf : list A
}.
Arguments NdArray {A} shape buf.
Arguments shape {A} _.
Arguments buf {A} _.

Definition ndim {A} (a : ndarray A) : nat := length (shape a).

(** The buffer has as many elements as the shape says. *)
Definition wf_array {A} (a : ndarray A) : Prop :=
  Forall (λ d, 0 ≤ d)%Z (shape a) ∧
  Z.of_nat (length (buf a)) = prod_shape (shape a).

(** The number of elements of one entry along axis 0. *)
Definition stride {A} (a : ndarray A) : nat :=
  Z.to_nat (prod_shape (tail (shape a))).

Definition chunk {A} (w : nat) (l : list A) (i : nat) : list A :=
  take w (drop (i * w) l).

(** The entries of an array along axis 0. *)
Definition rows {A} (a : ndarray A) : list (list A) :=
  map (chunk (stride a) (buf a)) (seq 0 (Z.to_nat (hd 0%Z (shape a)))).

Definition of_rows {A} (rest : list Z) (rs : list (list A)) : ndarray A :=
  NdArray (Z.of_nat (length rs) :: rest) (concat rs).

Definition has_negative (shp : list Z) : bool :=
  existsb (λ d, d <? 0)%Z shp.

(** [np.empty(shape)] *)
Definition np_empty `{Numeric} (shp : list Z) : result (ndarray V) :=
  if has_negative shp then Raise ValueError
  else Ok (NdArray shp (replicate (Z.to_nat (prod_shape shp)) uninit)).

(** [np.empty(shp) * np.nan] *)
Definition np_full_nan `{Numeric} (shp : list Z) : result (ndarray V) :=
  if has_negative shp then Raise ValueError
  else Ok (NdArray shp (replicate (Z.to_nat (prod_shape shp)) nan)).

(** A Python integer passed as a dimension: numpy converts it to a
    64-bit integer and refuses one outside that range with [ValueError]
    ('Maximum allowed dimension exceeded').  The lengths of existing
    arrays are within the range; an argument of a method need not be. *)
Definition as_dim (d : Z) : result Z :=
  if ((d <? - 2 ^ 63) || (2 ^ 63 <=? d))%Z then Raise ValueError else Ok d.

(** [a.reshape(shp)]: one negative entry of [shp] is inferred.  The
    entries of [shp] are taken to be dimensions numpy accepts (see
    [as_dim]); memory is not bounded in the model. *)
Definition np_reshape {A} (a : ndarray A) (shp : list Z) : result (ndarray A) :=
  let size := Z.of_nat (length (buf a)) in
  let known := prod_shape (filter (λ d, 0 ≤ d)%Z shp) in
  match filter (λ d, d < 0)%Z shp with
  | [] => if (size =? known)%Z then Ok (NdArray shp (buf a))
          else Raise ValueError
  | [_] => if ((known =? 0) || negb (size mod known =? 0))%Z
           then Raise ValueError
           else Ok (NdArray (map (λ d, if (d <? 0)%Z then size / known else d)%Z
                                 shp) (buf a))
  | _ => Raise ValueError
  end.

(** [a[sl]]: a slice along axis 0. *)
Definition np_slice0 {A} (a : ndarray A) (sl : slice) : result (ndarray A) :=
  match shape a with
  | [] => Raise IndexError
  | _ :: rest => rbind (py_slice (rows a) sl) (λ rs, Ok (of_rows rest rs))
  end.

(** [a[idxs, ...]]: integer-array indexing along axis 0. *)
Definition np_take0 {A} (a : ndarray A) (idxs : list Z) : result (ndarray A) :=
  match shape a with
  | [] => Raise IndexError
  | _ :: rest => rbind (py_take (rows a) idxs) (λ rs, Ok (of_rows rest rs))
  end.

(** [np.mean(a, axis=1, out=out)]: entry [(i, j)] of the result is the
    mean over [t] of the entries [(i, t, j)], [j] running over the
    trailing axes. *)
Definition mean_axis1_buf `{Numeric} (n k w : nat) (b : list V) : list V :=
  flat_map (λ i,
    map (λ j, np_mean1 (omap (λ t, b !! ((i * k + t) * w + j)) (seq 0 k)))
        (seq 0 w))
    (seq 0 n).

Definition np_mean_axis1 `{Numeric} (a : ndarray V) (out : option (ndarray V))
    : result (ndarray V) :=
  match shape a with
  | n :: k :: sp =>
      let res := NdArray (n :: sp)
                   (mean_axis1_buf (Z.to_nat n) (Z.to_nat k)
                      (Z.to_nat (prod_shape sp)) (buf a)) in
      match out with
      | None => Ok res
      | Some o => if decide (shape o = n :: sp) then Ok res else Raise ValueError
      end
  | _ => Raise ValueError
  end.

(** [np.all(np.isfinite(a))] *)
Definition all_finite `{Numeric} (a : ndarray V) : bool :=
  forallb isfinite (buf a).

(** The elements of [l] at the positions where [mask] is true. *)
Fixpoint select_mask {A} (mask : list bool) (l : list A) : list A :=
  match mask, l with
  | b :: m, x :: l' => if b then x :: select_mask m l' else select_mask m l'
  | _, _ => []
  end.

(** A condition that is true past the end of the axis is an error. *)
Definition mask_overflow (mask : list bool) (n : nat) : bool :=
  existsb id (drop n mask).

Definition count_true (mask : list bool) : nat :=
  length (filter (λ b, b = true) mask).

Definition check_out {A} (out : option (ndarray A)) (res : ndarray A)
    : result (ndarray A) :=
  match out with
  | None => Ok res
  | Some o => if decide (shape o = shape res) then Ok res else Raise ValueError
  end.

(** [np.compress(mask, a, axis=None, out=out)]: on the flattened array. *)
Definition np_compress_flat {A} (mask : list bool) (a : ndarray A)
    (out : option (ndarray A)) : result (ndarray A) :=
  if mask_overflow mask (length (buf a)) then Raise IndexError
  else let sel := select_mask mask (buf a) in
       check_out out (NdArray [Z.of_nat (length sel)] sel).

(** [np.compress(mask, a, axis=1, out=out)] *)
Definition np_compress_axis1 {A} (mask : list bool) (a : ndarray A)
    (out : option (ndarray A)) : result (ndarray A) :=
  match shape a with
  | n :: s1 :: sp =>
      if mask_overflow mask (Z.to_nat s1) then Raise IndexError
      else
        let w := Z.to_nat (prod_shape sp) in
        let sub (r : list A) :=
          concat (select_mask mask (map (chunk w r) (seq 0 (Z.to_nat s1)))) in
        let m := Z.of_nat (length (select_mask mask (seq 0 (Z.to_nat s1)))) in
        check_out out (NdArray (n :: m :: sp) (flat_map sub (rows a)))
  | _ => Raise ValueError
  end.

(** [np.expand_dims(a, axis)] for a non-negative axis. *)
Definition np_expand_dims {A} (a : ndarray A) (axis : nat) : result (ndarray A) :=
  if decide (axis ≤ ndim a)
  then Ok (NdArray (take axis (shape a) ++ 1%Z :: drop axis (shape a)) (buf a))
  else Raise ValueError.

(** Broadcasting: the shapes are aligned at their last axes; along an
    axis the lengths agree or one of them is 1. *)
Definition broadcast_dim (m d : Z) : option Z :=
  if (m =? d)%Z then Some d
  else if (m =? 1)%Z then Some d
  else if (d =? 1)%Z then Some m
  else None.

Definition pad_shape (n : nat) (shp : list Z) : list Z :=
  replicate (n - length shp) 1%Z ++ shp.

Definition broadcast_shapes (s1 s2 : list Z) : option (list Z) :=
  let n := max (length s1) (length s2) in
  mapM (λ p : Z * Z, broadcast_dim p.1 p.2)
       (zip (pad_shape n s1) (pad_shape n s2)).

(** The buffer of an array of (padded) shape [src] seen with shape
    [dst]: axes of length 1 are repeated. *)
Fixpoint bcast_buf {A} (src dst : list Z) (l : list A) : list A :=
  match src, dst with
  | m :: src', d :: dst' =>
      let w := Z.to_nat (prod_shape src') in
      if (m =? d)%Z
      then flat_map (λ i, bcast_buf src' dst' (chunk w l i)) (seq 0 (Z.to_nat m))
      else concat (replicate (Z.to_nat d) (bcast_buf src' dst' l))
  | _, _ => l
  end.

(** [np.broadcast_to(a, shp)] *)
Definition np_broadcast_to {A} (a : ndarray A) (shp : list Z)
    : result (ndarray A) :=
  if decide (broadcast_shapes (shape a) shp = Some shp)
  then Ok (NdArray shp (bcast_buf (pad_shape (length shp) (shape a)) shp (buf a)))
  else Raise ValueError.

(** [full[mask] = vals] on buffers of one shape: the positions where
    [mask] is true receive the values in order. *)
Fixpoint mask_assign {A} (full : list A) (mask : list bool) (vals : list A)
    : list A :=
  match full, mask with
  | x :: f, b :: m =>
      if b then
        match vals with
        | v :: vs => v :: mask_assign f m vs
        | [] => x :: mask_assign f m []
        end
      else x :: mask_assign f m vals
  | _, _ => full
  end.

(** [full[mask] = x] for one value. *)
Definition mask_fill {A} (full : list A) (mask : list bool) (x : A) : list A :=
  zip_with (λ y (b : bool), if b then x else y) full mask.

(** [np.dot(a, b)] for a basis [b] of one or two axes: the sum of
    products over the last axis of [a] and the first axis of [b]. *)
Definition column {A} (w : nat) (l : list A) (j : nat) : list A :=
  omap (λ i, l !! (i * w + j)%nat) (seq 0 (length l / w)).

Definition last_axis_rows {A} (f : nat) (l : list A) : list (list A) :=
  map (chunk f l) (seq 0 (length l / f)).

Definition np_dot `{Numeric} (a b : ndarray V) : result (ndarray V) :=
  let cols k := map (column (Z.to_nat k) (buf b)) (seq 0 (Z.to_nat k)) in
  let times r c := np_sum1 (zip_with vmul r c) in
  match last (shape a), shape b with
  | Some f, [f'; k] =>
      if (f =? f')%Z
      then Ok (NdArray (removelast (shape a) ++ [k])
                 (flat_map (λ r, map (times r) (cols k))
                           (last_axis_rows (Z.to_nat f) (buf a))))
      else Raise ValueError
  | Some f, [f'] =>
      if (f =? f')%Z
      then Ok (NdArray (removelast (shape a))
                 (map (λ r, times r (buf b))
                      (last_axis_rows (Z.to_nat f) (buf a))))
      else Raise ValueError
  | _, _ => Raise ValueError
  end.

(** An elementwise operation on two arrays, with broadcasting. *)
Definition np_broadcast_with {A} (shp : list Z) (a : ndarray A)
    : result (ndarray A) :=
  match broadcast_shapes shp (shape a) with
  | None => Raise ValueError
  | Some rs =>
      Ok (NdArray rs (bcast_buf (pad_shape (length rs) (shape a)) rs (buf a)))
  end.

Definition np_binop {A B C} (f : A → B → C) (a : ndarray A) (b : ndarray B)
    : result (ndarray C) :=
  rbind (np_broadcast_with (shape b) a) (λ a',
  rbind (np_broadcast_with (shape a) b) (λ b',
  Ok (NdArray (shape a') (zip_with f (buf a') (buf b'))))).

(** [full[mask] = vals] for a boolean array [mask]. *)
Definition np_mask_assign {A} (full : ndarray A) (mask : ndarray bool)
    (vals : list A) : result (ndarray A) :=
  if decide (shape mask = shape full) then
    if decide (length vals = count_true (buf mask))
    then Ok (NdArray (shape full) (mask_assign (buf full) (buf mask) vals))
    else match vals with
         | [x] => Ok (NdArray (shape full) (mask_fill (buf full) (buf mask) x))
         | _ => Raise ValueError
         end
  else Raise IndexError.

(** [a.var(axis=0, ddof=1)] as a flat vector over the trailing axes. *)
Definition np_var_axis0 `{Numeric} (a : ndarray V) : result (list V) :=
  match shape a with
  | [] => Raise ValueError
  | n :: _ =>
      Ok (map (λ j, np_var1 (omap (λ i, buf a !! (i * stride a + j)%nat)
                                  (seq 0 (Z.to_nat n))))
              (seq 0 (stride a)))
  end.

(** [l[i] = x] on a Python list. *)
Definition list_set_at {A} (l : list A) (i : Z) (x : A) : result (list A) :=
  let n := Z.of_nat (length l) in
  if ((i <? - n) || (n <=? i))%Z then Raise IndexError
  else Ok (<[Z.to_nat (if (i <? 0)%Z then i + n else i)%Z := x]> l).

(** ** The data object *)

(** An entry of the [_eof_stats] dictionary. *)
Inductive stat `{Numeric} : Type :=
  | CalcOn (key : option string)
  | StatVal (v : V).

(** The attributes of a [BaseDataObject].  [attrs] holds the attributes
    that name a data bin ([orig], [compressed_data], [running_mean], ...,
    and whatever [setattr] adds); a key that is absent stands for [None].
    [_dim_coords] is [None] when the attribute was never set. *)
Record DataObj `{Numeric} : Type := MkDataObj {
  _full_shp : list Z;
  forced_flat : bool;
  cell_area : option (ndarray V);
  irregular_grid : bool;
  _coord_grids : option (gmap string (ndarray V));
  _fill_value : option V;
  _save_none : bool;
  _data_bins : gmap string (ndarray V);
  _curr_data_key : option string;
  _ops_performed : gmap string (list string);
  _altered_time_coords : gmap string (list V);
  _start_time_edge : option Z;
  _end_time_edge : option Z;
  _eofs : option (ndarray V);
  _svals : option (ndarray V);
  _eof_stats : gmap string stat;
  _std_scaling : option V;
  attrs : gmap string (ndarray V);
  _leading_time : bool;
  _time_shp : list Z;
  _spatial_shp : list Z;
  _flat_spatial_shp : list Z;
  _dim_idx : option (gmap string Z);
  _dim_coords : option (gmap string (Z * list V));
  is_masked : bool;
  valid_data : option (list bool);
  data : ndarray V
}.
Arguments MkDataObj {_}.


Definition set_full_shp `{Numeric} (x : list Z) (o : DataObj) : DataObj :=
  MkDataObj x (forced_flat o) (cell_area o) (irregular_grid o)
    (_coord_grids o) (_fill_value o) (_save_none o) (_data_bins o)
    (_curr_data_key o) (_ops_performed o) (_altered_time_coords o)
    (_start_time_edge o) (_end_time_edge o) (_eofs o) (_svals o)
    (_eof_stats o) (_std_scaling o) (attrs o) (_leading_time o)
    (_time_shp o) (_spatial_shp o) (_flat_spatial_shp o) (_dim_idx o)
    (_dim_coords o) (is_masked o) (valid_data o) (data o).

Definition set_cell_area `{Numeric} (x : option (ndarray V)) (o : DataObj) : DataObj :=
  MkDataObj (_full_shp o) (forced_flat o) x (irregular_grid o)
    (_coord_grids o) (_fill_value o) (_save_none o) (_data_bins o)
    (_curr_data_key o) (_ops_performed o) (_altered_time_coords o)
    (_start_time_edge o) (_end_time_edge o) (_eofs o) (_svals o)
    (_eof_stats o) (_std_scaling o) (attrs o) (_leading_time o)
    (_time_shp o) (_spatial_shp o) (_flat_spatial_shp o) (_dim_idx o)
    (_dim_coords o) (is_masked o) (valid_data o) (data o).

Definition set_data_bins `{Numeric} (x : gmap string (ndarray V)) (o : DataObj) : DataObj :=
  MkDataObj (_full_shp o) (forced_flat o) (cell_area o) (irregular_grid o)
    (_coord_grids o) (_fill_value o) (_save_none o) x (_curr_data_key o)
    (_ops_performed o) (_altered_time_coords o) (_start_time_edge o)
    (_end_time_edge o) (_eofs o) (_svals o) (_eof_stats o) (_std_scaling o)
    (attrs o) (_leading_time o) (_time_shp o) (_spatial_shp o)
    (_flat_spatial_shp o) (_dim_idx o) (_dim_coords o) (is_masked o)
    (valid_data o) (data o).

Definition set_curr_data_key `{Numeric} (x : option string) (o : DataObj) : DataObj :=
  MkDataObj (_full_shp o) (forced_flat o) (cell_area o) (irregular_grid o)
    (_coord_grids o) (_fill_value o) (_save_none o) (_data_bins o) x
    (_ops_performed o) (_altered_time_coords o) (_start_time_edge o)
    (_end_time_edge o) (_eofs o) (_svals o) (_eof_stats o) (_std_scaling o)
    (attrs o) (_leading_time o) (_time_shp o) (_spatial_shp o)
    (_flat_spatial_shp o) (_dim_idx o) (_dim_coords o) (is_masked o)
    (valid_data o) (data o).

Definition set_ops_performed `{Numeric} (x : gmap string (list string)) (o : DataObj) : DataObj :=
  MkDataObj (_full_shp o) (forced_flat o) (cell_area o) (irregular_grid o)
    (_coord_grids o) (_fill_value o) (_save_none o) (_data_bins o)
    (_curr_data_key o) x (_altered_time_coords o) (_start_time_edge o)
    (_end_time_edge o) (_eofs o) (_svals o) (_eof_stats o) (_std_scaling o)
    (attrs o) (_leading_time o) (_time_shp o) (_spatial_shp o)
    (_flat_spatial_shp o) (_dim_idx o) (_dim_coords o) (is_masked o)
    (valid_data o) (data o).

Definition set_altered_time_coords `{Numeric} (x : gmap string (list V)) (o : DataObj) : DataObj :=
  MkDataObj (_full_shp o) (forced_flat o) (cell_area o) (irregular_grid o)
    (_coord_grids o) (_fill_value o) (_save_none o) (_data_bins o)
    (_curr_data_key o) (_ops_performed o) x (_start_time_edge o)
    (_end_time_edge o) (_eofs o) (_svals o) (_eof_stats o) (_std_scaling o)
    (attrs o) (_leading_time o) (_time_shp o) (_spatial_shp o)
    (_flat_spatial_shp o) (_dim_idx o) (_dim_coords o) (is_masked o)
    (valid_data o) (data o).

Definition set_start_time_edge `{Numeric} (x : option Z) (o : DataObj) : DataObj :=
  MkDataObj (_full_shp o) (forced_flat o) (cell_area o) (irregular_grid o)
    (_coord_grids o) (_fill_value o) (_save_none o) (_data_bins o)
    (_curr_data_key o) (_ops_performed o) (_altered_time_coords o) x
    (_end_time_edge o) (_eofs o) (_svals o) (_eof_stats o) (_std_scaling o)
    (attrs o) (_leading_time o) (_time_shp o) (_spatial_shp o)
    (_flat_spatial_shp o) (_dim_idx o) (_dim_coords o) (is_masked o)
    (valid_data o) (data o).

Definition set_end_time_edge `{Numeric} (x : option Z) (o : DataObj) : DataObj :=
  MkDataObj (_full_shp o) (forced_flat o) (cell_area o) (irregular_grid o)
    (_coord_grids o) (_fill_value o) (_save_none o) (_data_bins o)
    (_curr_data_key o) (_ops_performed o) (_altered_time_coords o)
    (_start_time_edge o) x (_eofs o) (_svals o) (_eof_stats o)
    (_std_scaling o) (attrs o) (_leading_time o) (_time_shp o)
    (_spatial_shp o) (_flat_spatial_shp o) (_dim_idx o) (_dim_coords o)
    (is_masked o) (valid_data o) (data o).

Definition set_eofs `{Numeric} (x : option (ndarray V)) (o : DataObj) : DataObj :=
  MkDataObj (_full_shp o) (forced_flat o) (cell_area o) (irregular_grid o)
    (_coord_grids o) (_fill_value o) (_save_none o) (_data_bins o)
    (_curr_data_key o) (_ops_performed o) (_altered_time_coords o)
    (_start_time_edge o) (_end_time_edge o) x (_svals o) (_eof_stats o)
    (_std_scaling o) (attrs o) (_leading_time o) (_time_shp o)
    (_spatial_shp o) (_flat_spatial_shp o) (_dim_idx o) (_dim_coords o)
    (is_masked o) (valid_data o) (data o).

Definition set_svals `{Numeric} (x : option (ndarray V)) (o : DataObj) : DataObj :=
  MkDataObj (_full_shp o) (forced_flat o) (cell_area o) (irregular_grid o)
    (_coord_grids o) (_fill_value o) (_save_none o) (_data_bins o)
    (_curr_data_key o) (_ops_performed o) (_altered_time_coords o)
    (_start_time_edge o) (_end_time_edge o) (_eofs o) x (_eof_stats o)
    (_std_scaling o) (attrs o) (_leading_time o) (_time_shp o)
    (_spatial_shp o) (_flat_spatial_shp o) (_dim_idx o) (_dim_coords o)
    (is_masked o) (valid_data o) (data o).

Definition set_eof_stats `{Numeric} (x : gmap string stat) (o : DataObj) : DataObj :=
  MkDataObj (_full_shp o) (forced_flat o) (cell_area o) (irregular_grid o)
    (_coord_grids o) (_fill_value o) (_save_none o) (_data_bins o)
    (_curr_data_key o) (_ops_performed o) (_altered_time_coords o)
    (_start_time_edge o) (_end_time_edge o) (_eofs o) (_svals o) x
    (_std_scaling o) (attrs o) (_leading_time o) (_time_shp o)
    (_spatial_shp o) (_flat_spatial_shp o) (_dim_idx o) (_dim_coords o)
    (is_masked o) (valid_data o) (data o).

Definition set_std_scaling `{Numeric} (x : option V) (o : DataObj) : DataObj :=
  MkDataObj (_full_shp o) (forced_flat o) (cell_area o) (irregular_grid o)
    (_coord_grids o) (_fill_value o) (_save_none o) (_data_bins o)
    (_curr_data_key o) (_ops_performed o) (_altered_time_coords o)
    (_start_time_edge o) (_end_time_edge o) (_eofs o) (_svals o)
    (_eof_stats o) x (attrs o) (_leading_time o) (_time_shp o)
    (_spatial_shp o) (_flat_spatial_shp o) (_dim_idx o) (_dim_coords o)
    (is_masked o) (valid_data o) (data o).

Definition set_attrs `{Numeric} (x : gmap string (ndarray V)) (o : DataObj) : DataObj :=
  MkDataObj (_full_shp o) (forced_flat o) (cell_area o) (irregular_grid o)
    (_coord_grids o) (_fill_value o) (_save_none o) (_data_bins o)
    (_curr_data_key o) (_ops_performed o) (_altered_time_coords o)
    (_start_time_edge o) (_end_time_edge o) (_eofs o) (_svals o)
    (_eof_stats o) (_std_scaling o) x (_leading_time o) (_time_shp o)
    (_spatial_shp o) (_flat_spatial_shp o) (_dim_idx o) (_dim_coords o)
    (is_masked o) (valid_data o) (data o).

Definition set_time_shp `{Numeric} (x : list Z) (o : DataObj) : DataObj :=
  MkDataObj (_full_shp o) (forced_flat o) (cell_area o) (irregular_grid o)
    (_coord_grids o) (_fill_value o) (_save_none o) (_data_bins o)
    (_curr_data_key o) (_ops_performed o) (_altered_time_coords o)
    (_start_time_edge o) (_end_time_edge o) (_eofs o) (_svals o)
    (_eof_stats o) (_std_scaling o) (attrs o) (_leading_time o) x
    (_spatial_shp o) (_flat_spatial_shp o) (_dim_idx o) (_dim_coords o)
    (is_masked o) (valid_data o) (data o).

Definition set_dim_coords `{Numeric} (x : option (gmap string (Z * list V))) (o : DataObj) : DataObj :=
  MkDataObj (_full_shp o) (forced_flat o) (cell_area o) (irregular_grid o)
    (_coord_grids o) (_fill_value o) (_save_none o) (_data_bins o)
    (_curr_data_key o) (_ops_performed o) (_altered_time_coords o)
    (_start_time_edge o) (_end_time_edge o) (_eofs o) (_svals o)
    (_eof_stats o) (_std_scaling o) (attrs o) (_leading_time o)
    (_time_shp o) (_spatial_shp o) (_flat_spatial_shp o) (_dim_idx o) x
    (is_masked o) (valid_data o) (data o).

Definition set_is_masked `{Numeric} (x : bool) (o : DataObj) : DataObj :=
  MkDataObj (_full_shp o) (forced_flat o) (cell_area o) (irregular_grid o)
    (_coord_grids o) (_fill_value o) (_save_none o) (_data_bins o)
    (_curr_data_key o) (_ops_performed o) (_altered_time_coords o)
    (_start_time_edge o) (_end_time_edge o) (_eofs o) (_svals o)
    (_eof_stats o) (_std_scaling o) (attrs o) (_leading_time o)
    (_time_shp o) (_spatial_shp o) (_flat_spatial_shp o) (_dim_idx o)
    (_dim_coords o) x (valid_data o) (data o).

Definition set_valid_data `{Numeric} (x : option (list bool)) (o : DataObj) : DataObj :=
  MkDataObj (_full_shp o) (forced_flat o) (cell_area o) (irregular_grid o)
    (_coord_grids o) (_fill_value o) (_save_none o) (_data_bins o)
    (_curr_data_key o) (_ops_performed o) (_altered_time_coords o)
    (_start_time_edge o) (_end_time_edge o) (_eofs o) (_svals o)
    (_eof_stats o) (_std_scaling o) (attrs o) (_leading_time o)
    (_time_shp o) (_spatial_shp o) (_flat_spatial_shp o) (_dim_idx o)
    (_dim_coords o) (is_masked o) x (data o).

Definition set_data `{Numeric} (x : ndarray V) (o : DataObj) : DataObj :=
  MkDataObj (_full_shp o) (forced_flat o) (cell_area o) (irregular_grid o)
    (_coord_grids o) (_fill_value o) (_save_none o) (_data_bins o)
    (_curr_data_key o) (_ops_performed o) (_altered_time_coords o)
    (_start_time_edge o) (_end_time_edge o) (_eofs o) (_svals o)
    (_eof_stats o) (_std_scaling o) (attrs o) (_leading_time o)
    (_time_shp o) (_spatial_shp o) (_flat_spatial_shp o) (_dim_idx o)
    (_dim_coords o) (is_masked o) (valid_data o) x.


(** The functions this module imports from [pylim.Stats].  Each takes the
    data, its parameters and the optional output array, and returns the
    result or raises. *)
Class Stats `{Numeric} : Type := {
  (** [run_mean(data, window_size, trim_edge=, output_arr=)] *)
  run_mean : ndarray V → Z → Z → option (ndarray V) → result (ndarray V);
  (** [calc_anomaly(data, year_len, climo=, output_arr=)] returns the
      anomaly and the climatology *)
  stats_calc_anomaly : ndarray V → Z → option (ndarray V) →
                       option (ndarray V) →
                 result (ndarray V * ndarray V);
  (** [detrend_data(data, output_arr=)] *)
  stats_detrend_data : ndarray V → option (ndarray V) → result (ndarray V);
  (** [calc_eofs(data, num_eofs, var_stats_dict=)] returns the basis, the
      singular values and the entries it adds to the statistics *)
  calc_eofs : ndarray V → Z →
              result (ndarray V * ndarray V * gmap string stat)
}.

(** Static names and data bin keys. *)
Definition TIME : string := "time".
Definition LEVEL : string := "level".
Definition LAT : string := "lat".
Definition LON : string := "lon".

Definition _COMPRESSED : string := "compressed_data".
Definition _ORIGDATA : string := "orig".
Definition _DETRENDED : string := "detrended".
Definition _AWGHT : string := "area_weighted".
Definition _RUNMEAN : string := "running_mean".
Definition _ANOMALY : string := "anomaly".
Definition _CLIMO : string := "climo".
Definition _STD : string := "standardized".
Definition _EOFPROJ : string := "eof_proj".

(** The names of [BaseDataObject] other than the bin attributes: its
    class constants, the attributes [__init__] and the methods assign, and
    its methods. *)
Definition class_names : list string :=
  ["LAT"; "LEVEL"; "LON"; "TIME"; "_ANOMALY"; "_AWGHT"; "_CLIMO";
   "_COMPRESSED"; "_DETRENDED"; "_EOFPROJ"; "_ORIGDATA"; "_RUNMEAN"; "_STD";
   "_add_to_operation_history"; "_altered_time_coords"; "_avg_func";
   "_check_invalid_data"; "_compress_to_valid_data"; "_coord_grids";
   "_curr_data_key"; "_data_bins"; "_data_masking"; "_detrend_func";
   "_dim_coords"; "_dim_idx"; "_end_time_edge"; "_eof_stats"; "_eofs";
   "_fill_value"; "_flat_spatial_shp"; "_flatten_curr_data"; "_full_shp";
   "_gen_composite_mask"; "_helper_copy_new_databin"; "_leading_time";
   "_load_cell_area"; "_match_dims"; "_new_databin"; "_new_empty_databin";
   "_ops_performed"; "_save_none"; "_set_curr_data_key"; "_set_time_coord";
   "_spatial_shp"; "_start_time_edge"; "_std_scaling"; "_svals";
   "_tb_file_args"; "_time_shp"; "area_weight_data"; "calc_anomaly";
   "calc_running_mean"; "cell_area"; "copy"; "data"; "detrend_data";
   "eof_proj_data"; "forced_flat"; "from_hdf5"; "from_netcdf"; "from_pickle";
   "from_posterior_ncf"; "from_posterior_npz"; "get_coordinate_grids";
   "get_dim_coords"; "get_eof_stats"; "inflate_full_grid"; "irregular_grid";
   "is_leading_time"; "is_masked"; "reset_data"; "save_dataobj_pckl";
   "standardize_data"; "time_average_resample"; "time_cal"; "time_units";
   "train_test_split_random"; "valid_data"].

(** A name that [setattr] must not be given in the model: a name of the
    class, or a name of the form [__...] (the attributes of [object]). *)
Definition reserved (name : string) : bool :=
  existsb (String.eqb name) class_names || String.prefix "__" name.

Section Methods.
Context `{Stats}.

Local Open Scope Z_scope.

Definition _set_curr_data_key (new_key : string) : M DataObj unit :=
  modify (set_curr_data_key (Some new_key)).

Definition _add_to_operation_history (curr_dkey : option string)
    (new_op_key : string) : M DataObj unit :=
  match curr_dkey with
  | None => modify (λ self,
      set_ops_performed (<[new_op_key := [new_op_key]]> (_ops_performed self)) self)
  | Some k =>
      ops ← gets _ops_performed;
      past ← lift (of_option KeyError (ops !! k));
      modify (set_ops_performed (<[new_op_key := past ++ [new_op_key]]> ops))
  end.

Definition _new_empty_databin (shp : list Z) (name : string)
    : M DataObj (ndarray V) :=
  new ← lift (np_empty shp);
  modify (λ self, set_data_bins (<[name := new]> (_data_bins self)) self);;
  mret new.

Definition _new_databin (d : ndarray V) (name : string)
    : M DataObj (ndarray V) :=
  modify (λ self, set_data_bins (<[name := d]> (_data_bins self)) self);;
  mret d.

(** [setattr(self, name, value)].  The attributes that hold the bins
    ([orig], [anomaly], ...) and names the class does not use are kept in
    [attrs]: there the assignment is an entry of that map.  Under any
    other name the code replaces an attribute, a method or a constant of
    the class by the array; the record cannot hold that object. *)
Definition setattr (name : string) (value : ndarray V) : M DataObj unit :=
  if reserved name then raise OutsideModel
  else modify (λ self, set_attrs (<[name := value]> (attrs self)) self).

(** A kernel has written [res] into the array held by the attribute
    [name]: the attribute and the data bin of that name, which are one
    array object, now hold [res]. *)
Definition written (name : string) (res : ndarray V) : M DataObj unit :=
  modify (λ self,
    set_attrs (<[name := res]> (attrs self))
      (set_data_bins (if decide (is_Some (_data_bins self !! name))
                      then <[name := res]> (_data_bins self)
                      else _data_bins self) self)).

(** [self._dim_coords[key]] *)
Definition dim_coord (key : string) : M DataObj (Z * list V) :=
  dc ← gets _dim_coords;
  match dc with
  | None => raise AttributeError
  | Some m => lift (of_option KeyError (m !! key))
  end.

(** [self._dim_coords[key] = value] *)
Definition set_dim_coord (key : string) (value : Z * list V)
    : M DataObj unit :=
  dc ← gets _dim_coords;
  match dc with
  | None => raise AttributeError
  | Some m => modify (set_dim_coords (Some (<[key := value]> m)))
  end.

(** [_flat_spatial_shp] is [[np.product(self._spatial_shp)]].  For an
    empty spatial shape [np.product(())] is the float [1.0], which
    [reshape] refuses with [TypeError]; otherwise it is the integer
    product that the record holds. *)
Definition _flatten_curr_data : M DataObj unit :=
  self ← get;
  (if decide (_spatial_shp self = []) then raise TypeError else mret tt);;
  d ← lift (np_reshape (data self)
              (if _leading_time self
               then _time_shp self ++ _flat_spatial_shp self
               else _flat_spatial_shp self));
  modify (set_data d);;
  match cell_area self with
  | None => mret tt
  | Some ca =>
      ca' ← lift (np_reshape ca (_flat_spatial_shp self));
      modify (set_cell_area (Some ca'))
  end.

(** The [for ... else] of [_set_time_coord]: the coordinate of the last
    key of the history that has one. *)
Fixpoint find_past_coord (altered : gmap string (list V))
    (rev_ops : list string) : result (list V) :=
  match rev_ops with
  | [] => Raise IndexError
  | past_op_key :: rest =>
      match altered !! past_op_key with
      | Some tc => Ok tc
      | None => find_past_coord altered rest
      end
  end.

Definition resolve_time_coord (self : DataObj) (key : string)
    : result (list V) :=
  match _altered_time_coords self !! key with
  | Some tc => Ok tc
  | None =>
      rbind (of_option KeyError (_ops_performed self !! key)) (λ ops,
      find_past_coord (_altered_time_coords self) (rev ops))
  end.

Definition _set_time_coord (key : string) (time_len_of_data : Z)
    : M DataObj unit :=
  self ← get;
  time_coord ← lift (resolve_time_coord self key);
  if negb (Z.of_nat (length time_coord) =? time_len_of_data)
  then raise ValueError
  else
    '(time_idx, _) ← dim_coord TIME;
    set_dim_coord TIME (time_idx, time_coord);;
    modify (set_time_shp [time_len_of_data]).

Definition reset_data (key : string) : M DataObj (ndarray V) :=
  bins ← gets _data_bins;
  d ← lift (of_option KeyError (bins !! key));
  modify (set_data d);;
  _set_curr_data_key key;;
  leading ← gets _leading_time;
  (if leading : bool
   then n ← lift (py_index (shape d) 0); _set_time_coord key n
   else mret tt);;
  gets data.

(** [np.mean(data, axis=1, out=output_arr)], the result landing in the
    bin [name] that was passed as [output_arr]. *)
Definition _avg_func (d : ndarray V) (name : string) (output_arr : ndarray V)
    : M DataObj (ndarray V) :=
  res ← lift (np_mean_axis1 d (Some output_arr));
  written name res;;
  mret res.

Definition time_average_resample (key : string) (nsamples_in_avg shift : Z)
    : M DataObj (ndarray V) :=
  leading ← gets _leading_time;
  if negb leading then raise ValueError
  else if shift <? 0 then raise ValueError
  else
    time_shp ← gets _time_shp;
    nsamples ← lift (py_index time_shp 0);
    let nsamples := nsamples - shift in
    new_nsamples ← lift (py_floordiv nsamples nsamples_in_avg);
    end_cutoff ← lift (py_mod nsamples nsamples_in_avg);
    let end_cutoff := if end_cutoff =? 0 then None else Some (- end_cutoff) in
    d ← gets data;
    let spatial_shp := tail (shape d) in
    let new_shape := new_nsamples :: spatial_shp in
    let avg_shape := new_nsamples :: nsamples_in_avg :: spatial_shp in
    new_bin ← _new_empty_databin new_shape key;
    setattr key new_bin;;
    d ← gets data;
    d ← lift (np_slice0 d (Slice (Some shift) end_cutoff None));
    modify (set_data d);;
    d ← lift (rbind (as_dim nsamples_in_avg) (λ _, np_reshape d avg_shape));
    modify (set_data d);;
    d ← _avg_func d key new_bin;
    modify (set_data d);;
    modify (set_time_shp [new_nsamples]);;
    '(time_idx, time_coord) ← dim_coord TIME;
    new_time_coord ← lift (py_slice time_coord
                             (Slice (Some shift) end_cutoff (Some nsamples_in_avg)));
    set_dim_coord TIME (time_idx, new_time_coord);;
    modify (λ self, set_altered_time_coords
                      (<[key := new_time_coord]> (_altered_time_coords self)) self);;
    curr ← gets _curr_data_key;
    _add_to_operation_history curr key;;
    _set_curr_data_key key;;
    gets data.

(** The kernels of [pylim.Stats] write their result into [output_arr]
    when one is given and return it: a result of another shape than the
    output array cannot come back, [check_out] turns it into the
    [ValueError] of the assignment. *)
Definition calc_running_mean (window_size year_len : Z) (save : bool)
    : M DataObj (ndarray V) :=
  leading ← gets _leading_time;
  if negb leading then raise ValueError
  else
    let year_len := if year_len <? 1 then 1 else year_len in
    let edge_pad := window_size / 2 in
    let edge_trim := ceil_div edge_pad year_len * year_len in
    d ← gets data;
    n ← lift (py_index (shape d) 0);
    let new_time_len := n - edge_trim * 2 in
    '(time_idx, old_time_coord) ← dim_coord TIME;
    new_time_coord ← lift (py_slice old_time_coord
                             (Slice (Some edge_trim) (Some (- edge_trim)) None));
    set_dim_coord TIME (time_idx, new_time_coord);;
    save_none ← gets _save_none;
    (if save && negb save_none
     then new_bin ← _new_empty_databin (new_time_len :: tail (shape d)) _RUNMEAN;
          setattr _RUNMEAN new_bin
     else mret tt);;
    output_arr ← gets (λ self, attrs self !! _RUNMEAN);
    res ← lift (rbind (run_mean d window_size edge_trim output_arr)
                      (check_out output_arr));
    (if decide (is_Some output_arr) then written _RUNMEAN res else mret tt);;
    modify (set_data res);;
    modify (set_time_shp [new_time_len]);;
    modify (set_start_time_edge (Some edge_trim));;
    modify (set_end_time_edge (Some (- edge_trim)));;
    curr ← gets _curr_data_key;
    _add_to_operation_history curr _RUNMEAN;;
    _set_curr_data_key _RUNMEAN;;
    modify (λ self, set_altered_time_coords
                      (<[_RUNMEAN := new_time_coord]> (_altered_time_coords self))
                      self);;
    gets data.

(** The method [calc_anomaly]; [stats_calc_anomaly] is the function of
    [pylim.Stats] it calls. *)
Definition calc_anomaly (year_len : Z) (save : bool)
    (climo : option (ndarray V)) : M DataObj (ndarray V) :=
  leading ← gets _leading_time;
  if negb leading then raise ValueError
  else
    d ← gets data;
    save_none ← gets _save_none;
    (if save && negb save_none
     then new_bin ← _new_empty_databin (shape d) _ANOMALY;
          setattr _ANOMALY new_bin
     else mret tt);;
    let year_len := if year_len <? 1 then 1 else year_len in
    output_arr ← gets (λ self, attrs self !! _ANOMALY);
    '(res, clim) ← lift (rbind (stats_calc_anomaly d year_len climo output_arr)
                          (λ rc, rbind (check_out output_arr rc.1)
                                       (λ res, Ok (res, rc.2))));
    (if decide (is_Some output_arr) then written _ANOMALY res else mret tt);;
    modify (set_data res);;
    setattr _CLIMO clim;;
    curr ← gets _curr_data_key;
    _add_to_operation_history curr _ANOMALY;;
    _set_curr_data_key _ANOMALY;;
    gets data.

(** The method [detrend_data]; [_detrend_func] is [stats_detrend_data]. *)
Definition detrend_data (save : bool) : M DataObj (ndarray V) :=
  leading ← gets _leading_time;
  if negb leading then raise ValueError
  else
    d ← gets data;
    save_none ← gets _save_none;
    (if save && negb save_none
     then new_bin ← _new_empty_databin (shape d) _DETRENDED;
          setattr _DETRENDED new_bin
     else mret tt);;
    output_arr ← gets (λ self, attrs self !! _DETRENDED);
    res ← lift (rbind (stats_detrend_data d output_arr)
                      (check_out output_arr));
    (if decide (is_Some output_arr) then written _DETRENDED res else mret tt);;
    modify (set_data res);;
    curr ← gets _curr_data_key;
    _add_to_operation_history curr _DETRENDED;;
    _set_curr_data_key _DETRENDED;;
    gets data.

(** [np.expand_dims(grid, dim)] for every axis [dim] of [spatial_shp] but
    [idx]. *)
Fixpoint expand_other_dims {A} (grid : ndarray A) (idx : Z) (dims : list nat)
    : result (ndarray A) :=
  match dims with
  | [] => Ok grid
  | dim :: rest =>
      if Z.of_nat dim =? idx then expand_other_dims grid idx rest
      else rbind (np_expand_dims grid dim) (λ g, expand_other_dims g idx rest)
  end.

(** [get_coordinate_grids([key], compressed=, flat=)[key]] *)
Definition get_coordinate_grid (key : string) (compressed flat : bool)
    : M DataObj (ndarray V) :=
  self ← get;
  match _dim_idx self with
  | None => raise AttributeError
  | Some dim_idx =>
      idx ← lift (of_option KeyError (dim_idx !! key));
      grid ← match _coord_grids self ≫= (.!! key) with
             | Some g => mret g
             | None =>
                 let idx := if _leading_time self then idx - 1 else idx in
                 '(_, coords) ← dim_coord key;
                 g ← lift (expand_other_dims
                             (NdArray [Z.of_nat (length coords)] coords) idx
                             (seq 0 (length (_spatial_shp self))));
                 lift (np_broadcast_with (_spatial_shp self) g)
             end;
      if is_masked self && compressed then
        match valid_data self with
        | Some valid =>
            if decide (length valid = length (buf grid))
            then mret (NdArray [Z.of_nat (count_true valid)]
                               (select_mask valid (buf grid)))
            else raise IndexError
        | None => mret (NdArray [1; Z.of_nat (length (buf grid))] (buf grid))
        end
      else if flat then mret (NdArray [Z.of_nat (length (buf grid))] (buf grid))
      else mret grid
  end.

(** [bin[:] = result; self.data = bin], or [self.data = result] when the
    attribute [name] holds no bin. *)
Definition store_result (use_bin : bool) (name : string) (res : ndarray V)
    : M DataObj unit :=
  bin ← gets (λ self, attrs self !! name);
  match bin with
  | Some b =>
      if use_bin then
        res' ← lift (np_broadcast_to res (shape b));
        written name res';;
        modify (set_data res')
      else modify (set_data res)
  | None => modify (set_data res)
  end.

Definition area_weight_data (use_sqrt save : bool) : M DataObj (ndarray V) :=
  self ← get;
  do_lat_based ←
    match cell_area self with
    | None =>
        if irregular_grid self then raise ValueError
        else match _dim_idx self with
             | None => raise AttributeError
             | Some dim_idx =>
                 if decide (is_Some (dim_idx !! LAT)) then mret true
                 else raise ValueError
             end
    | Some _ => mret false
    end;
  (if save && negb (_save_none self)
   then new_bin ← _new_empty_databin (shape (data self)) _AWGHT;
        setattr _AWGHT new_bin
   else mret tt);;
  scale ← (if do_lat_based : bool
           then lat ← get_coordinate_grid LAT true (forced_flat self);
                mret (NdArray (shape lat) (map abs_cos_radians (buf lat)))
           else match cell_area self with
                | Some ca =>
                    mret (NdArray (shape ca)
                            (map (λ x, vdiv x (np_sum1 (buf ca))) (buf ca)))
                | None => raise AttributeError
                end);
  let scale := if use_sqrt
               then NdArray (shape scale) (map vsqrt (buf scale)) else scale in
  awgt ← gets data;
  res ← lift (np_binop vmul awgt scale);
  store_result true _AWGHT res;;
  curr ← gets _curr_data_key;
  _add_to_operation_history curr _AWGHT;;
  _set_curr_data_key _AWGHT;;
  gets data.

Definition standardize_data (std_factor : option V) (save : bool)
    : M DataObj (ndarray V) :=
  d ← gets data;
  save_none ← gets _save_none;
  (if save && negb save_none
   then new_bin ← _new_empty_databin (shape d) _STD;
        setattr _STD new_bin
   else mret tt);;
  std_scaling ← match std_factor with
                | None =>
                    grid_var ← lift (np_var_axis0 d);
                    mret (vdiv vone (vsqrt (np_sum1 grid_var)))
                | Some f => mret f
                end;
  let grid_standardized :=
    NdArray (shape d) (map (λ x, vmul x std_scaling) (buf d)) in
  modify (set_std_scaling (Some std_scaling));;
  store_result (save && negb save_none) _STD grid_standardized;;
  curr ← gets _curr_data_key;
  _add_to_operation_history curr _STD;;
  _set_curr_data_key _STD;;
  gets data.

Definition eof_proj_data (num_eofs : Z) (eof_in : option (ndarray V))
    (save : bool) (calc_on_key proj_key : option string)
    : M DataObj (ndarray V) :=
  leading ← gets _leading_time;
  if negb leading then raise ValueError
  else
    curr ← gets _curr_data_key;
    calc_on_key ←
      (if decide (calc_on_key = None ∧ curr ≠ Some _AWGHT)
       then reset_data _AWGHT;; mret (Some _AWGHT)
       else mret calc_on_key);
    d ← gets data;
    (if decide (2 < ndim d)%nat then _flatten_curr_data else mret tt);;
    d ← gets data;
    num_eofs ←
      match eof_in with
      | Some e =>
          rows_in ← lift (py_index (shape e) 0);
          features ← lift (py_index (shape d) 1);
          if negb (rows_in =? features) then raise ValueError
          else lift (py_index (shape e) 1)
      | None => mret num_eofs
      end;
    match eof_in with
    | None =>
        modify (set_eof_stats {[ "calc_on" := CalcOn calc_on_key ]});;
        '(eofs, svals, stats) ← lift (calc_eofs d num_eofs);
        modify (λ self, set_eof_stats (stats ∪ _eof_stats self) self);;
        modify (set_eofs (Some eofs));;
        modify (set_svals (Some svals))
    | Some e => modify (set_eofs (Some e))
    end;;
    match proj_key with
    | Some k => reset_data k;; mret tt
    | None => mret tt
    end;;
    d ← gets data;
    save_none ← gets _save_none;
    (if save && negb save_none
     then n ← lift (py_index (shape d) 0);
          new_bin ← _new_empty_databin [n; num_eofs] _EOFPROJ;
          setattr _EOFPROJ new_bin
     else mret tt);;
    eofs ← gets _eofs;
    proj ← lift (rbind (of_option TypeError eofs) (np_dot d));
    store_result true _EOFPROJ proj;;
    curr ← gets _curr_data_key;
    _add_to_operation_history curr _EOFPROJ;;
    _set_curr_data_key _EOFPROJ;;
    gets data.

(** [{key: value[0] for key, value in dim_coords.items()
      if shape[value[0]] == len(value[1])}] *)
Definition _match_dims (shp : list Z) (dim_coords : gmap string (Z * list V))
    : result (gmap string Z) :=
  foldr (λ (kv : string * (Z * list V)) acc,
           rbind acc (λ m,
           rbind (py_index shp kv.2.1) (λ d,
           Ok (if d =? Z.of_nat (length kv.2.2) then <[kv.1 := kv.2.1]> m
               else m))))
        (Ok ∅) (map_to_list dim_coords).

(** The loop of [__init__] over [zip(self._spatial_shp, valid_data.shape)]. *)
Fixpoint check_compressed (dims : list (Z * Z)) (compressed : bool)
    : result bool :=
  match dims with
  | [] => Ok compressed
  | (dat_dim, mask_dim) :: rest =>
      if mask_dim <? dat_dim then Raise ValueError
      else check_compressed rest (compressed || (dat_dim <? mask_dim))
  end.

(** For an [ndarray] (not a masked array) [np.ma.is_masked(data[0])] is
    false, once [data[0]] exists. *)
Definition _check_invalid_data (d : ndarray V)
    : M DataObj (bool * option (ndarray bool)) :=
  self ← get;
  let full_valid :=
    map (λ x, isfinite x &&
              match _fill_value self with
              | None => true
              | Some fill => negb (veqb x fill)
              end) (buf d) in
  if negb (forallb id full_valid) then
    if _leading_time self then
      t0 ← lift (py_index (_time_shp self) 0);
      mret (true,
            Some (NdArray (tail (shape d))
                    (map (λ j, Z.of_nat (count_true
                                 (omap (λ t, full_valid !! (t * stride d + j)%nat)
                                       (seq 0 (Z.to_nat (hd 0 (shape d))))))
                               =? t0)
                         (seq 0 (stride d)))))
    else mret (true, Some (NdArray (shape d) full_valid))
  else mret (false, None).

Definition _data_masking (d : ndarray V)
    : M DataObj (bool * option (ndarray bool)) :=
  match shape d with
  | [] => raise IndexError
  | n :: _ => if n <=? 0 then raise IndexError else _check_invalid_data d
  end.

Definition _compress_to_valid_data (d : ndarray V) (valid_mask : list bool)
    (out_arr : option (ndarray V)) : M DataObj (ndarray V) :=
  self ← get;
  res ← lift (if _leading_time self
              then np_compress_axis1 valid_mask d out_arr
              else np_compress_flat valid_mask d out_arr);
  (if decide (is_Some out_arr) then written _COMPRESSED res else mret tt);;
  match cell_area self with
  | None => mret res
  | Some ca =>
      ca' ← lift (np_compress_flat valid_mask ca None);
      modify (set_cell_area (Some ca'));;
      mret res
  end.

(** The attributes right after the first block of assignments of
    [__init__]. *)
Definition blank (d : ndarray V) (coord_grids : option (gmap string (ndarray V)))
    (force_flat : bool) (cell_area : option (ndarray V))
    (irregular_grid save_none : bool) (fill_value : option V) : DataObj :=
  MkDataObj (shape d) force_flat cell_area irregular_grid coord_grids
    fill_value save_none ∅ None ∅ ∅ None None None None ∅ None ∅
    false [] [] [] None None false None d.

Definition set_dims (leading : bool) (time_shp spatial_shp : list Z)
    (dim_idx : option (gmap string Z))
    (dim_coords : option (gmap string (Z * list V))) (o : DataObj) : DataObj :=
  MkDataObj (_full_shp o) (forced_flat o) (cell_area o) (irregular_grid o)
    (_coord_grids o) (_fill_value o) (_save_none o) (_data_bins o)
    (_curr_data_key o) (_ops_performed o) (_altered_time_coords o)
    (_start_time_edge o) (_end_time_edge o) (_eofs o) (_svals o)
    (_eof_stats o) (_std_scaling o) (attrs o) leading time_shp spatial_shp
    [prod_shape spatial_shp] dim_idx dim_coords (is_masked o) (valid_data o)
    (data o).

(** The body of [__init__] for an [ndarray] input, run on [blank]. *)
Definition init_body (d : ndarray V)
    (dim_coords : option (gmap string (Z * list V)))
    (valid_data_in : option (ndarray bool)) (force_flat save_none : bool)
    : M DataObj unit :=
  (if decide (4 < ndim d)%nat then raise AssertionError else mret tt);;
  match dim_coords with
  | Some dc =>
      match dc !! TIME with
      | Some (time_idx, time_coord) =>
          if negb (time_idx =? 0) then raise ValueError
          else
            n ← lift (py_index (shape d) 0);
            modify (set_dims true [n] (tail (shape d)) None None);;
            modify (set_altered_time_coords {[ _ORIGDATA := time_coord ]})
      | None => modify (set_dims false [] (shape d) None None)
      end;;
      dim_idx ← lift (_match_dims (shape d) dc);
      modify (λ self, set_dims (_leading_time self) (_time_shp self)
                        (_spatial_shp self) (Some dim_idx) (Some dc) self)
  | None => modify (set_dims false [] (shape d) None None)
  end;;
  self ← get;
  '(d, compressed) ←
    match valid_data_in with
    | Some valid =>
        let dim_lim := ndim valid in
        if decide (dim_lim ≤ 3)%nat then raise ValueError
        else
          compressed ← lift (check_compressed
                               (zip (_spatial_shp self) (shape valid)) false);
          d' ← (if negb compressed then
                  full_valid ← lift (np_broadcast_with (shape d) valid);
                  if decide (shape full_valid = shape d)
                  then mret (NdArray (shape d)
                               (zip_with (λ x (b : bool), if b then x else nan)
                                         (buf d) (buf full_valid)))
                  else raise IndexError
                else
                  if negb (all_finite d) then raise ValueError
                  else modify (set_full_shp (_time_shp self ++ shape valid));;
                       mret d);
          modify (set_valid_data (Some (buf valid)));;
          modify (set_is_masked true);;
          mret (d', compressed)
    | None => mret (d, false)
    end;
  '(masked, valid) ← _data_masking d;
  modify (set_is_masked masked);;
  modify (set_valid_data (buf <$> valid));;
  modify (set_data d);;
  (if force_flat || masked then _flatten_curr_data else mret tt);;
  d ← gets data;
  orig ← _new_databin d _ORIGDATA;
  setattr _ORIGDATA orig;;
  _add_to_operation_history None _ORIGDATA;;
  _set_curr_data_key _ORIGDATA;;
  if compressed : bool then setattr _COMPRESSED d
  else if masked : bool then
    self ← get;
    valid ← lift (of_option AttributeError (valid_data self));
    (if negb save_none then
       new_shp ← (if _leading_time self
                  then n ← lift (py_index (_time_shp self) 0);
                       mret [n; Z.of_nat (count_true valid)]
                  else mret [Z.of_nat (count_true valid)]);
       new_bin ← _new_empty_databin new_shp _COMPRESSED;
       setattr _COMPRESSED new_bin
     else mret tt);;
    out_arr ← gets (λ self, attrs self !! _COMPRESSED);
    res ← _compress_to_valid_data d valid out_arr;
    modify (set_data res);;
    curr ← gets _curr_data_key;
    _add_to_operation_history curr _COMPRESSED;;
    _set_curr_data_key _COMPRESSED
  else reset_data _ORIGDATA;; mret tt.

(** [BaseDataObject(data, dim_coords=, coord_grids=, valid_data=,
    force_flat=, cell_area=, irregular_grid=, save_none=, fill_value=)] *)
Definition init (d : ndarray V)
    (dim_coords : option (gmap string (Z * list V)))
    (coord_grids : option (gmap string (ndarray V)))
    (valid_data_in : option (ndarray bool)) (force_flat : bool)
    (cell_area : option (ndarray V)) (irregular_grid save_none : bool)
    (fill_value : option V) : result DataObj :=
  let r := init_body d dim_coords valid_data_in force_flat save_none
             (blank d coord_grids force_flat cell_area irregular_grid
                    save_none fill_value) in
  match r.1 with
  | Ok _ => Ok r.2
  | Raise e => Raise e
  end.

(** The loop of [inflate_full_grid] over [enumerate(shp)]. *)
Fixpoint expand_mask (valid_mask : ndarray bool) (valid_len : Z)
    (dims : list (nat * Z)) : result (ndarray bool) :=
  match dims with
  | [] => Ok valid_mask
  | (dim_idx, dim_len) :: rest =>
      if dim_len =? valid_len then expand_mask valid_mask valid_len rest
      else rbind (np_expand_dims valid_mask dim_idx)
                 (λ m, expand_mask m valid_len rest)
  end.

Definition inflate_full_grid (data_in : option (ndarray V)) (expand_axis : Z)
    (reshape_orig : bool) : M DataObj (option (ndarray V)) :=
  self ← get;
  if negb (is_masked self) then mret None
  else
    '(d, shp) ←
      match data_in with
      | Some d =>
          elem_expand_axis ← lift (py_index (shape d) expand_axis);
          valid ← lift (of_option AttributeError (valid_data self));
          if negb (elem_expand_axis =? Z.of_nat (count_true valid))
          then raise ValueError
          else
            shp ← lift (list_set_at (shape d) expand_axis
                          (Z.of_nat (length valid)));
            mret (d, shp)
      | None =>
          valid ← lift (of_option TypeError (valid_data self));
          mret (data self, _time_shp self ++ [Z.of_nat (length valid)])
      end;
    full ← lift (np_full_nan shp);
    valid ← lift (of_option AttributeError (valid_data self));
    let valid_len := Z.of_nat (length valid) in
    valid_mask ← lift (expand_mask (NdArray [valid_len] valid) valid_len
                         (imap (λ i x, (i, x)) shp));
    valid_mask ← lift (np_broadcast_with shp valid_mask);
    full ← lift (np_mask_assign full valid_mask (buf d));
    if reshape_orig then
      new_shp ← lift (list_pop shp expand_axis);
      let new_shp := foldl (λ acc dim_len, list_insert_at acc expand_axis dim_len)
                           new_shp (rev (_spatial_shp self)) in
      full ← lift (np_reshape full new_shp);
      mret (Some full)
    else mret (Some full).

(** The [data_indices] argument of [copy]: a list of integers or a slice. *)
Inductive indices : Type :=
  | IdxList (l : list Z)
  | IdxSlice (s : slice).

(** [len(data_indices)], and [stop - start] when that is a [TypeError]. *)
Definition indices_sample_len (i : indices) : result Z :=
  match i with
  | IdxList l => Ok (Z.of_nat (length l))
  | IdxSlice s =>
      match sl_stop s, sl_start s with
      | Some stop, Some start => Ok (stop - start)
      | _, _ => Raise TypeError
      end
  end.

Definition index_list {A} (l : list A) (i : indices) : result (list A) :=
  match i with
  | IdxList idxs => py_take l idxs
  | IdxSlice s => py_slice l s
  end.

Definition index_array0 {A} (a : ndarray A) (i : indices) : result (ndarray A) :=
  match i with
  | IdxList idxs => np_take0 a idxs
  | IdxSlice s => np_slice0 a s
  end.

(** Whether the EOF attributes are kept by [copy]. *)
Definition eof_relevant (current_dkey : string) (hist : list string) : bool :=
  bool_decide (current_dkey = _EOFPROJ) || bool_decide (_EOFPROJ ∈ hist).

(** [copy(data_indices=)]: the new object; [self] is not changed.  The
    copy sets the attribute named by every other bin to [None] and, in
    [_helper_copy_new_databin], the attribute named by the current key
    to the new bin ([setattr]): with a key that names something else
    than a bin attribute the copy is an object the record cannot hold. *)
Definition copy (data_indices : option indices) : M DataObj DataObj :=
  self ← get;
  if bool_decide (is_Some data_indices) && negb (_leading_time self)
  then raise ValueError
  else
    current_dkey ← lift (of_option KeyError (_curr_data_key self));
    hist ← lift (of_option KeyError (_ops_performed self !! current_dkey));
    let keep := eof_relevant current_dkey hist in
    dim_coords ← lift (of_option KeyError (_dim_coords self));
    let attrs' := filter (λ kv : string * ndarray V,
                            _data_bins self !! kv.1 = None ∨ kv.1 = current_dkey)
                         (attrs self) in
    '(time_idx, time_coord) ← lift (of_option KeyError (dim_coords !! TIME));
    '(time_coord, time_shp, d) ←
      match data_indices with
      | Some i =>
          sample_len ← lift (indices_sample_len i);
          time_coord ← lift (index_list time_coord i);
          d ← lift (index_array0 (data self) i);
          mret (time_coord, [sample_len], d)
      | None => mret (time_coord, _time_shp self, data self)
      end;
    if reserved current_dkey
       || negb (bool_decide (map_Forall (λ k _, reserved k = false)
                                        (_data_bins self)))
    then raise OutsideModel
    else
    mret (MkDataObj (_full_shp self) (forced_flat self) (cell_area self)
            (irregular_grid self) (_coord_grids self) (_fill_value self)
            (_save_none self) {[ current_dkey := d ]} (Some current_dkey)
            {[ current_dkey := hist ]} {[ current_dkey := time_coord ]}
            (_start_time_edge self) (_end_time_edge self)
            (if keep then _eofs self else None)
            (if keep then _svals self else None)
            (if keep then _eof_stats self else ∅)
            (_std_scaling self) (<[current_dkey := d]> attrs')
            (_leading_time self) time_shp (_spatial_shp self)
            (_flat_spatial_shp self) (_dim_idx self)
            (Some (<[TIME := (time_idx, time_coord)]> dim_coords))
            (is_masked self) (valid_data self) d).

End Methods.

(** The stage-transform operations as invocations. *)
Inductive call `{Numeric} : Type :=
  | Resample (key : string) (nsamples_in_avg shift : Z)
  | RunningMean (window_size year_len : Z) (save : bool)
  | Anomaly (year_len : Z) (save : bool) (climo : option (ndarray V))
  | Detrend (save : bool)
  | AreaWeight (use_sqrt save : bool)
  | Standardize (std_factor : option V) (save : bool)
  | EofProj (num_eofs : Z) (eof_in : option (ndarray V)) (save : bool)
            (calc_on_key proj_key : option string).

Definition run_call `{Stats} (c : call) : M DataObj (ndarray V) :=
  match c with
  | Resample key k s => time_average_resample key k s
  | RunningMean w y save => calc_running_mean w y save
  | Anomaly y save climo => calc_anomaly y save climo
  | Detrend save => detrend_data save
  | AreaWeight use_sqrt save => area_weight_data use_sqrt save
  | Standardize f save => standardize_data f save
  | EofProj k e save ck pk => eof_proj_data k e save ck pk
  end.

(** The stage a transform commits. *)
Definition stage_key `{Numeric} (c : call) : string :=
  match c with
  | Resample key _ _ => key
  | RunningMean _ _ _ => _RUNMEAN
  | Anomaly _ _ _ => _ANOMALY
  | Detrend _ => _DETRENDED
  | AreaWeight _ _ => _AWGHT
  | Standardize _ _ => _STD
  | EofProj _ _ _ _ _ => _EOFPROJ
  end.

(** The operations whose first statement checks [_leading_time]. *)
Definition checks_leading_time `{Numeric} (c : call) : bool :=
  match c with
  | AreaWeight _ _ | Standardize _ _ => false
  | _ => true
  end.

(** The checks a transform makes before it touches the object: the
    leading time axis, the sign of the resample shift, and what area
    weighting needs to find its weights. *)
Definition entry_guard_fails `{Numeric} (self : DataObj) (c : call) : bool :=
  match c with
  | Resample _ _ shift => negb (_leading_time self) || (shift <? 0)%Z
  | RunningMean _ _ _ | Anomaly _ _ _ | Detrend _ | EofProj _ _ _ _ _ =>
      negb (_leading_time self)
  | AreaWeight _ _ =>
      match cell_area self with
      | Some _ => false
      | None =>
          irregular_grid self ||
          match _dim_idx self with
          | Some dim_idx => bool_decide (dim_idx !! LAT = None)
          | None => true
          end
      end
  | Standardize _ _ => false
  end.

(** ** Definitions that follow the wording of the specification *)

Section SpecSide.
Context `{Numeric}.

(** The coordinate a stage key resolves to: its own entry of the altered
    time coordinates if present, otherwise the entry of the nearest
    ancestor in its recorded history chain that has one. *)
Definition spec_time_coord (self : DataObj) (k : string) : option (list V) :=
  match _altered_time_coords self !! k with
  | Some tc => Some tc
  | None =>
      hist ← _ops_performed self !! k;
      last (omap (λ a, _altered_time_coords self !! a) hist)
  end.

(** The time coordinate the object currently carries. *)
Definition time_axis (self : DataObj) : option (Z * list V) :=
  _dim_coords self ≫= (.!! TIME).

(** The elementwise arithmetic mean of samples of [w] elements each. *)
Definition block_mean (w : nat) (samples : list (list V)) : list V :=
  map (λ j, np_mean1 (omap (.!! j) samples)) (seq 0 w).

(** A data object with a leading time axis of length [N]: the flag is
    set, the time shape, the sample axis of the current data and the
    time coordinate [(idx, tc)] all have length [N], and the current
    stage, if any, has a recorded history. *)
Definition has_time_axis (self : DataObj) (N : Z) (sp : list Z) (idx : Z)
    (tc : list V) : Prop :=
  _leading_time self = true ∧
  _time_shp self = [N] ∧
  shape (data self) = N :: sp ∧
  wf_array (data self) ∧
  time_axis self = Some (idx, tc) ∧
  Z.of_nat (length tc) = N ∧
  match _curr_data_key self with
  | Some ck => is_Some (_ops_performed self !! ck)
  | None => True
  end.

End SpecSide.

(** ** Invariants of the object *)

Section Invariants.
Context `{Numeric}.

(** The output array a transform passes to its kernel: the bin it has
    just created, of shape [shp], when the result is saved, and otherwise
    whatever the attribute [name] holds from an earlier call. *)
Definition output_arr_of (self : DataObj) (name : string) (shp : list Z)
    (save : bool) : option (ndarray V) :=
  if save && negb (_save_none self)
  then Some (NdArray shp (replicate (Z.to_nat (prod_shape shp)) uninit))
  else attrs self !! name.

(** The attributes that are set by the constructor and that no transform
    assigns: the shape bookkeeping of the spatial axes, the mask and the
    configuration flags. *)
Definition fixed_attrs (self : DataObj) :=
  (_full_shp self, forced_flat self, irregular_grid self, _coord_grids self,
   _fill_value self, _save_none self, _leading_time self, _spatial_shp self,
   _flat_spatial_shp self, _dim_idx self, is_masked self, valid_data self).

(** What a stage named [k] consists of: its bin, its history and its
    recorded time coordinate. *)
Definition stage (k : string) (self : DataObj) :=
  (_data_bins self !! k, _ops_performed self !! k,
   _altered_time_coords self !! k).

(** A method preserves an observation [f] of the object when no run of
    it, returning or raising, leaves [f] changed. *)
Definition preserves {A B} (f : DataObj → B) (m : M DataObj A) : Prop :=
  ∀ self, f (m self).2 = f self.

(** An element that [_check_invalid_data] counts as valid: finite and not
    the fill value. *)
Definition valid_elem (fill : option V) (x : V) : bool :=
  isfinite x && match fill with None => true | Some f => negb (veqb x f) end.

(** Data without an invalid element. *)
Definition dense (fill : option V) (d : ndarray V) : bool :=
  forallb (valid_elem fill) (buf d).

(** What holds of the result and of the object whenever a method
    returns. *)
Definition ensures {A} (m : M DataObj A) (Q : A → DataObj → Prop) : Prop :=
  ∀ self a self', m self = (Ok a, self') → Q a self'.

(** The stage [key] has been committed with [out] as its data: [out] is
    the current data, [key] the current stage, and the history recorded
    for [key] ends with [key]. *)
Definition committed (key : string) (out : ndarray V) (self : DataObj)
    : Prop :=
  data self = out ∧ _curr_data_key self = Some key ∧
  ∃ hist, _ops_performed self !! key = Some (hist ++ [key]).

End Invariants.

(** ** A symbolic instance

    Elements are literals or unevaluated applications of a kernel: the
    instance on which the examples are run. *)
#[local] Unset Elimination Schemes.
Inductive sym : Type :=
  | SLit (z : Z)
  | SNaN
  | SUninit
  | SApp (op : string) (args : list sym).
#[local] Set Elimination Schemes.

Fixpoint sym_finite (x : sym) : bool :=
  match x with
  | SLit _ => true
  | SNaN => false
  | SUninit => true
  | SApp _ args => forallb sym_finite args
  end.

Fixpoint sym_eqb (x y : sym) : bool :=
  match x, y with
  | SLit a, SLit b => (a =? b)%Z
  | SUninit, SUninit => true
  | SApp f xs, SApp g ys =>
      String.eqb f g &&
      (fix all2 (xs ys : list sym) : bool :=
         match xs, ys with
         | [], [] => true
         | x' :: xs', y' :: ys' => sym_eqb x' y' && all2 xs' ys'
         | _, _ => false
         end) xs ys
  | _, _ => false
  end.

Definition sym_numeric : Numeric := {|
  V := sym;
  nan := SNaN;
  uninit := SUninit;
  isfinite := sym_finite;
  veqb := sym_eqb;
  np_mean1 := SApp "mean";
  np_sum1 := SApp "sum";
  np_var1 := SApp "var";
  vmul := λ x y, SApp "mul" [x; y];
  vdiv := λ x y, SApp "div" [x; y];
  vsqrt := λ x, SApp "sqrt" [x];
  vone := SLit 1;
  abs_cos_radians := λ x, SApp "abs_cos_radians" [x]
|}.

(** Modelled from the spec: [pylim.Stats] is not part of [DataTools.py].
    The instance follows the contracts of section 4.2: the running mean is
    a centred moving average of window [w] that trims [e] samples off each
    end; anomaly and detrending keep the shape; [calc_eofs] returns a
    basis of [k] columns over the feature axis. *)
Definition sym_run_mean (d : ndarray sym) (w e : Z) (out : option (ndarray sym))
    : result (ndarray sym) :=
  match shape d with
  | [] => Raise ValueError
  | n :: sp =>
      let m := (n - 2 * e)%Z in
      if (m <? 0)%Z then Raise ValueError
      else Ok (NdArray (m :: sp)
                 (flat_map (λ i,
                    map (λ j, SApp "mean"
                                (omap (λ t, buf d !! ((i + Z.to_nat (e - w / 2) + t)
                                                      * stride d + j)%nat)
                                      (seq 0 (Z.to_nat w))))
                        (seq 0 (stride d)))
                    (seq 0 (Z.to_nat m))))
  end.

Definition sym_calc_anomaly (d : ndarray sym) (year_len : Z)
    (climo out : option (ndarray sym)) : result (ndarray sym * ndarray sym) :=
  let clim := default (NdArray (year_len :: tail (shape d))
                         (replicate (Z.to_nat year_len * stride d)
                                    (SApp "climo" []))) climo in
  Ok (NdArray (shape d) (map (λ x, SApp "anomaly" [x]) (buf d)), clim).

Definition sym_detrend_data (d : ndarray sym) (out : option (ndarray sym))
    : result (ndarray sym) :=
  Ok (NdArray (shape d) (map (λ x, SApp "detrended" [x]) (buf d))).

Definition sym_calc_eofs (d : ndarray sym) (num_eofs : Z)
    : result (ndarray sym * ndarray sym * gmap string (@stat sym_numeric)) :=
  match shape d with
  | [_; f] =>
      if (num_eofs <? 0)%Z then Raise ValueError
      else Ok (NdArray [f; num_eofs]
                 (flat_map (λ i, map (λ j, SApp "eof" [SLit (Z.of_nat i);
                                                       SLit (Z.of_nat j)])
                                     (seq 0 (Z.to_nat num_eofs)))
                           (seq 0 (Z.to_nat f))),
               NdArray [num_eofs]
                 (map (λ j, SApp "sval" [SLit (Z.of_nat j)])
                      (seq 0 (Z.to_nat num_eofs))),
               ∅)
  | _ => Raise ValueError
  end.

Definition sym_stats : @Stats sym_numeric :=
  @Build_Stats sym_numeric sym_run_mean sym_calc_anomaly sym_detrend_data
               sym_calc_eofs.

(** ** Concrete objects

    The examples below are run on the symbolic instance. *)

Definition sym_obj : Type := @DataObj sym_numeric.

(** The object a constructor call built (the blank object if it raised). *)
Definition built (r : result sym_obj) : sym_obj :=
  match r with
  | Ok o => o
  | Raise _ => @blank sym_numeric (NdArray [] []) None false None false false None
  end.

Definition lits (l : list Z) : list sym := map SLit l.

(** A series of [n] samples [0 .. n-1] at the times [100 .. 100+n-1]. *)
Definition series_data (n : nat) : ndarray sym :=
  NdArray [Z.of_nat n] (map (λ i, SLit (Z.of_nat i)) (seq 0 n)).

Definition series_time (n : nat) : list sym :=
  map (λ i, SLit (100 + Z.of_nat i)) (seq 0 n).

Definition series (n : nat) : sym_obj :=
  built (@init sym_numeric (series_data n)
           (Some {[ TIME := (0%Z, series_time n) ]})
           None None false None false false None).

(** The running mean of the series of [n] samples over a window [w]
    with a trim [e], as the kernel returns it. *)
Definition smoothed (n : nat) (w e : Z) : ndarray sym :=
  match sym_run_mean (series_data n) w e None with
  | Ok res => res
  | Raise _ => NdArray [] []
  end.

(** Two grid cells with their areas and no time axis. *)
Definition cells : sym_obj :=
  built (@init sym_numeric (NdArray [2%Z] (lits [1; 2]%Z)) None None None false
           (Some (NdArray [2%Z] (lits [1; 3]%Z))) false false None).

(** Three samples of a 2 x 2 grid; one cell is NaN at the second sample. *)
Definition gridded_data : ndarray sym :=
  NdArray [3; 2; 2]%Z
    [SLit 0; SLit 1; SLit 2; SLit 3;
     SLit 10; SLit 11; SNaN; SLit 13;
     SLit 20; SLit 21; SLit 22; SLit 23].

(** The same samples with the grid flattened. *)
Definition gridded_flat : ndarray sym :=
  NdArray [3; 4]%Z (buf gridded_data).

Definition gridded : sym_obj :=
  built (@init sym_numeric gridded_data
           (Some {[ TIME := (0%Z, lits [100; 101; 102]%Z) ]})
           None None false None false false None).

(** Three samples of two cells with cell areas, area weighted, then
    projected on two EOFs with the result saved. *)
Definition two_cells : sym_obj :=
  built (@init sym_numeric (NdArray [3; 2]%Z (lits [1; 2; 3; 4; 5; 6]%Z))
           (Some {[ TIME := (0%Z, lits [100; 101; 102]%Z) ]})
           None None false (Some (NdArray [2%Z] (lits [1; 3]%Z)))
           false false None).

Definition two_cells_weighted : sym_obj :=
  (@area_weight_data sym_numeric true true two_cells).2.

Definition two_cells_projected : sym_obj :=
  (@eof_proj_data sym_numeric sym_stats 2 None true None None
     two_cells_weighted).2.

(** * Verification *)

(** ** Running a method *)

Ltac munfold :=
  unfold mbind, M_bind, mret, M_ret, bind, ret, get, gets, modify, lift, raise.

(** The names of the bin attributes are not reserved. *)
Ltac bin_names :=
  repeat match goal with
         | |- context [reserved ?n] => progress change (reserved n) with false
         end.

(** Setters are unfolded so that a state stays a flat record. *)
Ltac flat :=
  unfold set_full_shp, set_cell_area, set_data_bins, set_curr_data_key, set_ops_performed, set_altered_time_coords, set_start_time_edge, set_end_time_edge, set_eofs, set_svals, set_eof_stats, set_std_scaling, set_attrs, set_time_shp, set_dim_coords, set_is_masked, set_valid_data, set_data, set_dims;
  cbn; repeat (progress bin_names; cbn).

Ltac mrun := munfold; flat.

(** The numpy operations stay folded while a method is run. *)
#[global] Arguments reserved : simpl never.
#[global] Arguments as_dim : simpl never.
#[global] Arguments np_empty : simpl never.
#[global] Arguments np_full_nan : simpl never.
#[global] Arguments np_reshape : simpl never.
#[global] Arguments np_slice0 : simpl never.
#[global] Arguments np_take0 : simpl never.
#[global] Arguments np_mean_axis1 : simpl never.
#[global] Arguments np_compress_flat : simpl never.
#[global] Arguments np_compress_axis1 : simpl never.
#[global] Arguments np_broadcast_with : simpl never.
#[global] Arguments np_broadcast_to : simpl never.
#[global] Arguments np_mask_assign : simpl never.
#[global] Arguments np_dot : simpl never.
#[global] Arguments py_slice : simpl never.
#[global] Arguments py_index : simpl never.
#[global] Arguments py_take : simpl never.
#[global] Arguments prod_shape : simpl never.
#[global] Arguments Z.div : simpl never.
#[global] Arguments Z.modulo : simpl never.
#[global] Arguments Z.mul : simpl never.
#[global] Arguments Z.sub : simpl never.
#[global] Arguments Z.add : simpl never.
#[global] Arguments Z.opp : simpl never.

(** ** Facts on lists, chunks and slices *)

Section ListFacts.
Context {A : Type}.
Implicit Types l : list A.

Lemma chunk_length w l i :
  (i * w + w ≤ length l)%nat → length (chunk w l i) = w.
Proof. intros. unfold chunk. rewrite length_take, length_drop. lia. Qed.

Lemma chunk_lookup w l i j :
  (j < w)%nat → chunk w l i !! j = l !! (i * w + j)%nat.
Proof.
  intros. unfold chunk. rewrite lookup_take_lt by done. by rewrite lookup_drop.
Qed.

Lemma lookup_concat_uniform (w : nat) (rs : list (list A)) p j :
  Forall (λ r, length r = w) rs → (j < w)%nat →
  concat rs !! (p * w + j)%nat = rs !! p ≫= (.!! j).
Proof.
  intros Hall Hj. revert p. induction Hall as [|r rs Hr Hall IH]; intros p.
  - by rewrite !lookup_nil.
  - destruct p as [|p]; simpl.
    + rewrite lookup_app_l by lia. done.
    + rewrite lookup_app_r by lia. rewrite <- IH. f_equal. lia.
Qed.

Lemma chunk_concat_uniform (w : nat) (rs : list (list A)) p r :
  Forall (λ r, length r = w) rs → rs !! p = Some r → chunk w (concat rs) p = r.
Proof.
  intros Hall Hp. apply list_eq. intros j.
  assert (length r = w) as Hr by apply (Forall_lookup_1 _ _ _ _ Hall Hp).
  destruct (decide (j < w)%nat).
  - rewrite chunk_lookup by done. rewrite lookup_concat_uniform by done.
    by rewrite Hp.
  - rewrite (lookup_ge_None_2 r) by lia.
    apply lookup_ge_None_2. unfold chunk. rewrite length_take. lia.
Qed.

Lemma concat_uniform_length (w : nat) (rs : list (list A)) :
  Forall (λ r, length r = w) rs → length (concat rs) = (length rs * w)%nat.
Proof. induction 1; simpl; [done|]. rewrite length_app. lia. Qed.

(** Gathering an arithmetic progression of positions. *)
Lemma gather_progression_from l (lo step : Z) (a n : nat) :
  (0 ≤ lo)%Z → (0 < step)%Z →
  (n = 0%nat ∨ lo + (Z.of_nat a + Z.of_nat n - 1) * step < Z.of_nat (length l))%Z →
  length (gather l (map (λ i : nat, lo + Z.of_nat i * step)%Z (seq a n))) = n ∧
  ∀ p, (p < n)%nat →
    gather l (map (λ i : nat, lo + Z.of_nat i * step)%Z (seq a n)) !! p
    = l !! Z.to_nat (lo + Z.of_nat (a + p) * step).
Proof.
  intros Hlo Hstep. unfold gather. revert a.
  induction n as [|n IH]; intros a Hn; [split; [done | lia]|].
  destruct Hn as [|Hn]; [lia|].
  cbn [seq map omap list_omap].
  assert (zlookup l (lo + Z.of_nat a * step)%Z
          = l !! Z.to_nat (lo + Z.of_nat a * step)) as Hz.
  { unfold zlookup. case_match; [lia | done]. }
  assert (is_Some (l !! Z.to_nat (lo + Z.of_nat a * step))) as [x Hx].
  { apply lookup_lt_is_Some. nia. }
  rewrite Hz, Hx.
  destruct (IH (S a)) as [IHlen IHlk].
  { destruct n; [by left | right]. nia. }
  split; [simpl; by rewrite IHlen|].
  intros [|p] Hp; simpl.
  - rewrite <- Hx. do 2 f_equal. lia.
  - rewrite IHlk by lia. do 2 f_equal. lia.
Qed.

Lemma gather_progression l (lo step : Z) (n : nat) :
  (0 ≤ lo)%Z → (0 < step)%Z →
  (n = 0%nat ∨ lo + (Z.of_nat n - 1) * step < Z.of_nat (length l))%Z →
  length (gather l (map (λ i : nat, lo + Z.of_nat i * step)%Z (seq 0 n))) = n ∧
  ∀ p, (p < n)%nat →
    gather l (map (λ i : nat, lo + Z.of_nat i * step)%Z (seq 0 n)) !! p
    = l !! Z.to_nat (lo + Z.of_nat p * step).
Proof.
  intros Hlo Hstep Hn.
  destruct (gather_progression_from l lo step 0 n) as [Hlen Hlk]; [done..| |].
  { destruct Hn; [by left | right; lia]. }
  split; [done|]. intros p Hp. by rewrite Hlk.
Qed.

End ListFacts.

(** ** Time-coordinate resolution *)

Section TimeCoord.
Context `{Numeric}.

Lemma find_past_coord_last (altered : gmap string (list V)) hist :
  find_past_coord altered (rev hist)
  = of_option IndexError (last (omap (λ a, altered !! a) hist)).
Proof.
  induction hist as [|a hist IH] using rev_ind; [done|].
  rewrite rev_app_distr, omap_app. simpl.
  destruct (altered !! a) as [tc|] eqn:Ha; simpl.
  - by rewrite last_snoc.
  - by rewrite app_nil_r.
Qed.

Lemma resolve_time_coord_spec (self : DataObj) key :
  match spec_time_coord self key with
  | Some tc => resolve_time_coord self key = Ok tc
  | None => ∃ e, resolve_time_coord self key = Raise e
  end.
Proof.
  unfold spec_time_coord, resolve_time_coord.
  destruct (_altered_time_coords self !! key) as [tc|]; [done|].
  destruct (_ops_performed self !! key) as [hist|]; simpl; [|by eexists].
  rewrite find_past_coord_last.
  destruct (last _); simpl; [done | by eexists].
Qed.

(** C6.  [_set_time_coord key L] resolves the coordinate of [key] as the
    specification words it: the entry of [key] in the altered time
    coordinates, otherwise that of the nearest ancestor of [key] in its
    history chain.  Without such an ancestor it raises; with a resolved
    vector whose length is not [L] it raises [ValueError]; in both cases
    the object is untouched.  Otherwise the time coordinate of the object
    becomes the resolved vector and its time shape becomes [[L]] (the
    call raises, untouched, only if the object carries no time
    coordinate to replace). *)
Theorem set_time_coord_resolves (self : DataObj) (key : string) (L : Z) :
  match spec_time_coord self key with
  | None => ∃ e, _set_time_coord key L self = (Raise e, self)
  | Some tc =>
      if decide (Z.of_nat (length tc) = L) then
        match time_axis self with
        | Some (idx, _) =>
            _set_time_coord key L self
            = (Ok tt,
               set_time_shp [L]
                 (set_dim_coords
                    ((λ dc, <[TIME := (idx, tc)]> dc) <$> _dim_coords self)
                    self))
        | None => ∃ e, _set_time_coord key L self = (Raise e, self)
        end
      else _set_time_coord key L self = (Raise ValueError, self)
  end.
Proof.
  pose proof (resolve_time_coord_spec self key) as Hres.
  unfold _set_time_coord, time_axis. mrun.
  destruct (spec_time_coord self key) as [tc|].
  - rewrite Hres. cbn.
    destruct (decide (Z.of_nat (length tc) = L)) as [HL|HL].
    + rewrite (proj2 (Z.eqb_eq _ _) HL). cbn.
      unfold dim_coord, set_dim_coord. mrun.
      destruct (_dim_coords self) as [dc|] eqn:Hdc; cbn; [|by eexists].
      destruct (dc !! TIME) as [[idx old]|]; cbn; [|by eexists].
      by rewrite Hdc.
    + by rewrite (proj2 (Z.eqb_neq _ _) HL).
  - destruct Hres as [e ->]. by eexists.
Qed.

End TimeCoord.

(** ** Entry guards *)

Section Guards.
Context `{Stats}.

Lemma resample_without_time (self : DataObj) key k s :
  _leading_time self = false →
  time_average_resample key k s self = (Raise ValueError, self).
Proof. intros Hl. unfold time_average_resample. mrun. by rewrite Hl. Qed.

Lemma resample_negative_shift (self : DataObj) key k s :
  (s < 0)%Z → time_average_resample key k s self = (Raise ValueError, self).
Proof.
  intros Hs. unfold time_average_resample. mrun.
  destruct (_leading_time self); cbn; [|done].
  by rewrite (proj2 (Z.ltb_lt _ _) Hs).
Qed.

Lemma running_mean_without_time (self : DataObj) w y save :
  _leading_time self = false →
  calc_running_mean w y save self = (Raise ValueError, self).
Proof. intros Hl. unfold calc_running_mean. mrun. by rewrite Hl. Qed.

Lemma anomaly_without_time (self : DataObj) y save climo :
  _leading_time self = false →
  calc_anomaly y save climo self = (Raise ValueError, self).
Proof. intros Hl. unfold calc_anomaly. mrun. by rewrite Hl. Qed.

Lemma detrend_without_time (self : DataObj) save :
  _leading_time self = false →
  detrend_data save self = (Raise ValueError, self).
Proof. intros Hl. unfold detrend_data. mrun. by rewrite Hl. Qed.

Lemma eof_proj_without_time (self : DataObj) k e save ck pk :
  _leading_time self = false →
  eof_proj_data k e save ck pk self = (Raise ValueError, self).
Proof. intros Hl. unfold eof_proj_data. mrun. by rewrite Hl. Qed.

Lemma area_weight_guard (self : DataObj) use_sqrt save :
  entry_guard_fails self (AreaWeight use_sqrt save) = true →
  ∃ e, area_weight_data use_sqrt save self = (Raise e, self).
Proof.
  unfold entry_guard_fails, area_weight_data. mrun. intros Hg.
  destruct (cell_area self); [done|].
  destruct (irregular_grid self); cbn; [by eexists|].
  destruct (_dim_idx self) as [dim_idx|]; cbn; [|by eexists].
  cbn in Hg. apply bool_decide_eq_true in Hg. rewrite Hg.
  rewrite decide_False by (by intros [? ?]). cbn. by eexists.
Qed.

(** C4, as amended.  On a data object without a leading time axis the
    operations that check for one -- resample, running mean, anomaly,
    detrending and EOF projection -- raise [ValueError] and leave the
    object as it was, so no stage is committed.  (Area weighting and
    standardization make no such check.) *)
Theorem transforms_require_leading_time (self : DataObj) (c : call) :
  _leading_time self = false →
  checks_leading_time c = true →
  run_call c self = (Raise ValueError, self).
Proof.
  intros Hl Hc. destruct c; try discriminate Hc; cbn.
  - by apply resample_without_time.
  - by apply running_mean_without_time.
  - by apply anomaly_without_time.
  - by apply detrend_without_time.
  - by apply eof_proj_without_time.
Qed.

(** C5, as amended.  A transform that raises at one of its entry guards
    leaves the whole object -- current data, current stage key, history,
    bins and time-coordinate bookkeeping -- exactly as it was. *)
Theorem entry_guard_leaves_object_untouched (self : DataObj) (c : call) :
  entry_guard_fails self c = true →
  ∃ e, run_call c self = (Raise e, self).
Proof.
  intros Hg. destruct c; cbn in Hg |- *.
  - apply orb_true_iff in Hg as [Hl|Hs].
    + exists ValueError. apply resample_without_time.
      by destruct (_leading_time self).
    + exists ValueError. apply resample_negative_shift. by apply Z.ltb_lt.
  - exists ValueError. apply running_mean_without_time.
    by destruct (_leading_time self).
  - exists ValueError. apply anomaly_without_time.
    by destruct (_leading_time self).
  - exists ValueError. apply detrend_without_time.
    by destruct (_leading_time self).
  - by apply area_weight_guard.
  - done.
  - exists ValueError. apply eof_proj_without_time.
    by destruct (_leading_time self).
Qed.

(** C10.  On an object that is not masked, [inflate_full_grid] returns
    [None] and does not raise, whatever data, axis and reshape flag it
    is given; the object is not changed. *)
Theorem inflate_unmasked_is_none (self : DataObj)
    (data_in : option (ndarray V)) (expand_axis : Z) (reshape_orig : bool) :
  is_masked self = false →
  inflate_full_grid data_in expand_axis reshape_orig self = (Ok None, self).
Proof. intros Hm. unfold inflate_full_grid. mrun. by rewrite Hm. Qed.

End Guards.

(** ** Facts on arrays *)

Section ArrayFacts.
Context {A : Type}.
Implicit Types (a : ndarray A) (l : list A).

Lemma prod_shape_nonneg (shp : list Z) :
  Forall (λ d, 0 ≤ d)%Z shp → (0 ≤ prod_shape shp)%Z.
Proof. unfold prod_shape. induction 1; cbn [foldr]; lia. Qed.

Lemma has_negative_false (shp : list Z) :
  Forall (λ d, 0 ≤ d)%Z shp → has_negative shp = false.
Proof.
  induction 1 as [|d shp Hd _ IH]; [done|]. unfold has_negative in *. simpl.
  rewrite IH. by rewrite (proj2 (Z.ltb_ge _ _) Hd).
Qed.

Lemma has_negative_true (shp : list Z) d :
  d ∈ shp → (d < 0)%Z → has_negative shp = true.
Proof.
  intros Hin Hd. unfold has_negative. apply existsb_exists.
  exists d. split; [by apply list_elem_of_In | by apply Z.ltb_lt].
Qed.

Lemma filter_nonneg_all (shp : list Z) :
  Forall (λ d, 0 ≤ d)%Z shp →
  filter (λ d, 0 ≤ d)%Z shp = shp ∧ filter (λ d, d < 0)%Z shp = [].
Proof.
  induction 1 as [|d shp Hd _ [IH1 IH2]]; [done|].
  rewrite !filter_cons, IH1, IH2.
  rewrite decide_True by done. by rewrite decide_False by lia.
Qed.

Lemma np_reshape_nonneg a (shp : list Z) :
  Forall (λ d, 0 ≤ d)%Z shp →
  Z.of_nat (length (buf a)) = prod_shape shp →
  np_reshape a shp = Ok (NdArray shp (buf a)).
Proof.
  intros Hshp Hsize. unfold np_reshape.
  destruct (filter_nonneg_all shp Hshp) as [-> ->].
  by rewrite (proj2 (Z.eqb_eq _ _) Hsize).
Qed.

Lemma rows_length a N sp : shape a = N :: sp → length (rows a) = Z.to_nat N.
Proof. intros Hs. unfold rows. by rewrite length_map, length_seq, Hs. Qed.

Lemma rows_lookup a N sp (i : nat) :
  shape a = N :: sp → (i < Z.to_nat N)%nat →
  rows a !! i = Some (chunk (stride a) (buf a) i).
Proof.
  intros Hs Hi. unfold rows. rewrite Hs. cbn [hd].
  rewrite list_lookup_fmap, lookup_seq_lt by done. done.
Qed.

Lemma stride_shape a N sp :
  shape a = N :: sp → stride a = Z.to_nat (prod_shape sp).
Proof. intros Hs. unfold stride. by rewrite Hs. Qed.

Lemma wf_array_length a N sp :
  wf_array a → shape a = N :: sp →
  (0 ≤ N)%Z ∧ Forall (λ d, 0 ≤ d)%Z sp ∧
  length (buf a) = (Z.to_nat N * stride a)%nat.
Proof.
  intros [Hnn Hlen] Hs. rewrite Hs in Hnn, Hlen.
  apply Forall_cons in Hnn as [HN Hsp].
  pose proof (prod_shape_nonneg sp Hsp).
  split_and!; [done..|]. rewrite (stride_shape a N sp Hs).
  change (prod_shape (N :: sp)) with (N * prod_shape sp)%Z in Hlen.
  apply Nat2Z.inj. by rewrite Nat2Z.inj_mul, !Z2Nat.id.
Qed.

Lemma rows_uniform a N sp :
  wf_array a → shape a = N :: sp →
  Forall (λ r, length r = stride a) (rows a).
Proof.
  intros Hwf Hs. destruct (wf_array_length a N sp Hwf Hs) as (HN & _ & Hlen).
  apply Forall_lookup. intros i r Hi.
  assert (i < Z.to_nat N)%nat as Hlt.
  { apply lookup_lt_Some in Hi. by rewrite (rows_length a N sp Hs) in Hi. }
  rewrite (rows_lookup a N sp i Hs Hlt) in Hi. injection Hi as <-.
  apply chunk_length. nia.
Qed.

(** [omap] along a window of a list, position by position. *)
Lemma omap_fmap_pre {B C} (f : B → option C) (g : A → B) (l : list A) :
  omap f (g <$> l) = omap (f ∘ g) l.
Proof. induction l as [|x l IH]; [done|]. cbn. by rewrite IH. Qed.

Lemma omap_ext_in {B} (f g : A → option B) (l : list A) :
  (∀ x, x ∈ l → f x = g x) → omap f l = omap g l.
Proof.
  induction l as [|x l IH]; intros Hfg; [done|]. cbn.
  rewrite (Hfg x) by apply list_elem_of_here.
  rewrite IH; [done|]. intros y Hy. apply Hfg. by apply list_elem_of_further.
Qed.

Lemma omap_none (l : list A) {B} : omap (λ _ : A, @None B) l = [].
Proof. induction l as [|x l IH]; [done|]. cbn. apply IH. Qed.

End ArrayFacts.

Section Windows.
Context {A : Type}.

Lemma omap_take_by_position {B} (g : A → option B) (L : list A) (k : nat) :
  omap g (take k L) = omap (λ t, L !! t ≫= g) (seq 0 k).
Proof.
  revert L. induction k as [|k IH]; intros L; [done|].
  destruct L as [|x L]; cbn [take].
  - cbn [omap list_omap]. symmetry. apply omap_none.
  - rewrite <- cons_seq, <- fmap_S_seq. cbn [omap list_omap].
    rewrite omap_fmap_pre, IH. done.
Qed.

Lemma omap_window {B} (g : A → option B) (L : list A) (a k : nat) :
  omap g (take k (drop a L)) = omap (λ t, L !! (a + t)%nat ≫= g) (seq 0 k).
Proof.
  rewrite omap_take_by_position. apply omap_ext_in. intros t _.
  by rewrite lookup_drop.
Qed.

Lemma take_drop_within (L : list A) (a k M : nat) :
  (a + k ≤ M)%nat → take k (drop a (take M L)) = take k (drop a L).
Proof.
  intros HM. apply list_eq. intros p. destruct (decide (p < k)%nat).
  - rewrite !lookup_take_lt, !lookup_drop by lia. by rewrite lookup_take_lt by lia.
  - by rewrite !lookup_take_ge by lia.
Qed.

End Windows.

(** ** Slices that drop a prefix and a remainder *)

Section Slices.
Context {A : Type}.
Implicit Types l : list A.

Lemma slice_indices_cut (len s r step : Z) :
  (0 ≤ s)%Z → (0 ≤ r)%Z → (s + r ≤ len)%Z → (1 ≤ step)%Z →
  slice_indices (Some s) (if (r =? 0)%Z then None else Some (- r)%Z) step len
  = map (λ i : nat, s + Z.of_nat i * step)%Z
        (seq 0 (Z.to_nat (if (s <? len - r)%Z
                          then (len - r - s - 1) / step + 1 else 0)%Z)).
Proof.
  intros Hs Hr Hsr Hstep. unfold slice_indices.
  assert (adjust_index s len step = s) as ->.
  { unfold adjust_index. repeat case_match; lia. }
  assert (match (if (r =? 0)%Z then None else Some (- r)%Z) with
          | Some i => adjust_index i len step
          | None => if (step <? 0)%Z then (-1)%Z else len
          end = (len - r)%Z) as ->.
  { destruct (r =? 0)%Z eqn:Hr0.
    - apply Z.eqb_eq in Hr0. case_match; lia.
    - apply Z.eqb_neq in Hr0. unfold adjust_index. repeat case_match; lia. }
  rewrite (proj2 (Z.ltb_ge _ _)) by lia. done.
Qed.

(** [l[s:-r]], and [l[s:]] when [r] is 0. *)
Lemma py_slice_cut l (s r : Z) :
  (0 ≤ s)%Z → (0 ≤ r)%Z → (s + r ≤ Z.of_nat (length l))%Z →
  py_slice l (Slice (Some s) (if (r =? 0)%Z then None else Some (- r)%Z) None)
  = Ok (take (Z.to_nat (Z.of_nat (length l) - r - s)) (drop (Z.to_nat s) l)).
Proof.
  intros Hs Hr Hsr. unfold py_slice. cbn.
  rewrite slice_indices_cut by lia. f_equal.
  set (m := Z.to_nat _).
  assert (m = Z.to_nat (Z.of_nat (length l) - r - s)) as Hm.
  { subst m. case_match; [|lia]. rewrite Z.div_1_r. lia. }
  destruct (gather_progression l s 1 m) as [Hlen Hlk]; [lia..| |].
  { destruct (decide (m = 0%nat)); [by left | right]. lia. }
  apply list_eq. intros p. destruct (decide (p < m)%nat) as [Hp|Hp].
  - rewrite Hlk by done. rewrite lookup_take_lt by lia. rewrite lookup_drop.
    f_equal. lia.
  - rewrite lookup_ge_None_2 by lia. symmetry. apply lookup_ge_None_2.
    rewrite length_take. lia.
Qed.

(** [l[s:-r:k]] when [k] divides the length of [l[s:-r]]. *)
Lemma py_slice_stride l (s r k n : Z) :
  (0 ≤ s)%Z → (0 ≤ r)%Z → (1 ≤ k)%Z → (0 ≤ n)%Z →
  (Z.of_nat (length l) - r - s = n * k)%Z →
  ∃ l', py_slice l (Slice (Some s) (if (r =? 0)%Z then None else Some (- r)%Z)
                          (Some k)) = Ok l' ∧
        length l' = Z.to_nat n ∧
        ∀ i, (i < Z.to_nat n)%nat →
             l' !! i = l !! (Z.to_nat s + i * Z.to_nat k)%nat.
Proof.
  intros Hs Hr Hk Hn Hdiv. unfold py_slice. cbn.
  rewrite (proj2 (Z.eqb_neq _ _)) by lia.
  rewrite slice_indices_cut by nia.
  set (m := Z.to_nat _).
  assert (m = Z.to_nat n) as Hm.
  { subst m. case_match eqn:Hlt; [|apply Z.ltb_ge in Hlt; f_equal; nia].
    apply Z.ltb_lt in Hlt. f_equal.
    rewrite Hdiv. symmetry.
    assert ((n * k - 1) / k = n - 1)%Z as ->; [|lia].
    symmetry. apply (Z.div_unique _ _ _ (k - 1)); [lia | ring]. }
  destruct (gather_progression l s k m) as [Hlen Hlk]; [lia..| |].
  { destruct (decide (m = 0%nat)); [by left | right]. nia. }
  eexists. split_and!; [done | lia |].
  intros i Hi. rewrite Hlk by lia. f_equal. nia.
Qed.

End Slices.

(** ** Temporal resampling *)

Section Resample.
Context `{Numeric}.

Lemma np_slice0_cut (d : ndarray V) N sp (s r : Z) :
  wf_array d → shape d = N :: sp →
  (0 ≤ s)%Z → (0 ≤ r)%Z → (s + r ≤ N)%Z →
  np_slice0 d (Slice (Some s) (if (r =? 0)%Z then None else Some (- r)%Z) None)
  = Ok (of_rows sp (take (Z.to_nat (N - r - s)) (drop (Z.to_nat s) (rows d)))).
Proof.
  intros Hwf Hs H0 Hr Hsr. unfold np_slice0. rewrite Hs.
  destruct (wf_array_length d N sp Hwf Hs) as (HN & _ & _).
  pose proof (rows_length d N sp Hs) as Hlen.
  rewrite py_slice_cut by lia. cbn. do 4 f_equal. lia.
Qed.

Lemma as_dim_ok (d : Z) : (- 2 ^ 63 ≤ d < 2 ^ 63)%Z → as_dim d = Ok d.
Proof.
  intros Hd. unfold as_dim.
  rewrite (proj2 (Z.ltb_ge _ _)) by lia.
  by rewrite (proj2 (Z.leb_gt _ _)) by lia.
Qed.

Lemma np_empty_nonneg (shp : list Z) :
  Forall (λ d, 0 ≤ d)%Z shp →
  np_empty shp = Ok (NdArray shp (replicate (Z.to_nat (prod_shape shp)) uninit)).
Proof. intros Hshp. unfold np_empty. by rewrite has_negative_false. Qed.

Lemma np_empty_negative (shp : list Z) d :
  d ∈ shp → (d < 0)%Z → np_empty shp = Raise ValueError.
Proof.
  intros Hin Hd. unfold np_empty. by rewrite (has_negative_true shp d).
Qed.

(** A chunk of the buffer of means is the mean of a block of rows. *)
Lemma mean_axis1_chunk (n k w : nat) (rs : list (list V)) (i : nat) :
  Forall (λ r, length r = w) rs → (i < n)%nat →
  chunk w (mean_axis1_buf n k w (concat rs)) i
  = block_mean w (take k (drop (i * k) rs)).
Proof.
  intros Hall Hi. unfold mean_axis1_buf. rewrite flat_map_concat_map.
  erewrite chunk_concat_uniform; [reflexivity| |].
  - apply Forall_fmap, Forall_forall. intros j _. cbn.
    by rewrite length_map, length_seq.
  - rewrite list_lookup_fmap, lookup_seq_lt by done. cbn.
    unfold block_mean. f_equal. apply list_eq. intros p.
    rewrite !list_lookup_fmap.
    destruct (seq 0 w !! p) as [j|] eqn:Hj; [|done]. cbn.
    apply lookup_seq in Hj as [-> Hp]. cbn. do 2 f_equal.
    rewrite omap_window. apply omap_ext_in. intros t _.
    by rewrite lookup_concat_uniform.
Qed.

End Resample.

Section ResampleMain.
Context `{Numeric}.

Lemma resample_succeeds (self : DataObj) N sp idx tc key (k s : Z) :
  has_time_axis self N sp idx tc → (1 ≤ k)%Z → (0 ≤ s ≤ N)%Z →
  reserved key = false → (k < 2 ^ 63)%Z →
  let n := ((N - s) / k)%Z in
  ∃ out tc' self',
    time_average_resample key k s self = (Ok out, self') ∧
    shape out = n :: sp ∧
    (∀ i, (i < Z.to_nat n)%nat →
       rows out !! i
       = Some (block_mean (Z.to_nat (prod_shape sp))
                 (take (Z.to_nat k)
                       (drop (Z.to_nat s + i * Z.to_nat k) (rows (data self)))))) ∧
    length tc' = Z.to_nat n ∧
    (∀ i, (i < Z.to_nat n)%nat →
       tc' !! i = tc !! (Z.to_nat s + i * Z.to_nat k)%nat) ∧
    data self' = out ∧
    _time_shp self' = [n] ∧
    time_axis self' = Some (idx, tc') ∧
    _altered_time_coords self' !! key = Some tc' ∧
    _data_bins self' !! key = Some out ∧
    _curr_data_key self' = Some key.
Proof.
  intros (Hlead & Hshp & Hds & Hwf & Htax & Htc & Hhist) Hk Hs Hkey Hk63 n.
  destruct (wf_array_length _ N sp Hwf Hds) as (HN & Hsp & Hlen).
  set (r := ((N - s) mod k)%Z).
  assert (0 ≤ r < k)%Z as Hr by (apply Z.mod_pos_bound; lia).
  assert (N - s = k * n + r)%Z as Hdiv by (apply Z.div_mod; lia).
  assert (0 ≤ n)%Z as Hn by (apply Z.div_pos; lia).
  unfold time_average_resample. mrun. rewrite Hlead. flat.
  rewrite (proj2 (Z.ltb_ge _ _)) by lia. rewrite Hshp.
  change (py_index [N] 0) with (Ok N). flat.
  unfold py_floordiv, py_mod.
  rewrite (proj2 (Z.eqb_neq _ _)) by lia. flat.
  fold n r. clearbody n r. rewrite Hds. cbn [tail].
  unfold _new_empty_databin. mrun.
  rewrite (np_empty_nonneg (n :: sp)) by (by constructor).
  flat. unfold setattr. rewrite Hkey. mrun.
  rewrite (np_slice0_cut _ N sp s r Hwf Hds) by lia.
  set (R := rows (data self)).
  set (rs := take (Z.to_nat (N - r - s)) (drop (Z.to_nat s) R)).
  assert (Forall (λ row, length row = Z.to_nat (prod_shape sp)) rs) as Hrs.
  { apply Forall_take, Forall_drop.
    rewrite <- (stride_shape _ N sp Hds). by apply (rows_uniform _ N sp). }
  assert (Z.to_nat (N - r - s) = (Z.to_nat n * Z.to_nat k)%nat) as Hnk.
  { replace (N - r - s)%Z with (n * k)%Z by lia. apply Z2Nat.inj_mul; lia. }
  assert (length rs = (Z.to_nat n * Z.to_nat k)%nat) as Hrslen.
  { subst rs. rewrite length_take, length_drop. subst R.
    rewrite (rows_length _ N sp Hds). lia. }
  assert (∃ dc, _dim_coords self = Some dc ∧ dc !! TIME = Some (idx, tc))
    as (dc & Hdc & Hdct).
  { unfold time_axis in Htax. destruct (_dim_coords self) as [dc|]; [|done].
    by exists dc. }
  destruct (py_slice_stride tc s r k n) as (tc' & Htc' & Htc'len & Htc'lk);
    [lia..|].
  flat. rewrite (as_dim_ok k) by lia. cbn [rbind].
  rewrite np_reshape_nonneg; cycle 1.
  { repeat constructor; [lia..|done]. }
  { cbn [of_rows buf]. rewrite (concat_uniform_length _ _ Hrs), Hrslen.
    pose proof (prod_shape_nonneg sp Hsp).
    change (prod_shape (n :: k :: sp)) with (n * (k * prod_shape sp))%Z.
    rewrite !Nat2Z.inj_mul, !Z2Nat.id by lia. ring. }
  unfold _avg_func, np_mean_axis1, written. mrun.
  rewrite decide_True by done. flat.
  rewrite lookup_insert_eq. rewrite decide_True by done.
  unfold dim_coord, set_dim_coord. mrun. rewrite Hdc. flat. rewrite Hdct. flat.
  rewrite Htc'. flat. rewrite ?Hdc. flat.
  set (out := NdArray (n :: sp) _).
  assert (∃ st, ∀ self0 : DataObj,
            _ops_performed self0 = _ops_performed self →
            _add_to_operation_history (_curr_data_key self) key self0
            = (Ok tt, set_ops_performed st self0)) as [st Hst].
  { destruct (_curr_data_key self) as [ck|] eqn:Hck.
    - destruct Hhist as [hist Hh]. eexists. intros self0 Hops.
      unfold _add_to_operation_history. mrun. rewrite Hops, Hh. done.
    - eexists. intros self0 Hops.
      unfold _add_to_operation_history. mrun. by rewrite Hops. }
  rewrite Hst by reflexivity. flat.
  exists out, tc'. eexists. split; [reflexivity|]. flat.
  split; [reflexivity|]. split.
  { intros i Hi. rewrite (rows_lookup out n sp i) by done.
    rewrite (stride_shape out n sp) by done. subst out. cbn [buf].
    rewrite mean_axis1_chunk by done. do 2 f_equal. subst rs.
    rewrite take_drop_within.
    - by rewrite drop_drop.
    - rewrite Hnk. rewrite <- Nat.mul_succ_l.
      apply Nat.mul_le_mono_r. lia. }
  split; [exact Htc'len|]. split; [exact Htc'lk|].
  split; [reflexivity|]. split; [reflexivity|]. split.
  { unfold time_axis. flat. by rewrite lookup_insert_eq. }
  split; [by rewrite lookup_insert_eq|].
  split; [by rewrite lookup_insert_eq|]. reflexivity.
Qed.

End ResampleMain.

Section ResampleClaim.
Context `{Numeric}.

Lemma resample_shift_past_end (self : DataObj) N sp idx tc key (k s : Z) :
  has_time_axis self N sp idx tc → (1 ≤ k)%Z → (N < s)%Z →
  time_average_resample key k s self = (Raise ValueError, self).
Proof.
  intros (Hlead & Hshp & Hds & Hwf & _) Hk Hs.
  destruct (wf_array_length _ N sp Hwf Hds) as (HN & Hsp & _).
  unfold time_average_resample. mrun. rewrite Hlead. flat.
  rewrite (proj2 (Z.ltb_ge _ _)) by lia. rewrite Hshp.
  change (py_index [N] 0) with (Ok N). flat.
  unfold py_floordiv, py_mod.
  rewrite (proj2 (Z.eqb_neq _ _)) by lia. flat.
  unfold _new_empty_databin. mrun.
  rewrite (np_empty_negative _ ((N - s) / k)%Z); [done| |].
  - apply list_elem_of_here.
  - apply Z.div_lt_upper_bound; lia.
Qed.


End ResampleClaim.

(** ** Running mean *)

Section RunningMean.
Context `{Stats}.

(** The trim is the least multiple of the year length that covers half
    the window. *)
Lemma ceil_div_least_multiple (a b : Z) :
  (1 ≤ b)%Z →
  (a ≤ ceil_div a b * b < a + b)%Z.
Proof.
  intros Hb. unfold ceil_div.
  pose proof (Z.div_mod (- a) b ltac:(lia)) as Hdm.
  pose proof (Z.mod_pos_bound (- a) b ltac:(lia)) as Hmod.
  nia.
Qed.

Lemma py_slice_trim {A} (l : list A) (e : Z) :
  (1 ≤ e)%Z → (2 * e ≤ Z.of_nat (length l))%Z →
  py_slice l (Slice (Some e) (Some (- e)%Z) None)
  = Ok (take (Z.to_nat (Z.of_nat (length l) - 2 * e)) (drop (Z.to_nat e) l)).
Proof.
  intros He Hl. pose proof (py_slice_cut l e e) as Hcut.
  rewrite (proj2 (Z.eqb_neq _ _)) in Hcut by lia.
  rewrite Hcut by lia. do 3 f_equal. lia.
Qed.

(** The method on a series that is long enough, given the slice of the
    time coordinate and the result [run_mean] returns into the output
    array it is passed. *)
Lemma running_mean_run (self : DataObj) N sp idx tc (w y : Z) (save : bool)
    (res : ndarray V) (tc' : list V) :
  let year_len := if (y <? 1)%Z then 1%Z else y in
  let e := (ceil_div (w / 2) year_len * year_len)%Z in
  let out := output_arr_of self _RUNMEAN ((N - 2 * e)%Z :: sp) save in
  has_time_axis self N sp idx tc →
  py_slice tc (Slice (Some e) (Some (- e)%Z) None) = Ok tc' →
  (0 ≤ N - 2 * e)%Z →
  run_mean (data self) w e out = Ok res → check_out out res = Ok res →
  ∃ self',
    calc_running_mean w y save self = (Ok res, self') ∧
    data self' = res ∧
    _time_shp self' = [(N - 2 * e)%Z] ∧
    time_axis self' = Some (idx, tc') ∧
    _altered_time_coords self' !! _RUNMEAN = Some tc' ∧
    _curr_data_key self' = Some _RUNMEAN ∧
    (save && negb (_save_none self) = true →
     shape res = (N - 2 * e)%Z :: sp ∧
     _data_bins self' !! _RUNMEAN = Some res).
Proof.
  intros year_len e out (Hlead & Hshp & Hds & Hwf & Htax & Htc & Hhist)
    Hsl He Hrm Hfit.
  destruct (wf_array_length _ N sp Hwf Hds) as (HN & Hsp & _).
  assert (∃ dc, _dim_coords self = Some dc ∧ dc !! TIME = Some (idx, tc))
    as (dc & Hdc & Hdct).
  { unfold time_axis in Htax. destruct (_dim_coords self) as [dc|]; [|done].
    by exists dc. }
  assert (∃ st, ∀ self0 : DataObj,
            _ops_performed self0 = _ops_performed self →
            _add_to_operation_history (_curr_data_key self) _RUNMEAN self0
            = (Ok tt, set_ops_performed st self0)) as [st Hst].
  { destruct (_curr_data_key self) as [ck|] eqn:Hck.
    - destruct Hhist as [hist Hh]. eexists. intros self0 Hops.
      unfold _add_to_operation_history. mrun. rewrite Hops, Hh. done.
    - eexists. intros self0 Hops.
      unfold _add_to_operation_history. mrun. by rewrite Hops. }
  subst out. unfold output_arr_of in Hrm, Hfit.
  unfold calc_running_mean. mrun. rewrite Hlead. flat.
  fold year_len. fold e. clearbody e year_len.
  rewrite Hds. change (py_index (N :: sp) 0) with (Ok N). flat.
  unfold dim_coord, set_dim_coord. mrun. rewrite Hdc. flat. rewrite Hdct. flat.
  rewrite Hsl. flat. rewrite ?Hdc. flat.
  replace (N - e * 2)%Z with (N - 2 * e)%Z by lia.
  destruct (save && negb (_save_none self)) eqn:Hsave; flat.
  - unfold _new_empty_databin, setattr. mrun.
    rewrite np_empty_nonneg by (constructor; [lia | done]). flat.
    rewrite lookup_insert_eq, Hrm. cbn [rbind]. rewrite Hfit. flat.
    rewrite decide_True by done.
    unfold written. mrun. rewrite lookup_insert_eq.
    rewrite decide_True by done. flat.
    rewrite Hst by reflexivity. flat.
    eexists. split; [reflexivity|]. flat.
    split; [reflexivity|]. split; [reflexivity|].
    split; [unfold time_axis; flat; by rewrite lookup_insert_eq|].
    split; [by rewrite lookup_insert_eq|]. split; [reflexivity|].
    intros _. split; [|by rewrite lookup_insert_eq].
    unfold check_out in Hfit. cbn [shape] in Hfit.
    by destruct (decide (_ = shape res)).
  - rewrite Hrm. cbn [rbind]. rewrite Hfit. flat.
    destruct (attrs self !! _RUNMEAN) as [old|] eqn:Hattr; flat.
    + rewrite decide_True by eauto.
      unfold written. mrun. rewrite Hst by reflexivity. flat.
      eexists. split; [reflexivity|]. flat.
      split; [reflexivity|]. split; [reflexivity|].
      split; [unfold time_axis; flat; by rewrite lookup_insert_eq|].
      split; [by rewrite lookup_insert_eq|]. split; [reflexivity | done].
    + rewrite decide_False by (by intros [? ?]). flat.
      rewrite Hst by reflexivity. flat.
      eexists. split; [reflexivity|]. flat.
      split; [reflexivity|]. split; [reflexivity|].
      split; [unfold time_axis; flat; by rewrite lookup_insert_eq|].
      split; [by rewrite lookup_insert_eq|]. split; [reflexivity | done].
Qed.

(** A series shorter than twice the trim: the bin of a saved result
    would have a negative length. *)
Lemma running_mean_short (self : DataObj) N sp idx tc (w y : Z) (save : bool) :
  let year_len := if (y <? 1)%Z then 1%Z else y in
  let e := (ceil_div (w / 2) year_len * year_len)%Z in
  has_time_axis self N sp idx tc → (N < 2 * e)%Z →
  save && negb (_save_none self) = true →
  (calc_running_mean w y save self).1 = Raise ValueError.
Proof.
  intros year_len e (Hlead & Hshp & Hds & Hwf & Htax & Htc & Hhist) He Hsave.
  assert (∃ dc, _dim_coords self = Some dc ∧ dc !! TIME = Some (idx, tc))
    as (dc & Hdc & Hdct).
  { unfold time_axis in Htax. destruct (_dim_coords self) as [dc|]; [|done].
    by exists dc. }
  unfold calc_running_mean. mrun. rewrite Hlead. flat.
  fold year_len. fold e. clearbody e year_len.
  rewrite Hds. change (py_index (N :: sp) 0) with (Ok N). flat.
  unfold dim_coord, set_dim_coord. mrun. rewrite Hdc. flat. rewrite Hdct. flat.
  unfold py_slice. cbn [sl_step default]. change (1 =? 0)%Z with false.
  flat. rewrite ?Hdc. flat. rewrite Hsave. flat.
  unfold _new_empty_databin. mrun.
  rewrite (np_empty_negative _ (N - e * 2)%Z); [done| |lia].
  apply list_elem_of_here.
Qed.

End RunningMean.

(** ** Compression and inflation *)

Section MaskFacts.
Context {A : Type}.
Implicit Types (l : list A) (mask : list bool).

Lemma select_mask_length mask l :
  length l = length mask → length (select_mask mask l) = count_true mask.
Proof.
  unfold count_true. revert l. induction mask as [|b mask IH]; intros l Hl.
  - by destruct l.
  - destruct l as [|x l]; [done|]. injection Hl as Hl.
    rewrite filter_cons. destruct b; cbn [select_mask].
    + rewrite decide_True by done. cbn [length]. by rewrite IH.
    + rewrite decide_False by done. by rewrite IH.
Qed.

Lemma select_mask_app m1 m2 l1 l2 :
  length l1 = length m1 →
  select_mask (m1 ++ m2) (l1 ++ l2) = select_mask m1 l1 ++ select_mask m2 l2.
Proof.
  revert l1. induction m1 as [|b m1 IH]; intros l1 Hl.
  - by destruct l1.
  - destruct l1 as [|x l1]; [done|]. injection Hl as Hl. cbn.
    destruct b; cbn; by rewrite IH.
Qed.

Lemma count_true_app m1 m2 :
  count_true (m1 ++ m2) = (count_true m1 + count_true m2)%nat.
Proof. unfold count_true. by rewrite filter_app, length_app. Qed.

Lemma count_true_concat_replicate (n : nat) mask :
  count_true (concat (replicate n mask)) = (n * count_true mask)%nat.
Proof.
  induction n as [|n IH]; [done|].
  rewrite replicate_S. cbn [concat]. rewrite count_true_app, IH. lia.
Qed.

(** Assigning the selected values back restores them at the true
    positions; the other positions keep the filler. *)
Lemma mask_assign_select l mask (x0 : A) :
  length l = length mask →
  mask_assign (replicate (length l) x0) mask (select_mask mask l)
  = zip_with (λ x (b : bool), if b then x else x0) l mask.
Proof.
  revert mask. induction l as [|x l IH]; intros mask Hl.
  - by destruct mask.
  - destruct mask as [|b mask]; [done|]. injection Hl as Hl.
    cbn [length]. rewrite replicate_S. cbn. destruct b; cbn; by rewrite IH.
Qed.

Lemma concat_chunks (w n : nat) l :
  length l = (n * w)%nat → concat (map (chunk w l) (seq 0 n)) = l.
Proof.
  revert l. induction n as [|n IH]; intros l Hl.
  - by destruct l.
  - rewrite <- cons_seq, <- fmap_S_seq. cbn [map concat].
    rewrite <- list_fmap_compose.
    rewrite <- (take_drop w l) at 3. f_equal.
    etrans; [|apply (IH (drop w l)); rewrite length_drop; lia].
    f_equal. apply list_fmap_ext. intros _ i _. unfold chunk. cbn.
    rewrite drop_drop. repeat f_equal; lia.
Qed.

Lemma singleton_chunks l :
  map (chunk 1 l) (seq 0 (length l)) = map (λ x, [x]) l.
Proof.
  apply list_eq. intros i. rewrite !list_lookup_fmap.
  destruct (l !! i) as [x|] eqn:Hx; cbn.
  - rewrite lookup_seq_lt by (by eapply lookup_lt_Some). cbn.
    unfold chunk. rewrite Nat.mul_1_r.
    rewrite (drop_S _ _ _ Hx). by rewrite firstn_cons, take_0.
  - rewrite lookup_seq_ge; [done|]. by apply lookup_ge_None.
Qed.

Lemma select_mask_singletons mask l :
  concat (select_mask mask (map (λ x, [x]) l)) = select_mask mask l.
Proof.
  revert l. induction mask as [|b mask IH]; intros l; [done|].
  destruct l as [|x l]; [done|]. cbn. destruct b; cbn; by rewrite IH.
Qed.

Lemma select_mask_rows (n : nat) mask (rs : list (list A)) :
  Forall (λ r, length r = length mask) rs → length rs = n →
  select_mask (concat (replicate n mask)) (concat rs)
  = flat_map (select_mask mask) rs.
Proof.
  intros Hall. revert n. induction Hall as [|r rs Hr _ IH]; intros n Hn.
  - subst n. done.
  - destruct n as [|n]; [done|]. injection Hn as Hn.
    rewrite replicate_S. cbn [concat flat_map].
    rewrite select_mask_app by done. by rewrite IH.
Qed.

Lemma mask_overflow_exact mask :
  mask_overflow mask (length mask) = false.
Proof. unfold mask_overflow. by rewrite drop_all. Qed.

End MaskFacts.

Lemma flat_map_ext_Forall {X B} (f g : X → list B) (l : list X) :
  Forall (λ x, f x = g x) l → flat_map f l = flat_map g l.
Proof. induction 1 as [|x l Hx _ IH]; [done|]. cbn. by rewrite Hx, IH. Qed.

Section CompressInflate.
Context {A : Type}.
Implicit Types (d : ndarray A) (valid : list bool).

Lemma np_compress_axis1_rows valid d (T S : Z) :
  wf_array d → shape d = [T; S] → length valid = Z.to_nat S →
  np_compress_axis1 valid d None
  = Ok (NdArray [T; Z.of_nat (count_true valid)]
          (flat_map (select_mask valid) (rows d))).
Proof.
  intros Hwf Hs Hv. unfold np_compress_axis1. rewrite Hs.
  rewrite <- Hv, mask_overflow_exact. cbn [check_out].
  rewrite select_mask_length by (by rewrite length_seq).
  do 2 f_equal. apply flat_map_ext_Forall.
  pose proof (rows_uniform d T [S] Hwf Hs) as Hrows.
  rewrite (stride_shape d T [S] Hs) in Hrows.
  eapply Forall_impl; [exact Hrows|]. intros r Hr. cbn beta.
  change (Z.to_nat (prod_shape [])) with 1%nat.
  replace (length valid) with (length r).
  - by rewrite singleton_chunks, select_mask_singletons.
  - rewrite Hr, Hv. unfold prod_shape. cbn [foldr]. f_equal. lia.
Qed.

Lemma np_compress_flat_all valid d :
  length valid = length (buf d) →
  np_compress_flat valid d None
  = Ok (NdArray [Z.of_nat (count_true valid)] (select_mask valid (buf d))).
Proof.
  intros Hv. unfold np_compress_flat. rewrite <- Hv, mask_overflow_exact.
  cbn [check_out]. by rewrite select_mask_length.
Qed.

Lemma bcast_buf_cons (m d : Z) (src dst : list Z) (l : list A) :
  bcast_buf (m :: src) (d :: dst) l
  = if (m =? d)%Z
    then flat_map (λ i, bcast_buf src dst (chunk (Z.to_nat (prod_shape src)) l i))
                  (seq 0 (Z.to_nat m))
    else concat (replicate (Z.to_nat d) (bcast_buf src dst l)).
Proof. done. Qed.

Lemma bcast_buf_same (S : Z) (l : list A) :
  length l = Z.to_nat S → bcast_buf [S] [S] l = l.
Proof.
  intros Hl. cbn [bcast_buf]. rewrite Z.eqb_refl.
  change (Z.to_nat (prod_shape [])) with 1%nat.
  rewrite flat_map_concat_map, <- Hl.
  apply concat_chunks. lia.
Qed.

Lemma bcast_buf_rows (T S : Z) (l : list A) :
  length l = Z.to_nat S →
  bcast_buf [1%Z; S] [T; S] l = concat (replicate (Z.to_nat T) l).
Proof.
  intros Hl. rewrite bcast_buf_cons.
  destruct (1 =? T)%Z eqn:HT.
  - apply Z.eqb_eq in HT. subst T.
    change (Z.to_nat 1) with 1%nat. cbn [seq flat_map].
    cbn [replicate concat]. f_equal.
    rewrite bcast_buf_same.
    + unfold chunk. cbn [Nat.mul drop]. apply take_ge.
      rewrite Hl. unfold prod_shape. cbn [foldr]. lia.
    + rewrite chunk_length; unfold prod_shape; cbn [foldr]; lia.
  - by rewrite bcast_buf_same.
Qed.

Lemma broadcast_dim_same (m : Z) : broadcast_dim m m = Some m.
Proof. unfold broadcast_dim. by rewrite Z.eqb_refl. Qed.

Lemma broadcast_dim_one (m : Z) : broadcast_dim m 1 = Some m.
Proof.
  unfold broadcast_dim. destruct (m =? 1)%Z eqn:Hm; [|done].
  apply Z.eqb_eq in Hm. by subst m.
Qed.

End CompressInflate.

(** The valid mask seen over [T] rows, whether or not the loop of
    [inflate_full_grid] expanded it. *)
Lemma np_broadcast_mask_rows (T S : Z) (valid : list bool) (expanded : bool) :
  length valid = Z.to_nat S →
  np_broadcast_with [T; S]
    (NdArray (if expanded then [1%Z; S] else [S]) valid)
  = Ok (NdArray [T; S] (concat (replicate (Z.to_nat T) valid))).
Proof.
  intros Hv. unfold np_broadcast_with, broadcast_shapes, pad_shape.
  destruct expanded;
    cbn [shape buf length max Nat.sub zip zip_with app mapM fst snd replicate];
    rewrite broadcast_dim_one, broadcast_dim_same;
    cbn -[bcast_buf]; by rewrite bcast_buf_rows.
Qed.

Lemma np_broadcast_mask_flat (S : Z) (valid : list bool) :
  length valid = Z.to_nat S →
  np_broadcast_with [S] (NdArray [S] valid) = Ok (NdArray [S] valid).
Proof.
  intros Hv. unfold np_broadcast_with, broadcast_shapes, pad_shape.
  cbn [shape buf length max Nat.sub zip zip_with app mapM fst snd replicate].
  rewrite broadcast_dim_same. cbn -[bcast_buf]. by rewrite bcast_buf_same.
Qed.

Section RoundTrip.
Context `{Numeric}.

Lemma lookup_concat_replicate {A} (n : nat) (l : list A) (p : nat) :
  (p < n * length l)%nat →
  concat (replicate n l) !! p = l !! (p mod length l)%nat.
Proof.
  intros Hp. assert (length l ≠ 0)%nat as Hl by lia.
  rewrite (Nat.div_mod_eq p (length l)) at 1.
  rewrite (Nat.mul_comm (length l)).
  rewrite (lookup_concat_uniform (length l)).
  - rewrite lookup_replicate_2; [done|].
    apply Nat.Div0.div_lt_upper_bound. lia.
  - by apply Forall_replicate.
  - by apply Nat.mod_upper_bound.
Qed.

Lemma compress_succeeds (self : DataObj) (d : ndarray V) (valid : list bool)
    (leading : bool) (T S : Z) :
  _leading_time self = leading →
  wf_array d → shape d = (if leading then [T; S] else [S]) →
  length valid = Z.to_nat S →
  match cell_area self with
  | Some ca => length (buf ca) = length valid
  | None => True
  end →
  ∃ cd ca',
    _compress_to_valid_data d valid None self
    = (Ok cd, set_cell_area ca' self) ∧
    buf cd = select_mask (concat (replicate (if leading then Z.to_nat T else 1)
                                            valid)) (buf d) ∧
    length (buf cd)
    = ((if leading then Z.to_nat T else 1) * count_true valid)%nat.
Proof.
  intros <- Hwf Hs Hv Hca.
  assert (∃ cd, (if _leading_time self then np_compress_axis1 valid d None
                 else np_compress_flat valid d None) = Ok cd ∧
    buf cd = select_mask (concat (replicate (if _leading_time self then Z.to_nat T else 1)
                                            valid)) (buf d))
    as (cd & Hcd & Hbuf).
  { destruct (_leading_time self).
    - rewrite (np_compress_axis1_rows valid d T S) by done.
      eexists. split; [done|]. cbn [buf].
      rewrite <- (select_mask_rows (Z.to_nat T)).
      + f_equal. unfold rows. rewrite Hs. cbn [hd]. apply concat_chunks.
        by destruct (wf_array_length d T [S] Hwf Hs) as (_ & _ & Hlen).
      + pose proof (rows_uniform d T [S] Hwf Hs) as Hrows.
        eapply Forall_impl; [exact Hrows|]. intros r ->.
        rewrite (stride_shape d T [S] Hs), Hv.
        unfold prod_shape. cbn [foldr]. f_equal. lia.
      + apply (rows_length d T [S] Hs).
    - assert (length (buf d) = Z.to_nat S) as Hlen.
      { destruct Hwf as [_ Hlen]. rewrite Hs in Hlen.
        unfold prod_shape in Hlen. cbn [foldr] in Hlen. lia. }
      rewrite np_compress_flat_all by lia.
      eexists. split; [done|]. cbn [buf replicate concat].
      by rewrite app_nil_r. }
  assert (length (buf cd)
          = ((if _leading_time self then Z.to_nat T else 1) * count_true valid)%nat) as Hlen.
  { rewrite Hbuf, select_mask_length.
    - apply count_true_concat_replicate.
    - rewrite (concat_uniform_length (length valid))
        by (by apply Forall_replicate).
      rewrite length_replicate.
      destruct (_leading_time self).
      + destruct (wf_array_length d T [S] Hwf Hs) as (_ & _ & ->).
        rewrite (stride_shape d T [S] Hs), Hv.
        unfold prod_shape. cbn [foldr]. f_equal. lia.
      + destruct Hwf as [_ Hl]. rewrite Hs in Hl.
        unfold prod_shape in Hl. cbn [foldr] in Hl. lia. }
  unfold _compress_to_valid_data. mrun. rewrite Hcd. flat.
  rewrite decide_False by (by intros [? ?]). flat.
  destruct (cell_area self) as [ca|] eqn:Hcell; flat.
  - rewrite np_compress_flat_all by done. flat.
    exists cd. eexists. split; [reflexivity | done].
  - exists cd, None. split; [|done]. f_equal.
    destruct self. cbn in Hcell. by subst.
Qed.

Lemma np_full_nan_nonneg (shp : list Z) :
  Forall (λ d, 0 ≤ d)%Z shp →
  np_full_nan shp = Ok (NdArray shp (replicate (Z.to_nat (prod_shape shp)) nan)).
Proof. intros Hshp. unfold np_full_nan. by rewrite has_negative_false. Qed.

Lemma np_expand_dims_front {A} (S : Z) (l : list A) :
  np_expand_dims (NdArray [S] l) 0 = Ok (NdArray [1%Z; S] l).
Proof. reflexivity. Qed.

(** What [inflate_full_grid()] returns on a masked object whose current
    data holds [rows] compressed rows. *)
Lemma inflate_current (self : DataObj) (valid : list bool) (leading : bool)
    (T S : Z) :
  is_masked self = true → valid_data self = Some valid →
  _time_shp self = (if leading then [T] else []) →
  (0 ≤ T)%Z → (0 ≤ S)%Z → length valid = Z.to_nat S →
  let n := if leading then Z.to_nat T else 1%nat in
  length (buf (data self)) = (n * count_true valid)%nat →
  inflate_full_grid None (-1) false self
  = (Ok (Some (NdArray (_time_shp self ++ [S])
                 (mask_assign (replicate (n * length valid) nan)
                              (concat (replicate n valid))
                              (buf (data self))))),
     self).
Proof.
  intros Hm Hvd Hts HT HS Hv n Hlen.
  unfold inflate_full_grid. mrun. rewrite Hm, Hvd. flat.
  rewrite Hts, Hv, Z2Nat.id by done.
  destruct leading; cbn [app imap].
  - rewrite np_full_nan_nonneg by (repeat constructor; lia). flat.
    rewrite Z.eqb_refl.
    assert (∀ expanded : bool,
              np_broadcast_with [T; S]
                (NdArray (if expanded then [1%Z; S] else [S]) valid)
              = Ok (NdArray [T; S] (concat (replicate (Z.to_nat T) valid))))
      as Hb by (intros; by apply np_broadcast_mask_rows).
    destruct (T =? S)%Z; [rewrite (Hb false) | rewrite np_expand_dims_front;
                          cbn [rbind]; rewrite (Hb true)]; flat.
    all: unfold np_mask_assign; cbn [shape buf].
    all: rewrite decide_True by done.
    all: rewrite decide_True by (by rewrite count_true_concat_replicate).
    all: do 5 f_equal; unfold prod_shape; cbn [foldr]; subst n.
    all: rewrite <- Z2Nat.inj_mul by lia; f_equal; lia.
  - rewrite np_full_nan_nonneg by (repeat constructor; lia). flat.
    rewrite Z.eqb_refl. flat.
    rewrite np_broadcast_mask_flat by done. flat.
    unfold np_mask_assign. cbn [shape buf].
    rewrite decide_True by done.
    rewrite decide_True by (rewrite Hlen; subst n; cbn; lia).
    rewrite app_nil_r, Nat.add_0_r. unfold prod_shape. cbn [foldr].
    by rewrite Z.mul_1_r.
Qed.

Lemma inflate_wrong_length (self : DataObj) (valid : list bool)
    (data_in : ndarray V) (expand_axis : Z) (reshape_orig : bool) (m : Z) :
  is_masked self = true → valid_data self = Some valid →
  py_index (shape data_in) expand_axis = Ok m →
  m ≠ Z.of_nat (count_true valid) →
  inflate_full_grid (Some data_in) expand_axis reshape_orig self
  = (Raise ValueError, self).
Proof.
  intros Hm Hvd Hidx Hne. unfold inflate_full_grid. mrun.
  rewrite Hm, Hvd. flat. rewrite Hidx. flat.
  by rewrite (proj2 (Z.eqb_neq _ _) Hne).
Qed.

(** C7.  On a masked object: compressing an array to the valid cells and
    inflating the result gives back an array of the original shape that
    holds the original value at every position of a valid cell and NaN
    at every position of an invalid cell, with or without a leading time
    axis; and inflating supplied data whose length along the expanded
    axis is not the number of valid cells raises [ValueError]. *)
Theorem compress_then_inflate (self : DataObj) (valid : list bool) :
  is_masked self = true → valid_data self = Some valid →
  (∀ (d : ndarray V) (T S : Z),
     _time_shp self = (if _leading_time self then [T] else []) →
     wf_array d →
     shape d = (if _leading_time self then [T; S] else [S]) →
     length valid = Z.to_nat S →
     match cell_area self with
     | Some ca => length (buf ca) = length valid
     | None => True
     end →
     ∃ cd ca' full,
       _compress_to_valid_data d valid None self
       = (Ok cd, set_cell_area ca' self) ∧
       inflate_full_grid None (-1) false (set_data cd (set_cell_area ca' self))
       = (Ok (Some full), set_data cd (set_cell_area ca' self)) ∧
       shape full = shape d ∧
       length (buf full) = length (buf d) ∧
       ∀ p x (b : bool),
         buf d !! p = Some x → valid !! (p mod length valid)%nat = Some b →
         buf full !! p = Some (if b then x else nan)) ∧
  (∀ (data_in : ndarray V) (expand_axis : Z) (reshape_orig : bool) (m : Z),
     py_index (shape data_in) expand_axis = Ok m →
     m ≠ Z.of_nat (count_true valid) →
     inflate_full_grid (Some data_in) expand_axis reshape_orig self
     = (Raise ValueError, self)).
Proof.
  intros Hm Hvd. split; [|intros; by eapply inflate_wrong_length].
  intros d T S Hts Hwf Hs Hv Hca.
  destruct (compress_succeeds self d valid (_leading_time self) T S)
    as (cd & ca' & Hcomp & Hbuf & Hlen); [done..|].
  set (n := if _leading_time self then Z.to_nat T else 1%nat) in *.
  assert (0 ≤ T ∨ _leading_time self = false)%Z as HT.
  { destruct (_leading_time self); [left | by right].
    by destruct (wf_array_length d T [S] Hwf Hs) as (? & _). }
  assert (0 ≤ S)%Z as HS.
  { destruct Hwf as [Hnn _]. rewrite Hs in Hnn.
    destruct (_leading_time self).
    - by apply Forall_cons in Hnn as [_ [? _]%Forall_cons].
    - by apply Forall_cons in Hnn as [? _]. }
  assert (length (buf d) = (n * length valid)%nat) as Hd.
  { subst n. destruct (_leading_time self).
    - destruct (wf_array_length d T [S] Hwf Hs) as (_ & _ & ->).
      rewrite (stride_shape d T [S] Hs), Hv.
      unfold prod_shape. cbn [foldr]. f_equal. lia.
    - destruct Hwf as [_ Hl]. rewrite Hs in Hl.
      unfold prod_shape in Hl. cbn [foldr] in Hl. lia. }
  pose proof (inflate_current (set_data cd (set_cell_area ca' self)) valid
                (_leading_time self) (Z.max 0 T) S) as Hinf.
  cbn [is_masked valid_data _time_shp data set_data set_cell_area] in Hinf.
  assert ((if _leading_time self then Z.to_nat (Z.max 0 T) else 1%nat) = n)
    as Hn by (subst n; destruct HT as [?| ->]; [case_match; lia | done]).
  rewrite Hn in Hinf.
  exists cd, ca'. eexists. split; [exact Hcomp|]. split.
  { apply Hinf; try done; try lia.
    rewrite Hts. destruct HT as [?| ->]; [|done].
    case_match; [|done]. do 2 f_equal. lia. }
  cbn [shape buf]. rewrite Hbuf, <- Hd.
  rewrite mask_assign_select
    by (rewrite (concat_uniform_length (length valid))
          by (by apply Forall_replicate); by rewrite length_replicate).
  split; [rewrite Hts; by destruct (_leading_time self)|].
  split.
  { rewrite length_zip_with.
    rewrite (concat_uniform_length (length valid))
      by (by apply Forall_replicate).
    rewrite length_replicate. lia. }
  intros p x b Hx Hb. rewrite lookup_zip_with, Hx. cbn.
  rewrite lookup_concat_replicate, Hb; [done|].
  apply lookup_lt_Some in Hx. lia.
Qed.

End RoundTrip.

(** ** The running mean, the constructor and the copy *)

Section MoreClaims.
Context `{Stats}.


(** X12.  Every external mask of at most three axes is rejected by the
    constructor. *)
Lemma init_rejects_small_masks (d : ndarray V) dim_coords coord_grids
    (valid : ndarray bool) force_flat cell_area irregular_grid save_none
    fill_value :
  (ndim valid ≤ 3)%nat →
  is_ok (init d dim_coords coord_grids (Some valid) force_flat cell_area
           irregular_grid save_none fill_value) = false.
Proof.
  intros Hnd. unfold init.
  set (r := init_body _ _ _ _ _ _).
  assert (∃ e s, r = (Raise e, s)) as (e & s & ->); [|done].
  subst r. unfold init_body. mrun.
  destruct (decide (4 < ndim d)%nat); flat; [by eexists _, _|].
  destruct dim_coords as [dc|]; flat.
  - destruct (dc !! TIME) as [[time_idx time_coord]|]; flat.
    + destruct (time_idx =? 0)%Z; flat; [|by eexists _, _].
      destruct (py_index (shape d) 0); flat; [|by eexists _, _].
      destruct (_match_dims (shape d) dc); flat; [|by eexists _, _].
      rewrite decide_True by done. by eexists _, _.
    + destruct (_match_dims (shape d) dc); flat; [|by eexists _, _].
      rewrite decide_True by done. by eexists _, _.
  - rewrite decide_True by done. by eexists _, _.
Qed.

(** X16.  A slice without an explicit start or stop makes [copy] raise
    [TypeError]. *)
Lemma copy_open_slice_raises (self : DataObj) (s : slice) ck hist dc tcoord :
  _leading_time self = true →
  _curr_data_key self = Some ck → _ops_performed self !! ck = Some hist →
  _dim_coords self = Some dc → dc !! TIME = Some tcoord →
  sl_start s = None ∨ sl_stop s = None →
  copy (Some (IdxSlice s)) self = (Raise TypeError, self).
Proof.
  intros Hl Hck Hh Hdc Ht Hs. unfold copy. mrun.
  rewrite Hl, Hck. flat. rewrite Hh. flat. rewrite Hdc. flat.
  rewrite Ht. flat. destruct tcoord as [time_idx time_coord]. flat.
  destruct s as [start stop step]. cbn in Hs.
  destruct Hs as [-> | ->]; [by destruct stop | done].
Qed.

End MoreClaims.

(** ** The claims on concrete objects *)

Section Concrete.
#[local] Existing Instance sym_numeric.
#[local] Existing Instance sym_stats.

Local Open Scope Z_scope.

(** Closed goals are settled by evaluation. *)
Ltac run := vm_compute; reflexivity.

Lemma series_has_time_axis (n : nat) :
  n = 10%nat ∨ n = 20%nat ∨ n = 30%nat →
  has_time_axis (series n) (Z.of_nat n) [] 0 (series_time n).
Proof.
  intros [-> | [-> | ->]]; unfold has_time_axis;
    (split_and!; [run | run | run
                 | split; [repeat constructor; lia | run]
                 | run | run
                 | vm_compute; by eexists]).
Defined.



(** The spec example: ten samples in blocks of three. *)
Example resample_ten_by_three :
  (time_average_resample "resampled" 3 0 (series 10)).1
  = Ok (NdArray [3]
          [SApp "mean" (lits [0; 1; 2]); SApp "mean" (lits [3; 4; 5]);
           SApp "mean" (lits [6; 7; 8])]) ∧
  (time_average_resample "resampled" 3 1 (series 10)).1
  = Ok (NdArray [3]
          [SApp "mean" (lits [1; 2; 3]); SApp "mean" (lits [4; 5; 6]);
           SApp "mean" (lits [7; 8; 9])]) ∧
  time_axis (time_average_resample "resampled" 3 1 (series 10)).2
  = Some (0, lits [101; 104; 107]).
Proof. split_and!; run. Qed.



(** C3: the code rejects the mask the claim says it applies.  A mask
    [[True, False]] for the data [[1, 2]] has the shape of the data and
    one axis; the constructor raises [ValueError]. *)
Theorem init_rejects_matching_mask :
  init (NdArray [2] (lits [1; 2])) None None
       (Some (NdArray [2] [true; false])) false None false false None
  = Raise ValueError.
Proof. run. Qed.

Lemma init_rejects_small_masks_witness :
  is_ok (init (NdArray [2] (lits [1; 2])) None None
           (Some (NdArray [2] [true; false])) false None false false None)
  = false.
Proof. apply init_rejects_small_masks. vm_compute. lia. Defined.

(** C4 as stated fails: an object without a leading time axis is area
    weighted and standardized without an error, and the new stage is
    committed. *)
Lemma area_weight_without_time_axis :
  _leading_time cells = false ∧
  is_ok (area_weight_data true true cells).1 = true ∧
  _curr_data_key (area_weight_data true true cells).2 = Some _AWGHT ∧
  is_ok (standardize_data None true cells).1 = true ∧
  _curr_data_key (standardize_data None true cells).2 = Some _STD.
Proof. split_and!; run. Qed.

Lemma transforms_require_leading_time_witness :
  run_call (Detrend true) cells = (Raise ValueError, cells).
Proof.
  apply (transforms_require_leading_time cells (Detrend true)); run.
Defined.

(** C5 as stated fails: a running mean whose trim exceeds the series
    raises after it has replaced the time coordinate. *)
Lemma running_mean_error_alters_object :
  (calc_running_mean 12 12 true (series 10)).1 = Raise ValueError ∧
  time_axis (series 10) = Some (0, series_time 10) ∧
  time_axis (calc_running_mean 12 12 true (series 10)).2 = Some (0, []) ∧
  (calc_running_mean 12 12 true (series 10)).2 ≠ series 10.
Proof.
  split_and!; [run..|].
  intros Heq. apply (f_equal time_axis) in Heq. vm_compute in Heq.
  discriminate Heq.
Qed.

Lemma entry_guard_leaves_object_untouched_witness :
  ∃ e, run_call (Resample "resampled" 3 (-1)) (series 10)
       = (Raise e, series 10).
Proof.
  apply (entry_guard_leaves_object_untouched (series 10)
           (Resample "resampled" 3 (-1))).
  run.
Defined.

Lemma compress_then_inflate_witness :
  ∃ full,
    (inflate_full_grid None (-1) false gridded).1 = Ok (Some full) ∧
    shape full = [3; 4] ∧
    buf full !! 5%nat = Some (SLit 11) ∧
    buf full !! 2%nat = Some SNaN.
Proof.
  destruct (compress_then_inflate gridded [true; true; false; true])
    as [Hrt _]; [run | run |].
  destruct (Hrt gridded_flat 3 4) as (cd & ca' & full & Hc & Hi & Hs & _ & Hv).
  - run.
  - split; [repeat constructor; lia | run].
  - run.
  - run.
  - exact I.
  - assert (set_data cd (set_cell_area ca' gridded) = gridded) as Hobj.
    { vm_compute in Hc. injection Hc as <- <-. run. }
    rewrite Hobj in Hi. exists full. split; [by rewrite Hi|].
    split; [exact Hs|]. split.
    + apply (Hv 5%nat (SLit 11) true); run.
    + apply (Hv 2%nat (SLit 2) false); run.
Defined.

(** The round trip through the constructor, as in the spec's test. *)
Example gridded_round_trip :
  is_masked gridded = true ∧
  data gridded
  = NdArray [3; 3] (lits [0; 1; 3; 10; 11; 13; 20; 21; 23]) ∧
  (inflate_full_grid None (-1) false gridded).1
  = Ok (Some (NdArray [3; 4]
                [SLit 0; SLit 1; SNaN; SLit 3;
                 SLit 10; SLit 11; SNaN; SLit 13;
                 SLit 20; SLit 21; SNaN; SLit 23])).
Proof. split_and!; run. Qed.

(** C8: the code contradicts the documented shape.  After a projection
    on two EOFs was saved, a projection on one EOF with [save=False] is
    written into the old bin and comes back with two columns. *)
Theorem eof_proj_into_stale_bin :
  shape <$> _data_bins two_cells_projected !! _EOFPROJ = Some [3; 2] ∧
  ∃ out,
    (eof_proj_data 1 None false None None two_cells_projected).1 = Ok out ∧
    shape out = [3; 2].
Proof. split; [run|]. eexists. split; run. Qed.

(** C9: the code raises on a slice the documentation allows. *)
Theorem copy_slice_without_start :
  _leading_time (series 10) = true ∧
  (copy (Some (IdxSlice (Slice None (Some 2) None))) (series 10)).1
  = Raise TypeError.
Proof. split; run. Qed.

Lemma copy_open_slice_raises_witness :
  copy (Some (IdxSlice (Slice None (Some 2) None))) (series 10)
  = (Raise TypeError, series 10).
Proof.
  eapply copy_open_slice_raises; [run.. | by left].
Defined.

Lemma inflate_unmasked_is_none_witness :
  inflate_full_grid None (-1) true (series 10) = (Ok None, series 10).
Proof. apply inflate_unmasked_is_none. run. Defined.

End Concrete.

(** * Further properties of the code *)

(** ** What the transforms never change *)

Section Preserved.
Context `{Stats} {B : Type} (f : DataObj → B).

Lemma preserves_ret {A} (a : A) : preserves f (mret a).
Proof. by intros s. Qed.

Lemma preserves_raise {A} e : preserves f (raise e : M DataObj A).
Proof. by intros s. Qed.

Lemma preserves_lift {A} (r : result A) : preserves f (lift r).
Proof. by intros s. Qed.

Lemma preserves_get : preserves f (get : M DataObj DataObj).
Proof. by intros s. Qed.

Lemma preserves_gets {A} (g : DataObj → A) : preserves f (gets g).
Proof. by intros s. Qed.

Lemma preserves_modify (g : DataObj → DataObj) :
  (∀ self, f (g self) = f self) → preserves f (modify g).
Proof. intros Hg s. apply Hg. Qed.

Lemma preserves_bind {A C} (m : M DataObj A) (k : A → M DataObj C) :
  preserves f m → (∀ a, preserves f (k a)) → preserves f (m ≫= k).
Proof.
  intros Hm Hk s. specialize (Hm s). munfold.
  destruct (m s) as [[a|e] s']; cbn in *; [|done].
  by rewrite Hk.
Qed.

End Preserved.

(** One step through a method: the monad rules, a case split on whatever
    a branch inspects, and [fin] for the assignments. *)
Ltac preserves_step fin :=
  first
    [ apply preserves_ret | apply preserves_raise | apply preserves_lift
    | apply preserves_get | apply preserves_gets
    | apply preserves_modify; intros []; fin
    | apply preserves_bind; [|intros ?]
    | match goal with
      | |- preserves _ (if ?b then _ else _) => destruct b
      | |- preserves _ (match ?x with _ => _ end) => destruct x
      | |- preserves _ (let _ := _ in _) => cbv zeta
      end ].

Create HintDb keeps.

Ltac preserves_with fin :=
  repeat first [ solve [auto with keeps] | preserves_step fin ].

Section Frame.
Context `{Stats}.

Ltac keeps := preserves_with ltac:(reflexivity).

Lemma keeps_set_curr_data_key key :
  preserves fixed_attrs (_set_curr_data_key key).
Proof. unfold _set_curr_data_key. keeps. Qed.

Lemma keeps_add_to_operation_history curr key :
  preserves fixed_attrs (_add_to_operation_history curr key).
Proof. unfold _add_to_operation_history. keeps. Qed.

Lemma keeps_new_empty_databin shp name :
  preserves fixed_attrs (_new_empty_databin shp name).
Proof. unfold _new_empty_databin. keeps. Qed.

Lemma keeps_setattr name v : preserves fixed_attrs (setattr name v).
Proof. unfold setattr. keeps. Qed.

Lemma keeps_written name v : preserves fixed_attrs (written name v).
Proof. unfold written. keeps. Qed.

Lemma keeps_dim_coord key : preserves fixed_attrs (dim_coord key).
Proof. unfold dim_coord. keeps. Qed.

Lemma keeps_set_dim_coord key v : preserves fixed_attrs (set_dim_coord key v).
Proof. unfold set_dim_coord. keeps. Qed.

Lemma keeps_flatten_curr_data : preserves fixed_attrs _flatten_curr_data.
Proof. unfold _flatten_curr_data. keeps. Qed.

#[local] Hint Resolve keeps_set_curr_data_key keeps_add_to_operation_history
  keeps_new_empty_databin keeps_setattr keeps_written keeps_dim_coord
  keeps_set_dim_coord keeps_flatten_curr_data : keeps.

Lemma keeps_set_time_coord key n :
  preserves fixed_attrs (_set_time_coord key n).
Proof. unfold _set_time_coord. keeps. Qed.

#[local] Hint Resolve keeps_set_time_coord : keeps.

Lemma keeps_reset_data key : preserves fixed_attrs (reset_data key).
Proof. unfold reset_data. keeps. Qed.

Lemma keeps_avg_func d name out : preserves fixed_attrs (_avg_func d name out).
Proof. unfold _avg_func. keeps. Qed.

Lemma keeps_store_result b name res :
  preserves fixed_attrs (store_result b name res).
Proof. unfold store_result. keeps. Qed.

Lemma keeps_get_coordinate_grid key c fl :
  preserves fixed_attrs (get_coordinate_grid key c fl).
Proof. unfold get_coordinate_grid. keeps. Qed.

#[local] Hint Resolve keeps_reset_data keeps_avg_func
  keeps_store_result keeps_get_coordinate_grid : keeps.

Lemma keeps_time_average_resample key k s :
  preserves fixed_attrs (time_average_resample key k s).
Proof. unfold time_average_resample. keeps. Qed.

(** X1.  No transform changes what the constructor fixed.  For a call
    whose stage key is not a name of the class (the key of a resample
    becomes an attribute of the object), whatever the other arguments
    and whether the call returns or raises, the object afterwards has
    the same full shape, flattening and grid flags, the same coordinate
    grids, fill value and [save_none] setting, the same leading-time
    flag, spatial shapes and dimension indices, and the same mask and
    validity vector as before. *)
Theorem transforms_keep_fixed_attrs (c : call) (self : DataObj) :
  reserved (stage_key c) = false →
  fixed_attrs (run_call c self).2 = fixed_attrs self.
Proof.
  intros _. revert self. change (preserves fixed_attrs (run_call c)).
  destruct c; unfold run_call.
  - unfold time_average_resample. keeps.
  - unfold calc_running_mean. keeps.
  - unfold calc_anomaly. keeps.
  - unfold detrend_data. keeps.
  - unfold area_weight_data. keeps.
  - unfold standardize_data. keeps.
  - unfold eof_proj_data. keeps.
Qed.

End Frame.

(** ** Earlier stages are not overwritten *)

Section OtherStages.
Context `{Stats} (k : string).

Ltac other :=
  preserves_with
    ltac:(unfold stage; cbn;
          rewrite ?lookup_insert_ne by done; reflexivity).

Lemma stage_set_curr_data_key key :
  preserves (stage k) (_set_curr_data_key key).
Proof. unfold _set_curr_data_key. other. Qed.

Lemma stage_add_to_operation_history curr key :
  key ≠ k → preserves (stage k) (_add_to_operation_history curr key).
Proof.
  intros Hk self. unfold _add_to_operation_history, stage.
  destruct curr as [ck|]; mrun; [destruct (_ops_performed self !! ck); flat|];
    by rewrite ?lookup_insert_ne by done.
Qed.

Lemma stage_new_empty_databin shp name :
  name ≠ k → preserves (stage k) (_new_empty_databin shp name).
Proof. intros Hk. unfold _new_empty_databin. other. Qed.

Lemma stage_setattr name v : preserves (stage k) (setattr name v).
Proof. unfold setattr. other. Qed.

Lemma stage_written name v :
  name ≠ k → preserves (stage k) (written name v).
Proof.
  intros Hk. unfold written. apply preserves_modify. intros self.
  unfold stage. flat. by destruct (decide _); rewrite ?lookup_insert_ne.
Qed.

Lemma stage_dim_coord key : preserves (stage k) (dim_coord key).
Proof. unfold dim_coord. other. Qed.

Lemma stage_set_dim_coord key v : preserves (stage k) (set_dim_coord key v).
Proof. unfold set_dim_coord. other. Qed.

Lemma stage_flatten_curr_data : preserves (stage k) _flatten_curr_data.
Proof. unfold _flatten_curr_data. other. Qed.

#[local] Hint Resolve stage_set_curr_data_key stage_add_to_operation_history
  stage_new_empty_databin stage_setattr stage_written stage_dim_coord
  stage_set_dim_coord stage_flatten_curr_data : keeps.

Lemma stage_set_time_coord key n : preserves (stage k) (_set_time_coord key n).
Proof. unfold _set_time_coord. other. Qed.

#[local] Hint Resolve stage_set_time_coord : keeps.

Lemma stage_reset_data key : preserves (stage k) (reset_data key).
Proof. unfold reset_data. other. Qed.

Lemma stage_avg_func d name out :
  name ≠ k → preserves (stage k) (_avg_func d name out).
Proof. intros Hk. unfold _avg_func. other. Qed.

Lemma stage_store_result b name res :
  name ≠ k → preserves (stage k) (store_result b name res).
Proof. intros Hk. unfold store_result. other. Qed.

Lemma stage_get_coordinate_grid key c fl :
  preserves (stage k) (get_coordinate_grid key c fl).
Proof. unfold get_coordinate_grid. other. Qed.

#[local] Hint Resolve stage_reset_data stage_avg_func
  stage_store_result stage_get_coordinate_grid : keeps.

Lemma stage_time_average_resample key n s :
  key ≠ k → preserves (stage k) (time_average_resample key n s).
Proof. intros Hk. unfold time_average_resample. other. Qed.

Lemma stage_calc_running_mean w y save :
  _RUNMEAN ≠ k → preserves (stage k) (calc_running_mean w y save).
Proof. intros Hk. unfold calc_running_mean. other. Qed.

(** X2.  A transform writes its own stage only.  For a call whose stage
    key is not a name of the class, and for every stage name other than
    the one the call commits, the bin, the history and the recorded time
    coordinate under that name are the same after the call as before,
    whether the call returns or raises. *)
Theorem transforms_write_own_stage (c : call) (self : DataObj) :
  reserved (stage_key c) = false →
  k ≠ stage_key c →
  stage k (run_call c self).2 = stage k self.
Proof.
  intros _ Hk. revert self. change (preserves (stage k) (run_call c)).
  destruct c; unfold run_call; cbn [stage_key] in Hk.
  - by apply stage_time_average_resample.
  - by apply stage_calc_running_mean.
  - unfold calc_anomaly. other.
  - unfold detrend_data. other.
  - unfold area_weight_data. other.
  - unfold standardize_data. other.
  - unfold eof_proj_data. other.
Qed.

End OtherStages.

(** ** Returning to a recorded stage *)

Section Reset.
Context `{Stats}.

Lemma reset_data_run (self : DataObj) (key : string) d n rest tc idx old :
  _data_bins self !! key = Some d → _leading_time self = true →
  shape d = n :: rest →
  spec_time_coord self key = Some tc →
  time_axis self = Some (idx, old) →
  Z.of_nat (length tc) = n →
  ∃ self',
    reset_data key self = (Ok d, self') ∧
    data self' = d ∧
    _curr_data_key self' = Some key ∧
    time_axis self' = Some (idx, tc) ∧
    _time_shp self' = [n] ∧
    _data_bins self' = _data_bins self ∧
    _ops_performed self' = _ops_performed self ∧
    _altered_time_coords self' = _altered_time_coords self.
Proof.
  intros Hb Hl Hs Htc Hax Heq.
  assert (∀ self0 : DataObj,
            _altered_time_coords self0 = _altered_time_coords self →
            _ops_performed self0 = _ops_performed self →
            resolve_time_coord self0 key = Ok tc) as Hres.
  { intros self0 Ha Ho.
    pose proof (resolve_time_coord_spec self0 key) as Hr.
    unfold spec_time_coord in Hr, Htc. rewrite Ha, Ho in Hr.
    by rewrite Htc in Hr. }
  assert (∃ dc, _dim_coords self = Some dc ∧ dc !! TIME = Some (idx, old))
    as (dc & Hdc & Hdct).
  { unfold time_axis in Hax. destruct (_dim_coords self) as [dc|]; [|done].
    by exists dc. }
  unfold reset_data. mrun. rewrite Hb. flat.
  unfold _set_curr_data_key. mrun. rewrite Hl, Hs.
  change (py_index (n :: rest) 0) with (Ok n). flat.
  unfold _set_time_coord. mrun. rewrite Hres by reflexivity. flat.
  rewrite (proj2 (Z.eqb_eq _ _) Heq). flat.
  unfold dim_coord, set_dim_coord. mrun. rewrite Hdc. flat.
  rewrite Hdct. flat. rewrite ?Hdc. flat.
  eexists. split; [reflexivity|]. flat.
  split_and!; try reflexivity.
  unfold time_axis. flat. by rewrite lookup_insert_eq.
Qed.

(** X4.  [reset_data] on a key without a data bin raises [KeyError] and
    leaves the object untouched.  On a recorded key it makes the bin the
    current data and the key the current stage; with a leading time axis
    it also restores the time coordinate the key resolves to and the
    time shape, provided the resolved vector has as many entries as the
    bin has samples (otherwise it raises [ValueError]).  Bins, history
    and recorded coordinates are not changed. *)
Theorem reset_data_restores (self : DataObj) (key : string) :
  (_data_bins self !! key = None →
   reset_data key self = (Raise KeyError, self)) ∧
  (∀ d, _data_bins self !! key = Some d → _leading_time self = false →
     reset_data key self
     = (Ok d, set_curr_data_key (Some key) (set_data d self))) ∧
  (∀ d n rest tc idx old,
     _data_bins self !! key = Some d → _leading_time self = true →
     shape d = n :: rest →
     spec_time_coord self key = Some tc →
     time_axis self = Some (idx, old) →
     (Z.of_nat (length tc) ≠ n →
      (reset_data key self).1 = Raise ValueError) ∧
     (Z.of_nat (length tc) = n →
      ∃ self',
        reset_data key self = (Ok d, self') ∧
        data self' = d ∧
        _curr_data_key self' = Some key ∧
        time_axis self' = Some (idx, tc) ∧
        _time_shp self' = [n] ∧
        _data_bins self' = _data_bins self ∧
        _ops_performed self' = _ops_performed self ∧
        _altered_time_coords self' = _altered_time_coords self)).
Proof.
  split_and!.
  - intros Hb. unfold reset_data. mrun. by rewrite Hb.
  - intros d Hb Hl. unfold reset_data. mrun. rewrite Hb. flat.
    unfold _set_curr_data_key. mrun. by rewrite Hl.
  - intros d n rest tc idx old Hb Hl Hs Htc Hax. split.
    + intros Hne.
      pose proof (resolve_time_coord_spec self key) as Hr.
      unfold spec_time_coord in Hr, Htc. rewrite Htc in Hr.
      unfold reset_data. mrun. rewrite Hb. flat.
      unfold _set_curr_data_key. mrun. rewrite Hl, Hs.
      change (py_index (n :: rest) 0) with (Ok n). flat.
      unfold _set_time_coord. mrun.
      change (resolve_time_coord _ key) with (resolve_time_coord self key).
      rewrite Hr. flat. by rewrite (proj2 (Z.eqb_neq _ _) Hne).
    + intros Heq. by apply (reset_data_run self key d n rest tc idx old).
Qed.

Lemma reset_to_current_stage (self : DataObj) key d n rest idx tc :
  _leading_time self = true →
  data self = d → _data_bins self !! key = Some d →
  _curr_data_key self = Some key →
  _altered_time_coords self !! key = Some tc →
  time_axis self = Some (idx, tc) →
  _time_shp self = [n] → shape d = n :: rest →
  Z.of_nat (length tc) = n →
  reset_data key self = (Ok d, self).
Proof.
  intros Hl Hd Hb Hk Ha Hax Hts Hs Hlen.
  assert (∃ dc, _dim_coords self = Some dc ∧ dc !! TIME = Some (idx, tc))
    as (dc & Hdc & Hdct).
  { unfold time_axis in Hax. destruct (_dim_coords self) as [dc|]; [|done].
    by exists dc. }
  unfold reset_data. mrun. rewrite Hb. flat.
  unfold _set_curr_data_key. mrun. rewrite Hl, Hs.
  change (py_index (n :: rest) 0) with (Ok n). flat.
  unfold _set_time_coord, resolve_time_coord. mrun. rewrite Ha. flat.
  rewrite (proj2 (Z.eqb_eq _ _) Hlen). flat.
  unfold dim_coord, set_dim_coord. mrun. rewrite Hdc. flat.
  rewrite Hdct. flat. rewrite ?Hdc. flat.
  rewrite (insert_id dc TIME (idx, tc)) by done.
  f_equal. destruct self. cbn in *. by subst.
Qed.

Lemma reset_length_mismatch (self : DataObj) key d n rest tc :
  _leading_time self = true →
  _data_bins self !! key = Some d →
  _altered_time_coords self !! key = Some tc →
  shape d = n :: rest → Z.of_nat (length tc) ≠ n →
  reset_data key self
  = (Raise ValueError, set_curr_data_key (Some key) (set_data d self)).
Proof.
  intros Hl Hb Ha Hs Hlen.
  unfold reset_data. mrun. rewrite Hb. flat.
  unfold _set_curr_data_key. mrun. rewrite Hl, Hs.
  change (py_index (n :: rest) 0) with (Ok n). flat.
  unfold _set_time_coord, resolve_time_coord. mrun. rewrite Ha. flat.
  by rewrite (proj2 (Z.eqb_neq _ _) Hlen).
Qed.



End Reset.

(** ** The EOF projection *)

Section BroadcastFacts.
Context {A : Type}.

Lemma bcast_buf_id (shp : list Z) (l : list A) :
  Forall (λ d, 0 ≤ d)%Z shp →
  length l = Z.to_nat (prod_shape shp) → bcast_buf shp shp l = l.
Proof.
  intros Hshp. revert l. induction Hshp as [|m shp Hm Hshp IH]; intros l Hl.
  - by destruct l.
  - rewrite bcast_buf_cons, Z.eqb_refl.
    pose proof (prod_shape_nonneg shp Hshp) as Hp.
    assert (length l = (Z.to_nat m * Z.to_nat (prod_shape shp))%nat) as Hl'.
    { rewrite Hl. change (prod_shape (m :: shp)) with (m * prod_shape shp)%Z.
      apply Z2Nat.inj_mul; lia. }
    rewrite (flat_map_ext_Forall _ (chunk (Z.to_nat (prod_shape shp)) l)).
    + rewrite flat_map_concat_map. by apply concat_chunks.
    + apply Forall_forall. intros i Hi%elem_of_seq. apply IH.
      apply chunk_length. rewrite Hl'. nia.
Qed.

Lemma broadcast_shapes_same (shp : list Z) :
  broadcast_shapes shp shp = Some shp.
Proof.
  unfold broadcast_shapes, pad_shape.
  rewrite Nat.max_id, Nat.sub_diag. cbn [replicate app].
  induction shp as [|m shp IH]; [done|].
  cbn [zip zip_with mapM fst snd]. rewrite broadcast_dim_same.
  cbn. rewrite IH. done.
Qed.

Lemma np_broadcast_to_same (a : ndarray A) :
  wf_array a → np_broadcast_to a (shape a) = Ok a.
Proof.
  intros [Hshp Hlen]. unfold np_broadcast_to.
  rewrite decide_True by apply broadcast_shapes_same.
  unfold pad_shape. rewrite Nat.sub_diag. cbn [replicate app].
  rewrite bcast_buf_id by (done || lia). by destruct a.
Qed.

Lemma length_flat_map_const {B} (f : A → list B) (l : list A) (k : nat) :
  (∀ x, length (f x) = k) → length (flat_map f l) = (length l * k)%nat.
Proof.
  intros Hf. induction l as [|x l IH]; [done|].
  cbn. rewrite length_app, Hf, IH. lia.
Qed.

End BroadcastFacts.

Section EofProj.
Context `{Stats}.

(** The matrix product of [N] samples of [F] features with a basis of
    [k] columns has [N] rows of [k] entries. *)
Lemma np_dot_shape (a b : ndarray V) (N F k : Z) :
  shape a = [N; F] → wf_array a → (0 < F)%Z → shape b = [F; k] → (0 ≤ k)%Z →
  ∃ proj, np_dot a b = Ok proj ∧ shape proj = [N; k] ∧ wf_array proj.
Proof.
  intros Ha [Hsh Hlen] HF Hb Hk. unfold np_dot. rewrite Ha, Hb.
  cbn [last removelast app]. rewrite Z.eqb_refl.
  eexists. split; [reflexivity|]. split; [done|].
  rewrite Ha in Hsh, Hlen.
  assert (0 ≤ N)%Z as HN by (by inversion Hsh).
  split; cbn [shape buf].
  - repeat constructor; lia.
  - rewrite (length_flat_map_const _ _ (Z.to_nat k)).
    2:{ intros r. by rewrite !length_map, length_seq. }
    unfold last_axis_rows. rewrite length_map, length_seq.
    unfold prod_shape in *. cbn [foldr] in *.
    assert (length (buf a) = (Z.to_nat N * Z.to_nat F)%nat) as -> by nia.
    rewrite Nat.div_mul by lia. nia.
Qed.

(** X7.  The shape of a projection.  On an object with a leading time
    axis whose current stage is the area-weighted one and whose data has
    [N] samples of [F >= 1] features, a projection that either is saved
    or finds no earlier projection bin returns the matrix product of the
    data with the basis, of shape [(N, k)], and makes it the current
    data of the new stage [eof_proj].  The basis is the supplied one,
    whose column count [k] then replaces [num_eofs], or the one
    [calc_eofs] returns for [k = num_eofs]. *)
Theorem eof_proj_shape (self : DataObj) (N F k num_eofs : Z)
    (hist : list string) (eof_in : option (ndarray V)) (basis : ndarray V)
    (save : bool) :
  _leading_time self = true →
  _curr_data_key self = Some _AWGHT →
  _ops_performed self !! _AWGHT = Some hist →
  shape (data self) = [N; F] → wf_array (data self) → (0 < F)%Z →
  attrs self !! _EOFPROJ = None ∨ save && negb (_save_none self) = true →
  match eof_in with
  | Some e => e = basis
  | None => k = num_eofs ∧
            ∃ svals stats,
              calc_eofs (data self) num_eofs = Ok (basis, svals, stats)
  end →
  shape basis = [F; k] → (0 ≤ k)%Z →
  ∃ out self',
    eof_proj_data num_eofs eof_in save None None self = (Ok out, self') ∧
    np_dot (data self) basis = Ok out ∧
    shape out = [N; k] ∧
    data self' = out ∧
    _eofs self' = Some basis ∧
    _curr_data_key self' = Some _EOFPROJ ∧
    _ops_performed self' !! _EOFPROJ = Some (hist ++ [_EOFPROJ]) ∧
    _data_bins self' !! _EOFPROJ
    = if save && negb (_save_none self) then Some out
      else _data_bins self !! _EOFPROJ.
Proof.
  intros Hl Hck Hops Hsh Hwf HF Hbin Hbasis Hb Hk.
  destruct (np_dot_shape (data self) basis N F k Hsh Hwf HF Hb Hk)
    as (proj & Hdot & Hpsh & Hpwf).
  assert (0 ≤ N)%Z as HN.
  { destruct Hwf as [Hall _]. rewrite Hsh in Hall. by inversion Hall. }
  exists proj.
  unfold eof_proj_data. mrun. rewrite Hl. flat.
  rewrite decide_False by (rewrite Hck; intros [_ Hne]; by apply Hne).
  flat. unfold ndim. rewrite Hsh. cbn [length].
  rewrite decide_False by lia. flat.
  destruct eof_in as [e|].
  - subst e. rewrite Hb, Hsh.
    change (py_index [F; k] 0) with (Ok F).
    change (py_index [N; F] 1) with (Ok F).
    change (py_index [F; k] 1) with (Ok k).
    flat. rewrite Z.eqb_refl. flat.
    destruct (save && negb (_save_none self)) eqn:Hsave; flat.
    + rewrite Hsh. change (py_index [N; F] 0) with (Ok N). flat.
      unfold _new_empty_databin, setattr. mrun.
      rewrite np_empty_nonneg by (repeat constructor; lia). flat.
      rewrite Hdot. flat.
      unfold store_result. mrun. rewrite lookup_insert_eq. flat.
      rewrite <- Hpsh, np_broadcast_to_same by done. flat.
      unfold written. mrun.
      rewrite decide_True by (rewrite lookup_insert_eq; eauto). flat.
      unfold _add_to_operation_history, _set_curr_data_key. mrun.
      rewrite Hck. flat. rewrite Hops. flat.
      eexists. split; [reflexivity|]. flat.
      by rewrite !lookup_insert_eq.
    + destruct Hbin as [Hbin|]; [|done].
      rewrite Hdot. flat.
      unfold store_result. mrun. rewrite Hbin. flat.
      unfold _add_to_operation_history, _set_curr_data_key. mrun.
      rewrite Hck. flat. rewrite Hops. flat.
      eexists. split; [reflexivity|]. flat.
      by rewrite !lookup_insert_eq.
  - destruct Hbasis as (-> & svals & stats & Hcalc).
    rewrite Hcalc. flat.
    destruct (save && negb (_save_none self)) eqn:Hsave; flat.
    + rewrite Hsh. change (py_index [N; F] 0) with (Ok N). flat.
      unfold _new_empty_databin, setattr. mrun.
      rewrite np_empty_nonneg by (repeat constructor; lia). flat.
      rewrite Hdot. flat.
      unfold store_result. mrun. rewrite lookup_insert_eq. flat.
      rewrite <- Hpsh, np_broadcast_to_same by done. flat.
      unfold written. mrun.
      rewrite decide_True by (rewrite lookup_insert_eq; eauto). flat.
      unfold _add_to_operation_history, _set_curr_data_key. mrun.
      rewrite Hck. flat. rewrite Hops. flat.
      eexists. split; [reflexivity|]. flat.
      by rewrite !lookup_insert_eq.
    + destruct Hbin as [Hbin|]; [|done].
      rewrite Hdot. flat.
      unfold store_result. mrun. rewrite Hbin. flat.
      unfold _add_to_operation_history, _set_curr_data_key. mrun.
      rewrite Hck. flat. rewrite Hops. flat.
      eexists. split; [reflexivity|]. flat.
      by rewrite !lookup_insert_eq.
Qed.

(** X8.  On an object with a leading time axis and data of two axes,
    when the call needs no reset to the area-weighted stage (a
    [calc_on_key] is given, or the current stage is the area-weighted
    one), a supplied basis whose first axis differs from the feature
    length of the data is refused with [ValueError] and the object is
    left as it was. *)
Theorem eof_proj_basis_mismatch (self : DataObj) (N F F' k num_eofs : Z)
    (e : ndarray V) (save : bool) ck pk :
  _leading_time self = true →
  ck ≠ None ∨ _curr_data_key self = Some _AWGHT →
  shape (data self) = [N; F] → shape e = [F'; k] → F' ≠ F →
  eof_proj_data num_eofs (Some e) save ck pk self = (Raise ValueError, self).
Proof.
  intros Hl Hck Hsh He Hne.
  unfold eof_proj_data. mrun. rewrite Hl. flat.
  rewrite decide_False.
  2:{ intros [Hc Hn]. destruct Hck as [Hck|Hck]; [done | by apply Hn]. }
  flat. unfold ndim. rewrite Hsh. cbn [length].
  rewrite decide_False by lia. flat.
  rewrite He, Hsh.
  change (py_index [F'; k] 0) with (Ok F').
  change (py_index [N; F] 1) with (Ok F).
  flat. by rewrite (proj2 (Z.eqb_neq _ _) Hne).
Qed.

End EofProj.

(** ** The constructor *)

Section Constructor.
Context `{Stats}.

Lemma forallb_id_map {A} (f : A → bool) (l : list A) :
  forallb id (map f l) = forallb f l.
Proof. induction l as [|x l IH]; [done|]. cbn. by rewrite IH. Qed.

(** X9.  Data of more than four axes fails the constructor's assertion,
    and a time coordinate that is not on axis 0 is refused with
    [ValueError], whatever the other arguments. *)
Theorem init_rejects_shape (d : ndarray V)
    (dim_coords : option (gmap string (Z * list V))) coord_grids valid
    force_flat cell_area irregular_grid save_none fill_value :
  ((4 < ndim d)%nat →
   init d dim_coords coord_grids valid force_flat cell_area irregular_grid
     save_none fill_value = Raise AssertionError) ∧
  (∀ dc time_idx time_coord,
     (ndim d ≤ 4)%nat → dim_coords = Some dc →
     dc !! TIME = Some (time_idx, time_coord) → time_idx ≠ 0%Z →
     init d dim_coords coord_grids valid force_flat cell_area irregular_grid
       save_none fill_value = Raise ValueError).
Proof.
  split.
  - intros Hnd. unfold init, init_body. mrun.
    by rewrite decide_True by done.
  - intros dc time_idx time_coord Hnd -> Ht Hne. unfold init, init_body. mrun.
    rewrite decide_False by lia. flat. rewrite Ht. flat.
    by rewrite (proj2 (Z.eqb_neq _ _) Hne).
Qed.

Lemma init_dense_run (d : ndarray V) (N : Z) (sp : list Z)
    (dc : gmap string (Z * list V)) (tc : list V) (di : gmap string Z)
    coord_grids cell_area irregular_grid save_none fill_value :
  shape d = N :: sp → (0 < N)%Z → (length sp ≤ 3)%nat →
  dense fill_value d = true →
  dc !! TIME = Some (0%Z, tc) →
  _match_dims (shape d) dc = Ok di →
  init_body d (Some dc) None false save_none
    (blank d coord_grids false cell_area irregular_grid save_none fill_value)
  = if (Z.of_nat (length tc) =? N)%Z
    then (Ok tt,
          MkDataObj (N :: sp) false cell_area irregular_grid coord_grids
            fill_value save_none {[ _ORIGDATA := d ]} (Some _ORIGDATA)
            {[ _ORIGDATA := [_ORIGDATA] ]} {[ _ORIGDATA := tc ]}
            None None None None ∅ None {[ _ORIGDATA := d ]}
            true [N] sp [prod_shape sp] (Some di) (Some dc) false None d)
    else (Raise ValueError,
          MkDataObj (N :: sp) false cell_area irregular_grid coord_grids
            fill_value save_none {[ _ORIGDATA := d ]} (Some _ORIGDATA)
            {[ _ORIGDATA := [_ORIGDATA] ]} {[ _ORIGDATA := tc ]}
            None None None None ∅ None {[ _ORIGDATA := d ]}
            true [N] sp [prod_shape sp] (Some di) (Some dc) false None d).
Proof.
  intros Hsh HN Hsp Hdense Ht Hmd.
  unfold init_body, blank. mrun.
  rewrite decide_False by (unfold ndim; rewrite Hsh; cbn; lia). flat.
  rewrite Ht. flat. rewrite Hsh.
  change (py_index (N :: sp) 0) with (Ok N). flat.
  rewrite Hsh in Hmd. rewrite Hmd. flat.
  unfold _data_masking. rewrite Hsh.
  rewrite (proj2 (Z.leb_gt _ _)) by lia.
  unfold _check_invalid_data. mrun.
  unfold dense, valid_elem in Hdense. rewrite forallb_id_map, Hdense. flat.
  unfold _new_databin, setattr, _add_to_operation_history,
    _set_curr_data_key. mrun.
  destruct (Z.eqb_spec (Z.of_nat (length tc)) N) as [Hlen|Hlen].
  - erewrite (reset_to_current_stage _ _ORIGDATA d N sp 0 tc);
      [done|done..].
  - erewrite (reset_length_mismatch _ _ORIGDATA d N sp tc);
      [done|done..].
Qed.

(** X10.  Construction from dense data with a time coordinate.  For data
    of [N >= 1] samples without an invalid element, a time coordinate on
    axis 0 with [N] entries and no mask, flattening or further options,
    the constructor returns an object that has a time axis in the sense
    the transforms need: the data as given, the coordinate as given, the
    stage [orig] current with the data as its bin and [[orig]] as its
    history, and no mask. *)
Theorem init_dense_series (d : ndarray V) (N : Z) (sp : list Z)
    (dc : gmap string (Z * list V)) (tc : list V) (di : gmap string Z)
    coord_grids cell_area irregular_grid save_none fill_value :
  wf_array d → shape d = N :: sp → (0 < N)%Z → (length sp ≤ 3)%nat →
  dense fill_value d = true →
  dc !! TIME = Some (0%Z, tc) → Z.of_nat (length tc) = N →
  _match_dims (shape d) dc = Ok di →
  ∃ self,
    init d (Some dc) coord_grids None false cell_area irregular_grid
      save_none fill_value = Ok self ∧
    has_time_axis self N sp 0 tc ∧
    data self = d ∧
    _curr_data_key self = Some _ORIGDATA ∧
    _data_bins self = {[ _ORIGDATA := d ]} ∧
    _ops_performed self = {[ _ORIGDATA := [_ORIGDATA] ]} ∧
    _altered_time_coords self = {[ _ORIGDATA := tc ]} ∧
    is_masked self = false ∧ _dim_idx self = Some di.
Proof.
  intros Hwf Hsh HN Hsp Hdense Ht Hlen Hmd.
  unfold init.
  rewrite (init_dense_run d N sp dc tc di) by done.
  rewrite (proj2 (Z.eqb_eq _ _) Hlen). cbn [fst snd].
  eexists. split; [reflexivity|].
  split_and!; try reflexivity.
  unfold has_time_axis, time_axis. cbn. by split_and!.
Qed.

(** X11.  The same construction with a time coordinate whose length is
    not the number of samples is refused with [ValueError]: the final
    [reset_data] checks the coordinate against the data. *)
Theorem init_time_coord_mismatch (d : ndarray V) (N : Z) (sp : list Z)
    (dc : gmap string (Z * list V)) (tc : list V) (di : gmap string Z)
    coord_grids cell_area irregular_grid save_none fill_value :
  shape d = N :: sp → (0 < N)%Z → (length sp ≤ 3)%nat →
  dense fill_value d = true →
  dc !! TIME = Some (0%Z, tc) → Z.of_nat (length tc) ≠ N →
  _match_dims (shape d) dc = Ok di →
  init d (Some dc) coord_grids None false cell_area irregular_grid
    save_none fill_value = Raise ValueError.
Proof.
  intros Hsh HN Hsp Hdense Ht Hlen Hmd.
  unfold init.
  rewrite (init_dense_run d N sp dc tc di) by done.
  by rewrite (proj2 (Z.eqb_neq _ _) Hlen).
Qed.

End Constructor.

(** ** Copies and subsamples *)

Section Indexing.
Context {A : Type}.
Implicit Types l : list A.

Lemma py_index_in_range l (i : Z) :
  (- Z.of_nat (length l) ≤ i < Z.of_nat (length l))%Z →
  ∃ x, py_index l i = Ok x ∧
       l !! Z.to_nat (i mod Z.of_nat (length l)) = Some x.
Proof.
  intros Hi. unfold py_index, zlookup.
  rewrite (proj2 (Z.ltb_ge _ _)) by lia.
  rewrite (proj2 (Z.leb_gt _ _)) by lia. cbn [orb].
  set (n := Z.of_nat (length l)) in *.
  assert ((if (i <? 0)%Z then (i + n)%Z else i) = (i mod n)%Z) as ->.
  { destruct (Z.ltb_spec i 0).
    - apply (Z.mod_unique_pos _ _ (-1)); lia.
    - symmetry. apply Z.mod_small. lia. }
  assert (0 ≤ i mod n < n)%Z as Hm by (apply Z.mod_pos_bound; lia).
  rewrite (proj2 (Z.ltb_ge _ _)) by lia.
  destruct (l !! Z.to_nat (i mod n)) as [x|] eqn:Hx; [by exists x|].
  apply lookup_ge_None in Hx. lia.
Qed.

Lemma py_index_out_of_range l (i : Z) :
  (i < - Z.of_nat (length l) ∨ Z.of_nat (length l) ≤ i)%Z →
  py_index l i = Raise IndexError.
Proof.
  intros Hi. unfold py_index.
  destruct Hi.
  - by rewrite (proj2 (Z.ltb_lt _ _)) by lia.
  - rewrite (proj2 (Z.leb_le _ _)) by lia. by rewrite orb_true_r.
Qed.

Lemma py_take_cons l (i : Z) (rest : list Z) :
  py_take l (i :: rest)
  = rbind (py_index l i) (λ x, rbind (py_take l rest) (λ xs, Ok (x :: xs))).
Proof. done. Qed.

Lemma py_take_in_range l (idxs : list Z) :
  Forall (λ i, - Z.of_nat (length l) ≤ i < Z.of_nat (length l))%Z idxs →
  ∃ xs, py_take l idxs = Ok xs ∧ length xs = length idxs ∧
        ∀ j i, idxs !! j = Some i →
               xs !! j = l !! Z.to_nat (i mod Z.of_nat (length l)).
Proof.
  induction 1 as [|i idxs Hi _ (xs & Hxs & Hlen & Hlk)].
  - exists []. by split_and!.
  - destruct (py_index_in_range l i Hi) as (x & Hx & Hlx).
    exists (x :: xs). rewrite py_take_cons, Hx, Hxs. cbn.
    split_and!; [done|by rewrite Hlen|].
    intros [|j] i'; cbn.
    + by intros [= <-].
    + apply Hlk.
Qed.

Lemma py_take_out_of_range l (idxs : list Z) :
  Exists (λ i, i < - Z.of_nat (length l) ∨ Z.of_nat (length l) ≤ i)%Z idxs →
  py_take l idxs = Raise IndexError.
Proof.
  induction idxs as [|i idxs IH]; intros Hex; [by apply Exists_nil in Hex|].
  rewrite py_take_cons.
  destruct (decide (- Z.of_nat (length l) ≤ i < Z.of_nat (length l))%Z)
    as [Hi|Hi].
  - destruct (py_index_in_range l i Hi) as (x & -> & _). cbn.
    apply Exists_cons in Hex as [?|Hex]; [lia|]. by rewrite IH.
  - by rewrite py_index_out_of_range by lia.
Qed.

Lemma of_rows_wf (sp : list Z) (rs : list (list A)) :
  Forall (λ d, 0 ≤ d)%Z sp →
  Forall (λ r, length r = Z.to_nat (prod_shape sp)) rs →
  wf_array (of_rows sp rs).
Proof.
  intros Hsp Hrs. pose proof (prod_shape_nonneg sp Hsp).
  split; cbn [of_rows shape buf].
  - constructor; [lia|done].
  - rewrite (concat_uniform_length _ _ Hrs).
    change (prod_shape (Z.of_nat (length rs) :: sp))
      with (Z.of_nat (length rs) * prod_shape sp)%Z. nia.
Qed.

Lemma rows_of_rows (sp : list Z) (rs : list (list A)) :
  Forall (λ r, length r = Z.to_nat (prod_shape sp)) rs →
  rows (of_rows sp rs) = rs.
Proof.
  intros Hrs. unfold rows, stride. cbn [of_rows shape buf hd tail].
  rewrite Nat2Z.id. apply list_eq. intros j.
  rewrite list_lookup_fmap.
  destruct (rs !! j) as [r|] eqn:Hr.
  - rewrite lookup_seq_lt by (by eapply lookup_lt_Some). cbn.
    by rewrite (chunk_concat_uniform _ rs j r).
  - rewrite lookup_seq_ge; [done|]. by apply lookup_ge_None.
Qed.

(** [l[a:b]] for [0 <= a <= b <= len(l)]. *)
Lemma py_slice_range l (a b : Z) :
  (0 ≤ a ≤ b)%Z → (b ≤ Z.of_nat (length l))%Z →
  py_slice l (Slice (Some a) (Some b) None)
  = Ok (take (Z.to_nat (b - a)) (drop (Z.to_nat a) l)).
Proof.
  intros Ha Hb. unfold py_slice, slice_indices. cbn.
  assert (adjust_index a (Z.of_nat (length l)) 1 = a) as ->.
  { unfold adjust_index. repeat case_match; lia. }
  assert (adjust_index b (Z.of_nat (length l)) 1 = b) as ->.
  { unfold adjust_index. repeat case_match; lia. }
  f_equal. set (m := Z.to_nat _).
  assert (m = Z.to_nat (b - a)) as Hm.
  { subst m. case_match; [|lia]. rewrite Z.div_1_r. lia. }
  destruct (gather_progression l a 1 m) as [Hlen Hlk]; [lia..| |].
  { destruct (decide (m = 0%nat)); [by left | right]. lia. }
  apply list_eq. intros p. destruct (decide (p < m)%nat) as [Hp|Hp].
  - rewrite Hlk by done. rewrite lookup_take_lt by lia. rewrite lookup_drop.
    f_equal. lia.
  - rewrite lookup_ge_None_2 by lia. symmetry. apply lookup_ge_None_2.
    rewrite length_take. lia.
Qed.

End Indexing.

Section Copy.
Context `{Stats}.

(** X13.  A copy subsampled by a list of sample numbers.  On an object
    with a time axis of [N] samples and a recorded current stage, where
    neither the current key nor the key of any bin is a name of the
    class (the copy assigns the attributes these keys name), [copy]
    with integers between [-N] and [N - 1] (negative ones counting from
    the end) returns a new object and leaves the source as it was.  The
    new object again has a time axis: one sample and one coordinate entry
    per index, in the order of the list.  It keeps the current stage
    only, with its history, holds the subsample as that stage's bin, and
    has the fixed attributes of the source. *)
Theorem copy_index_list (self : DataObj) (N : Z) (sp : list Z) (idx : Z)
    (tc : list V) (ck : string) (hist : list string) (idxs : list Z) :
  has_time_axis self N sp idx tc →
  _curr_data_key self = Some ck → _ops_performed self !! ck = Some hist →
  reserved ck = false →
  map_Forall (λ k _, reserved k = false) (_data_bins self) →
  Forall (λ i, - N ≤ i < N)%Z idxs →
  ∃ new tc',
    copy (Some (IdxList idxs)) self = (Ok new, self) ∧
    has_time_axis new (Z.of_nat (length idxs)) sp idx tc' ∧
    (∀ j i, idxs !! j = Some i →
       tc' !! j = tc !! Z.to_nat (i mod N) ∧
       rows (data new) !! j = rows (data self) !! Z.to_nat (i mod N)) ∧
    _curr_data_key new = Some ck ∧
    _data_bins new = {[ ck := data new ]} ∧
    _ops_performed new = {[ ck := hist ]} ∧
    _altered_time_coords new = {[ ck := tc' ]} ∧
    fixed_attrs new = fixed_attrs self.
Proof.
  intros (Hl & Hts & Hsh & Hwf & Hax & Hlen & _) Hck Hops Hres Hbins Hidx.
  destruct (wf_array_length _ N sp Hwf Hsh) as (HN & Hsp & Hbuf).
  assert (∃ dc, _dim_coords self = Some dc ∧ dc !! TIME = Some (idx, tc))
    as (dc & Hdc & Hdct).
  { unfold time_axis in Hax. destruct (_dim_coords self) as [dc|]; [|done].
    by exists dc. }
  pose proof (rows_length _ N sp Hsh) as Hrl.
  pose proof (rows_uniform _ N sp Hwf Hsh) as Hru.
  rewrite (stride_shape _ N sp Hsh) in Hru.
  destruct (py_take_in_range tc idxs) as (tc' & Htc' & Htc'len & Htc'lk).
  { by rewrite Hlen. }
  destruct (py_take_in_range (rows (data self)) idxs)
    as (rs & Hrs & Hrslen & Hrslk).
  { rewrite Hrl, Z2Nat.id by done. done. }
  rewrite Hlen in Htc'lk. rewrite Hrl, Z2Nat.id in Hrslk by done.
  assert (Forall (λ r, length r = Z.to_nat (prod_shape sp)) rs) as Hrsu.
  { apply Forall_lookup. intros j r Hj.
    destruct (idxs !! j) as [i|] eqn:Hi.
    - rewrite (Hrslk j i Hi) in Hj.
      by apply (Forall_lookup_1 _ _ _ _ Hru Hj).
    - apply lookup_ge_None in Hi. apply lookup_lt_Some in Hj. lia. }
  exists (MkDataObj (_full_shp self) (forced_flat self) (cell_area self)
            (irregular_grid self) (_coord_grids self) (_fill_value self)
            (_save_none self) {[ ck := of_rows sp rs ]} (Some ck)
            {[ ck := hist ]} {[ ck := tc' ]}
            (_start_time_edge self) (_end_time_edge self)
            (if eof_relevant ck hist then _eofs self else None)
            (if eof_relevant ck hist then _svals self else None)
            (if eof_relevant ck hist then _eof_stats self else ∅)
            (_std_scaling self)
            (<[ck := of_rows sp rs]>
               (filter (λ kv : string * ndarray V,
                          _data_bins self !! kv.1 = None ∨ kv.1 = ck)
                       (attrs self)))
            true [Z.of_nat (length idxs)] (_spatial_shp self)
            (_flat_spatial_shp self) (_dim_idx self)
            (Some (<[TIME := (idx, tc')]> dc))
            (is_masked self) (valid_data self) (of_rows sp rs)), tc'.
  split_and!.
  - unfold copy. mrun. rewrite Hl, Hck. flat. rewrite Hops. flat.
    rewrite Hdc. flat. rewrite Hdct. flat.
    unfold index_list, index_array0, np_take0. rewrite Htc', Hsh, Hrs. flat.
    rewrite Hres, bool_decide_eq_true_2 by done. done.
  - unfold has_time_axis, time_axis. cbn.
    rewrite !lookup_insert_eq, Hrslen. split_and!; try done.
    + by apply of_rows_wf.
    + by rewrite Htc'len.
    + rewrite lookup_singleton_eq. eauto.
  - intros j i Hi. cbn [data]. rewrite rows_of_rows by done.
    split; [by apply Htc'lk | by apply Hrslk].
  - done.
  - done.
  - done.
  - done.
  - unfold fixed_attrs. cbn. by rewrite Hl.
Qed.

(** X14.  An index outside [-N .. N-1] makes the subsampled copy raise
    [IndexError]; the source object is not changed. *)
Theorem copy_index_out_of_range (self : DataObj) (N : Z) (sp : list Z)
    (idx : Z) (tc : list V) (ck : string) (hist : list string)
    (idxs : list Z) :
  has_time_axis self N sp idx tc →
  _curr_data_key self = Some ck → _ops_performed self !! ck = Some hist →
  Exists (λ i, i < - N ∨ N ≤ i)%Z idxs →
  copy (Some (IdxList idxs)) self = (Raise IndexError, self).
Proof.
  intros (Hl & Hts & Hsh & Hwf & Hax & Hlen & _) Hck Hops Hidx.
  assert (∃ dc, _dim_coords self = Some dc ∧ dc !! TIME = Some (idx, tc))
    as (dc & Hdc & Hdct).
  { unfold time_axis in Hax. destruct (_dim_coords self) as [dc|]; [|done].
    by exists dc. }
  unfold copy. mrun. rewrite Hl, Hck. flat. rewrite Hops. flat.
  rewrite Hdc. flat. rewrite Hdct. flat.
  unfold index_list. rewrite py_take_out_of_range; [done|].
  by rewrite Hlen.
Qed.

(** X15.  A copy subsampled by a slice with both bounds given,
    [0 <= a <= b <= N] and no step, of an object where neither the
    current key nor the key of any bin is a name of the class: the new
    object has a time axis of [b - a] samples, which are samples
    [a .. b-1] of the source with their coordinate entries; the source
    is not changed. *)
Theorem copy_slice_range (self : DataObj) (N : Z) (sp : list Z) (idx : Z)
    (tc : list V) (ck : string) (hist : list string) (a b : Z) :
  has_time_axis self N sp idx tc →
  _curr_data_key self = Some ck → _ops_performed self !! ck = Some hist →
  reserved ck = false →
  map_Forall (λ k _, reserved k = false) (_data_bins self) →
  (0 ≤ a ≤ b)%Z → (b ≤ N)%Z →
  ∃ new,
    copy (Some (IdxSlice (Slice (Some a) (Some b) None))) self
    = (Ok new, self) ∧
    has_time_axis new (b - a) sp idx
      (take (Z.to_nat (b - a)) (drop (Z.to_nat a) tc)) ∧
    rows (data new)
    = take (Z.to_nat (b - a)) (drop (Z.to_nat a) (rows (data self))) ∧
    _curr_data_key new = Some ck ∧
    _data_bins new = {[ ck := data new ]} ∧
    _ops_performed new = {[ ck := hist ]} ∧
    fixed_attrs new = fixed_attrs self.
Proof.
  intros (Hl & Hts & Hsh & Hwf & Hax & Hlen & _) Hck Hops Hres Hbins Hab HbN.
  destruct (wf_array_length _ N sp Hwf Hsh) as (HN & Hsp & Hbuf).
  assert (∃ dc, _dim_coords self = Some dc ∧ dc !! TIME = Some (idx, tc))
    as (dc & Hdc & Hdct).
  { unfold time_axis in Hax. destruct (_dim_coords self) as [dc|]; [|done].
    by exists dc. }
  pose proof (rows_length _ N sp Hsh) as Hrl.
  pose proof (rows_uniform _ N sp Hwf Hsh) as Hru.
  rewrite (stride_shape _ N sp Hsh) in Hru.
  set (tc' := take (Z.to_nat (b - a)) (drop (Z.to_nat a) tc)).
  set (rs := take (Z.to_nat (b - a)) (drop (Z.to_nat a) (rows (data self)))).
  assert (Forall (λ r, length r = Z.to_nat (prod_shape sp)) rs) as Hrsu.
  { by apply Forall_take, Forall_drop. }
  assert (length rs = Z.to_nat (b - a)) as Hrslen.
  { subst rs. rewrite length_take, length_drop. lia. }
  assert (length tc' = Z.to_nat (b - a)) as Htc'len.
  { subst tc'. rewrite length_take, length_drop. lia. }
  exists (MkDataObj (_full_shp self) (forced_flat self) (cell_area self)
            (irregular_grid self) (_coord_grids self) (_fill_value self)
            (_save_none self) {[ ck := of_rows sp rs ]} (Some ck)
            {[ ck := hist ]} {[ ck := tc' ]}
            (_start_time_edge self) (_end_time_edge self)
            (if eof_relevant ck hist then _eofs self else None)
            (if eof_relevant ck hist then _svals self else None)
            (if eof_relevant ck hist then _eof_stats self else ∅)
            (_std_scaling self)
            (<[ck := of_rows sp rs]>
               (filter (λ kv : string * ndarray V,
                          _data_bins self !! kv.1 = None ∨ kv.1 = ck)
                       (attrs self)))
            true [b - a]%Z (_spatial_shp self)
            (_flat_spatial_shp self) (_dim_idx self)
            (Some (<[TIME := (idx, tc')]> dc))
            (is_masked self) (valid_data self) (of_rows sp rs)).
  split_and!.
  - unfold copy. mrun. rewrite Hl, Hck. flat. rewrite Hops. flat.
    rewrite Hdc. flat. rewrite Hdct. flat.
    unfold index_list, index_array0, np_slice0.
    rewrite py_slice_range by lia. rewrite Hsh.
    rewrite py_slice_range by lia. flat.
    rewrite Hres, bool_decide_eq_true_2 by done. done.
  - unfold has_time_axis, time_axis. cbn.
    rewrite !lookup_insert_eq, Hrslen. split_and!; try done.
    + f_equal. lia.
    + by apply of_rows_wf.
    + lia.
    + rewrite lookup_singleton_eq. eauto.
  - cbn [data]. by rewrite rows_of_rows.
  - done.
  - done.
  - done.
  - unfold fixed_attrs. cbn. by rewrite Hl.
Qed.

End Copy.

(** ** Inflating to the original shape *)

Section InflateShape.
Context `{Numeric}.

Lemma mask_assign_length {A} (full : list A) mask vals :
  length (mask_assign full mask vals) = length full.
Proof.
  revert mask vals. induction full as [|x full IH]; intros mask vals; [done|].
  destruct mask as [|[] mask]; [done| |]; cbn.
  - destruct vals; cbn; by rewrite IH.
  - by rewrite IH.
Qed.

(** [l.insert(1, x)] for each [x] in turn, on a list of one element. *)
Lemma insert_at_one {A} (t : A) (l acc : list A) :
  foldl (λ acc d, list_insert_at acc 1 d) (t :: acc) l = t :: rev l ++ acc.
Proof.
  revert acc. induction l as [|x l IH]; intros acc; [done|].
  cbn [foldl].
  assert (list_insert_at (t :: acc) 1 x = t :: x :: acc) as ->.
  { unfold list_insert_at. destruct (Z.ltb_spec 1 0); [lia|].
    replace (Z.to_nat (Z.min 1 (Z.of_nat (length (t :: acc))))) with 1%nat
      by (cbn [length]; lia).
    done. }
  rewrite IH. cbn [rev]. by rewrite <- app_assoc.
Qed.

(** [l.insert(-1, x)] for each [x] in turn: before the last element. *)
Lemma insert_at_minus_one {A} (t : A) (l pre : list A) :
  foldl (λ acc d, list_insert_at acc (-1) d) (pre ++ [t]) l = pre ++ l ++ [t].
Proof.
  revert pre. induction l as [|x l IH]; intros pre; [done|].
  cbn [foldl].
  assert (list_insert_at (pre ++ [t]) (-1) x = (pre ++ [x]) ++ [t]) as ->.
  { unfold list_insert_at. destruct (Z.ltb_spec (-1) 0); [|lia].
    replace (Z.to_nat (Z.max 0 (-1 + Z.of_nat (length (pre ++ [t])))))
      with (length pre) by (rewrite length_app; cbn [length]; lia).
    rewrite take_app_length, drop_app_length. by rewrite <- app_assoc. }
  rewrite IH. by rewrite <- app_assoc.
Qed.

Lemma prod_shape_app (l1 l2 : list Z) :
  prod_shape (l1 ++ l2) = (prod_shape l1 * prod_shape l2)%Z.
Proof.
  unfold prod_shape. induction l1 as [|x l1 IH]; cbn [foldr app].
  - by destruct (foldr Z.mul 1%Z l2).
  - rewrite IH. lia.
Qed.

Lemma prod_shape_rev (l : list Z) : prod_shape (rev l) = prod_shape l.
Proof.
  induction l as [|x l IH]; [done|].
  cbn [rev]. rewrite prod_shape_app, IH.
  unfold prod_shape. cbn [foldr]. lia.
Qed.

(** X17.  The shape [inflate_full_grid] gives with [reshape_orig=True] on
    the current data of a masked object with a leading time axis of [T]
    samples and spatial shape [sp].  The values are those of the plain
    inflation.  With [expand_axis=1] the shape is [T] followed by [sp];
    with the default [expand_axis=-1] every spatial length is inserted
    before the last entry, so the shape is [sp] reversed followed by
    [T]. *)
Theorem inflate_reshape_orig (self : DataObj) (valid : list bool) (T S : Z)
    (sp : list Z) :
  is_masked self = true → valid_data self = Some valid →
  _time_shp self = [T] → _spatial_shp self = sp →
  Forall (λ d, 0 ≤ d)%Z sp → prod_shape sp = S → (0 ≤ T)%Z →
  length valid = Z.to_nat S →
  length (buf (data self)) = (Z.to_nat T * count_true valid)%nat →
  ∃ full,
    inflate_full_grid None (-1) false self
    = (Ok (Some (NdArray [T; S] full)), self) ∧
    inflate_full_grid None 1 true self
    = (Ok (Some (NdArray (T :: sp) full)), self) ∧
    inflate_full_grid None (-1) true self
    = (Ok (Some (NdArray (rev sp ++ [T]) full)), self).
Proof.
  intros Hm Hvd Hts Hsp Hnn HS HT Hv Hlen.
  assert (0 ≤ S)%Z as HS0 by (subst S; by apply prod_shape_nonneg).
  exists (mask_assign (replicate (Z.to_nat T * length valid) nan)
            (concat (replicate (Z.to_nat T) valid)) (buf (data self))).
  assert (∀ expanded : bool,
            np_broadcast_with [T; S]
              (NdArray (if expanded then [1%Z; S] else [S]) valid)
            = Ok (NdArray [T; S] (concat (replicate (Z.to_nat T) valid))))
    as Hb by (intros; by apply np_broadcast_mask_rows).
  assert (Z.to_nat (prod_shape [T; S]) = (Z.to_nat T * length valid)%nat)
    as Hsize.
  { unfold prod_shape. cbn [foldr]. rewrite Hv. 
    rewrite <- Z2Nat.inj_mul by lia. f_equal. lia. }
  assert (∀ axis reshape_orig,
    inflate_full_grid None axis reshape_orig self
    = (if reshape_orig : bool
       then match list_pop [T; S] axis with
            | Ok new_shp =>
                match np_reshape
                        (NdArray [T; S]
                           (mask_assign
                              (replicate (Z.to_nat T * length valid) nan)
                              (concat (replicate (Z.to_nat T) valid))
                              (buf (data self))))
                        (foldl (λ acc d, list_insert_at acc axis d)
                               new_shp (rev sp)) with
                | Ok full => Ok (Some full)
                | Raise e => Raise e
                end
            | Raise e => Raise e
            end
       else Ok (Some (NdArray [T; S]
                        (mask_assign
                           (replicate (Z.to_nat T * length valid) nan)
                           (concat (replicate (Z.to_nat T) valid))
                           (buf (data self))))),
       self)) as Hrun.
  { intros axis reshape_orig.
    unfold inflate_full_grid. mrun. rewrite Hm, Hvd. flat.
    rewrite Hts, Hv, Z2Nat.id by done. cbn [app imap].
    rewrite np_full_nan_nonneg by (repeat constructor; lia). flat.
    rewrite Z.eqb_refl.
    destruct (T =? S)%Z; [rewrite (Hb false) | rewrite np_expand_dims_front;
                          cbn [rbind]; rewrite (Hb true)]; flat.
    all: unfold np_mask_assign; cbn [shape buf].
    all: rewrite decide_True by done.
    all: rewrite decide_True by (by rewrite count_true_concat_replicate).
    all: rewrite Hsize, Hsp, <- ?Hv.
    all: destruct reshape_orig; flat; [|done].
    all: destruct (list_pop [T; S] axis); flat; [|done].
    all: by destruct (np_reshape _ _). }
  split_and!.
  - by rewrite (Hrun (-1)%Z false).
  - rewrite (Hrun 1%Z true).
    change (list_pop [T; S] 1) with (Ok [T]). cbv beta iota.
    rewrite insert_at_one, rev_involutive, app_nil_r.
    rewrite np_reshape_nonneg; [done|by constructor|].
    cbn [buf]. rewrite mask_assign_length, length_replicate.
    change (prod_shape (T :: sp)) with (T * prod_shape sp)%Z. lia.
  - rewrite (Hrun (-1)%Z true).
    change (list_pop [T; S] (-1)) with (Ok [T]). cbv beta iota.
    pose proof (insert_at_minus_one T (rev sp) []) as Hins.
    cbn [app] in Hins. rewrite Hins.
    rewrite np_reshape_nonneg; [done| |].
    + apply Forall_app. split; [by apply Forall_rev | by repeat constructor].
    + cbn [buf]. rewrite mask_assign_length, length_replicate.
      rewrite prod_shape_app, prod_shape_rev.
      unfold prod_shape at 2. cbn [foldr]. lia.
Qed.

End InflateShape.

(** ** Standardisation and area weighting *)

Section Scaling.
Context `{Stats}.

(** X18.  Standardising with a given factor never raises on an object
    with well-formed data and a recorded current stage: every element is
    multiplied by the factor, the shape is kept, the factor is recorded
    and the stage [standardized] becomes current with the history of the
    previous stage extended by it.  A bin is written when [save] is set
    and the object saves at all; otherwise the bins stay as they are,
    even when an earlier call left a bin. *)
Theorem standardize_scales (self : DataObj) (f : V) (save : bool)
    (ck : string) (hist : list string) :
  wf_array (data self) →
  _curr_data_key self = Some ck → _ops_performed self !! ck = Some hist →
  let out := NdArray (shape (data self))
               (map (λ x, vmul x f) (buf (data self))) in
  ∃ self',
    standardize_data (Some f) save self = (Ok out, self') ∧
    data self' = out ∧
    _std_scaling self' = Some f ∧
    _curr_data_key self' = Some _STD ∧
    _ops_performed self' !! _STD = Some (hist ++ [_STD]) ∧
    _data_bins self'
    = if save && negb (_save_none self)
      then <[_STD := out]> (_data_bins self) else _data_bins self.
Proof.
  intros Hwf Hck Hops out.
  assert (wf_array out) as Hout.
  { destruct Hwf as [Hnn Hlen]. split; [done|].
    subst out. cbn [shape buf]. by rewrite length_map. }
  unfold standardize_data. mrun.
  destruct (save && negb (_save_none self)) eqn:Hsave; flat.
  - unfold _new_empty_databin, setattr. mrun.
    rewrite np_empty_nonneg by apply Hwf. flat.
    unfold store_result. mrun. rewrite lookup_insert_eq. flat.
    fold out. change (shape (data self)) with (shape out) at 1.
    rewrite np_broadcast_to_same by done. flat.
    unfold written. mrun.
    rewrite decide_True by (rewrite lookup_insert_eq; eauto). flat.
    unfold _add_to_operation_history, _set_curr_data_key. mrun.
    rewrite Hck. flat. rewrite Hops. flat.
    eexists. split; [reflexivity|]. flat.
    rewrite lookup_insert_eq, insert_insert_eq. done.
  - unfold store_result. mrun.
    assert (∀ (o : option (ndarray V)) (s : DataObj),
              match o with
              | Some _ => λ s0 : DataObj, (Ok (), set_data out s0)
              | None => λ s0 : DataObj, (Ok (), set_data out s0)
              end s = (Ok (), set_data out s)) as Hsame
      by (by intros []).
    unfold set_data in Hsame. cbn in Hsame.
    fold out. rewrite Hsame. flat.
    unfold _add_to_operation_history, _set_curr_data_key. mrun.
    rewrite Hck. flat. rewrite Hops. flat.
    eexists. split; [reflexivity|]. flat.
    by rewrite lookup_insert_eq.
Qed.

Lemma chunk_zip_with {A B C} (g : A → B → C) (w : nat) l k (i : nat) :
  chunk w (zip_with g l k) i = zip_with g (chunk w l i) (chunk w k i).
Proof. unfold chunk. by rewrite zip_with_drop, zip_with_take. Qed.

(** A matrix of [N] rows times a vector over its columns. *)
Lemma np_binop_rows {A B C} (g : A → B → C) (a : ndarray A) (b : ndarray B)
    (N S : Z) :
  wf_array a → shape a = [N; S] → shape b = [S] →
  length (buf b) = Z.to_nat S →
  np_binop g a b
  = Ok (NdArray [N; S]
          (zip_with g (buf a) (concat (replicate (Z.to_nat N) (buf b))))).
Proof.
  intros Hwf Ha Hb Hlen.
  destruct Hwf as [Hnn Hal]. rewrite Ha in Hnn, Hal.
  unfold np_binop, np_broadcast_with, broadcast_shapes, pad_shape.
  rewrite Ha, Hb.
  cbn [length max Nat.max Nat.sub zip zip_with app mapM fst snd replicate].
  assert (broadcast_dim 1 N = Some N) as H1N.
  { unfold broadcast_dim. by destruct (1 =? N)%Z. }
  rewrite H1N, !broadcast_dim_same, broadcast_dim_one. cbn -[bcast_buf].
  rewrite bcast_buf_id by (done || lia).
  by rewrite bcast_buf_rows.
Qed.

(** X19.  Area weighting by cell areas.  On an object whose current
    stage has a recorded history and whose data has [N] samples over [S]
    cells with one area per cell, when the result is saved or no
    [area_weighted] array is left from an earlier call, every sample is
    multiplied cell by cell with the cell's share of the total area, or
    with the square root of that share when [use_sqrt] is set.  The
    result keeps the shape and becomes the current data of the stage
    [area_weighted], whose history is that of the stage before followed
    by [area_weighted]. *)
Theorem area_weight_by_cell_area (self : DataObj) (N S : Z) (ca : ndarray V)
    (use_sqrt save : bool) (ck : string) (hist : list string) :
  wf_array (data self) → shape (data self) = [N; S] →
  cell_area self = Some ca → shape ca = [S] →
  length (buf ca) = Z.to_nat S →
  _curr_data_key self = Some ck → _ops_performed self !! ck = Some hist →
  attrs self !! _AWGHT = None ∨ save && negb (_save_none self) = true →
  let share := map (λ x, vdiv x (np_sum1 (buf ca))) (buf ca) in
  let weight := if use_sqrt then map vsqrt share else share in
  ∃ out self',
    area_weight_data use_sqrt save self = (Ok out, self') ∧
    shape out = [N; S] ∧
    (∀ i row, rows (data self) !! i = Some row →
              rows out !! i = Some (zip_with vmul row weight)) ∧
    data self' = out ∧
    _curr_data_key self' = Some _AWGHT ∧
    _ops_performed self' !! _AWGHT = Some (hist ++ [_AWGHT]).
Proof.
  intros Hwf Hsh Hca Hcs Hcl Hck Hops Hbin share weight.
  assert (length weight = Z.to_nat S) as Hwl.
  { subst weight share. destruct use_sqrt; by rewrite ?length_map. }
  set (out := NdArray [N; S]
                (zip_with vmul (buf (data self))
                   (concat (replicate (Z.to_nat N) weight)))).
  destruct (wf_array_length _ N [S] Hwf Hsh) as (HN & HS & Hbuf).
  rewrite (stride_shape _ N [S] Hsh) in Hbuf.
  assert (prod_shape [S] = S) as HpS.
  { unfold prod_shape. cbn [foldr]. lia. }
  rewrite HpS in Hbuf.
  assert (wf_array out) as Hout.
  { split; [by destruct Hwf as [Hnn _]; rewrite Hsh in Hnn|].
    subst out. cbn [shape buf]. rewrite length_zip_with.
    rewrite (concat_uniform_length (Z.to_nat S))
      by (by apply Forall_replicate).
    rewrite length_replicate, Hbuf, Nat.min_id.
    apply Forall_cons in HS as [HS0 _].
    unfold prod_shape. cbn [foldr].
    rewrite Nat2Z.inj_mul, !Z2Nat.id by lia. lia. }
  assert (np_binop vmul (data self)
            (if use_sqrt
             then NdArray (shape ca) (map vsqrt share)
             else NdArray (shape ca) share) = Ok out) as Hbinop.
  { rewrite (np_binop_rows vmul (data self) _ N S); try done.
    - subst out weight. by destruct use_sqrt.
    - by destruct use_sqrt.
    - subst weight. by destruct use_sqrt. }
  exists out.
  assert (∀ i row, rows (data self) !! i = Some row →
                   rows out !! i = Some (zip_with vmul row weight)) as Hrows.
  { intros i row Hrow.
    assert (i < Z.to_nat N)%nat as Hi.
    { apply lookup_lt_Some in Hrow. by rewrite (rows_length _ N [S]) in Hrow. }
    rewrite (rows_lookup _ N [S]) in Hrow by done. injection Hrow as <-.
    rewrite (rows_lookup out N [S]) by done. f_equal.
    rewrite (stride_shape _ N [S] Hsh), (stride_shape out N [S]) by done.
    rewrite HpS. subst out. cbn [buf]. rewrite chunk_zip_with. f_equal.
    apply chunk_concat_uniform; [by apply Forall_replicate|].
    by apply lookup_replicate_2. }
  unfold area_weight_data. mrun. rewrite Hca. flat.
  destruct (save && negb (_save_none self)) eqn:Hsave; flat.
  - unfold _new_empty_databin, setattr. mrun.
    rewrite np_empty_nonneg by apply Hwf. flat.
    rewrite ?Hca. flat. fold share. rewrite Hbinop. flat.
    unfold store_result. mrun. rewrite lookup_insert_eq. flat.
    rewrite Hsh. change [N; S] with (shape out) at 1.
    rewrite np_broadcast_to_same by done. flat.
    unfold written. mrun.
    rewrite decide_True by (rewrite lookup_insert_eq; eauto). flat.
    unfold _add_to_operation_history, _set_curr_data_key. mrun.
    rewrite Hck. flat. rewrite Hops. flat.
    eexists. split; [reflexivity|]. flat.
    by rewrite lookup_insert_eq.
  - destruct Hbin as [Hbin|]; [|done].
    rewrite ?Hca. flat. fold share. rewrite Hbinop. flat.
    unfold store_result. mrun. rewrite Hbin. flat.
    unfold _add_to_operation_history, _set_curr_data_key. mrun.
    rewrite Hck. flat. rewrite Hops. flat.
    eexists. split; [reflexivity|]. flat.
    by rewrite lookup_insert_eq.
Qed.

End Scaling.

(** ** Degenerate arguments of the time transforms *)

Section Degenerate.
Context `{Stats}.

(** X20.  A block size that is not positive.  On an object with a time
    axis, [time_average_resample] with [nsamples_in_avg = 0] raises
    [ZeroDivisionError]; with a negative block size and samples left
    after the shift the sample count is negative and [np.empty] raises
    [ValueError].  Both happen before anything is assigned: the object
    is left as it was. *)
Theorem resample_rejects_block (self : DataObj) N sp idx tc key (k s : Z) :
  has_time_axis self N sp idx tc → (0 ≤ s)%Z →
  (k = 0%Z →
   time_average_resample key k s self = (Raise ZeroDivisionError, self)) ∧
  ((k < 0)%Z → (s < N)%Z →
   time_average_resample key k s self = (Raise ValueError, self)).
Proof.
  intros (Hlead & Hshp & Hds & Hwf & _) Hs.
  split.
  - intros ->. unfold time_average_resample. mrun. rewrite Hlead. flat.
    rewrite (proj2 (Z.ltb_ge _ _)) by lia. by rewrite Hshp.
  - intros Hk HsN. unfold time_average_resample. mrun. rewrite Hlead. flat.
    rewrite (proj2 (Z.ltb_ge _ _)) by lia. rewrite Hshp.
    change (py_index [N] 0) with (Ok N). flat.
    unfold py_floordiv, py_mod.
    rewrite (proj2 (Z.eqb_neq _ _)) by lia. flat.
    unfold _new_empty_databin. mrun.
    rewrite (np_empty_negative _ ((N - s) / k)%Z); [done| |].
    + apply list_elem_of_here.
    + rewrite <- Z.div_opp_opp by lia.
      apply Z.div_lt_upper_bound; lia.
Qed.

(** X21.  A window of fewer than two samples.  With [window_size] 0 or
    1 the trim is 0 and the slice [[0:-0]] of the time coordinate is
    empty: when [run_mean] returns a result into the output array it is
    passed (the new bin of [N] samples when the result is saved), the
    call returns it as the current data and the object has the emptied
    coordinate, also recorded for the stage [running_mean], while the
    time shape still says [N]. *)
Theorem running_mean_narrow_window (self : DataObj) N sp idx tc (w y : Z)
    (save : bool) (res : ndarray V) :
  let out := output_arr_of self _RUNMEAN (N :: sp) save in
  has_time_axis self N sp idx tc → (0 ≤ w < 2)%Z →
  run_mean (data self) w 0 out = Ok res → check_out out res = Ok res →
  ∃ self',
    calc_running_mean w y save self = (Ok res, self') ∧
    data self' = res ∧
    _time_shp self' = [N] ∧
    time_axis self' = Some (idx, []) ∧
    _altered_time_coords self' !! _RUNMEAN = Some [] ∧
    _curr_data_key self' = Some _RUNMEAN.
Proof.
  intros out Hobj Hw Hrm Hfit.
  set (year_len := if (y <? 1)%Z then 1%Z else y).
  assert (1 ≤ year_len)%Z as Hy
    by (subst year_len; destruct (Z.ltb_spec y 1); lia).
  assert (ceil_div (w / 2) year_len * year_len = 0)%Z as He.
  { assert (w / 2 = 0)%Z as -> by (apply Z.div_small; lia).
    unfold ceil_div. change (- 0)%Z with 0%Z.
    rewrite Z.div_0_l by lia. lia. }
  assert (0 ≤ N)%Z as HN.
  { destruct Hobj as (_ & _ & Hds & Hwf & _).
    by destruct (wf_array_length _ N sp Hwf Hds). }
  pose proof (running_mean_run self N sp idx tc w y save res [] Hobj) as Hrun.
  cbv zeta in Hrun. fold year_len in Hrun. rewrite He in Hrun.
  change (- 0)%Z with 0%Z in Hrun.
  replace (N - 2 * 0)%Z with N in Hrun by lia.
  destruct Hrun as (self' & Hcall & Hd & Hts & Hax & Halt & Hck & _);
    [by rewrite (py_slice_range tc 0 0) by lia | done | done | done |].
  by exists self'.
Qed.

End Degenerate.

(** ** Validity masks *)

Section Validity.
Context `{Numeric}.

Lemma count_true_all (l : list bool) :
  (Z.of_nat (count_true l) =? Z.of_nat (length l))%Z = forallb id l.
Proof.
  assert (count_true l ≤ length l)%nat as Hle.
  { unfold count_true. apply length_filter. }
  induction l as [|b l IH]; [done|].
  assert (count_true l ≤ length l)%nat as Hle'.
  { unfold count_true. apply length_filter. }
  unfold count_true in *. rewrite filter_cons.
  destruct b; cbn [forallb id andb length].
  - rewrite decide_True by done. cbn [length].
    rewrite <- IH by done.
    destruct (Z.eqb_spec (Z.of_nat (length (filter (λ b, b = true) l)))
                (Z.of_nat (length l)));
      [apply Z.eqb_eq | apply Z.eqb_neq]; lia.
  - rewrite decide_False by done. apply Z.eqb_neq. lia.
Qed.

Lemma column_length {A} (w : nat) (l : list A) (T j : nat) :
  length l = (T * w)%nat → (j < w)%nat → length (column w l j) = T.
Proof.
  intros Hl Hj. unfold column. rewrite Hl, Nat.div_mul by lia.
  assert (∀ n, (n ≤ T)%nat →
            length (omap (λ i, l !! (i * w + j)%nat) (seq 0 n)) = n) as Hn;
    [|by apply Hn].
  induction n as [|n IH]; intros Hle; [done|].
  rewrite seq_S, omap_app, length_app, IH by lia. cbn.
  destruct (l !! (n * w + j)%nat) eqn:Hx; cbn; [lia|].
  apply lookup_ge_None in Hx. nia.
Qed.

(** X22.  What [_check_invalid_data] returns.  Data without an invalid
    element is reported as not masked.  Otherwise the data is masked:
    without a leading time axis the mask marks every element that is
    finite and not the fill value; with a leading time axis of [T]
    samples the mask has one entry per cell, true exactly when the cell
    is valid in every sample.  The object is not changed. *)
Theorem check_invalid_data_cells (self : DataObj) (d : ndarray V) :
  (dense (_fill_value self) d = true →
   _check_invalid_data d self = (Ok (false, None), self)) ∧
  (dense (_fill_value self) d = false → _leading_time self = false →
   _check_invalid_data d self
   = (Ok (true, Some (NdArray (shape d)
                        (map (valid_elem (_fill_value self)) (buf d)))),
      self)) ∧
  (∀ T sp,
     dense (_fill_value self) d = false → _leading_time self = true →
     _time_shp self = [T] → shape d = T :: sp → wf_array d →
     ∃ mask,
       _check_invalid_data d self
       = (Ok (true, Some (NdArray sp mask)), self) ∧
       length mask = stride d ∧
       ∀ j, (j < stride d)%nat →
            mask !! j
            = Some (forallb (valid_elem (_fill_value self))
                            (column (stride d) (buf d) j))).
Proof.
  assert (∀ l, forallb id
                 (map (λ x, isfinite x &&
                            match _fill_value self with
                            | Some fill => negb (veqb x fill)
                            | None => true
                            end) l)
               = forallb (valid_elem (_fill_value self)) l) as Hfa.
  { induction l as [|x l IH]; [done|]. cbn. by rewrite IH. }
  split_and!.
  - intros Hd. unfold _check_invalid_data. mrun.
    unfold dense in Hd. by rewrite Hfa, Hd.
  - intros Hd Hl. unfold _check_invalid_data. mrun.
    unfold dense in Hd. by rewrite Hfa, Hd, Hl.
  - intros T sp Hd Hl Hts Hsh Hwf.
    destruct (wf_array_length d T sp Hwf Hsh) as (HT & Hsp & Hbuf).
    eexists. split_and!.
    + unfold _check_invalid_data. mrun.
      unfold dense in Hd. rewrite Hfa, Hd, Hl. flat. rewrite Hts, Hsh.
      change (py_index [T] 0) with (Ok T). flat. reflexivity.
    + by rewrite length_map, length_seq.
    + intros j Hj. rewrite list_lookup_fmap, lookup_seq_lt by done.
      cbn [fmap option_fmap option_map Nat.add hd]. f_equal.
      change (λ x, isfinite x &&
                   match _fill_value self with
                   | Some fill => negb (veqb x fill)
                   | None => true
                   end) with (valid_elem (_fill_value self)).
      assert (omap (λ t, map (valid_elem (_fill_value self)) (buf d)
                           !! (t * stride d + j)%nat) (seq 0 (Z.to_nat T))
              = map (valid_elem (_fill_value self))
                    (column (stride d) (buf d) j)) as ->.
      { unfold column. rewrite Hbuf, Nat.div_mul by lia.
        generalize (seq 0 (Z.to_nat T)). intros idx.
        induction idx as [|i idx IH]; [done|].
        cbn [omap list_omap]. rewrite list_lookup_fmap.
        destruct (buf d !! (i * stride d + j)%nat); cbn; by rewrite IH. }
      rewrite <- Hfa.
      change (λ x, isfinite x &&
                   match _fill_value self with
                   | Some fill => negb (veqb x fill)
                   | None => true
                   end) with (valid_elem (_fill_value self)).
      rewrite <- count_true_all, length_map.
      rewrite (column_length (stride d) (buf d) (Z.to_nat T) j) by done.
      by rewrite Z2Nat.id.
Qed.

End Validity.

(** ** Matching coordinates to axes *)

Section MatchDims.
Context `{Numeric}.

Lemma match_dims_fold (shp : list Z) (l : list (string * (Z * list V))) :
  NoDup l.*1 →
  Forall (λ kv, - Z.of_nat (length shp) ≤ kv.2.1 < Z.of_nat (length shp))%Z l →
  ∃ m : gmap string Z,
    foldr (λ (kv : string * (Z * list V)) acc,
             rbind acc (λ m : gmap string Z,
             rbind (py_index shp kv.2.1) (λ d,
             Ok (if (d =? Z.of_nat (length kv.2.2))%Z
                 then <[kv.1 := kv.2.1]> m else m))))
          (Ok ∅) l = Ok m ∧
    ∀ k i, m !! k = Some i ↔
           ∃ c, (k, (i, c)) ∈ l ∧
                py_index shp i = Ok (Z.of_nat (length c)).
Proof.
  induction l as [|[k0 [i0 c0]] l IH]; intros Hnd Hall.
  - exists ∅. split; [done|]. intros k i. rewrite lookup_empty. split; [done|].
    intros (c & Hin & _). by apply elem_of_nil in Hin.
  - apply NoDup_cons in Hnd as [Hk0 Hnd]. apply Forall_cons in Hall as [Hi0 Hall].
    destruct (IH Hnd Hall) as (m & Hm & Hlk). cbn [fst snd] in Hi0.
    destruct (py_index_in_range shp i0 Hi0) as (d0 & Hd0 & _).
    assert (m !! k0 = None) as Hmk0.
    { destruct (m !! k0) as [i|] eqn:Hi; [|done].
      apply Hlk in Hi as (c & Hin & _). exfalso. apply Hk0.
      apply list_elem_of_fmap. by exists (k0, (i, c)). }
    eexists. cbn [foldr]. rewrite Hm. cbn [rbind fst snd]. rewrite Hd0.
    cbn [rbind]. split; [reflexivity|].
    intros k i. split.
    + intros Hi. destruct (decide (k = k0)) as [->|Hne].
      * destruct (Z.eqb_spec d0 (Z.of_nat (length c0))) as [->|];
          [|by rewrite Hmk0 in Hi].
        rewrite lookup_insert_eq in Hi. injection Hi as <-.
        exists c0. split; [apply list_elem_of_here | done].
      * assert (m !! k = Some i) as Hi'.
        { destruct (d0 =? Z.of_nat (length c0))%Z; [|done].
          by rewrite lookup_insert_ne in Hi. }
        apply Hlk in Hi' as (c & Hin & Hpy).
        exists c. split; [by apply list_elem_of_further | done].
    + intros (c & Hin & Hpy). apply elem_of_cons in Hin as [Heq|Hin].
      * injection Heq as -> -> ->. rewrite Hpy in Hd0. injection Hd0 as <-.
        by rewrite Z.eqb_refl, lookup_insert_eq.
      * assert (k ≠ k0) as Hne.
        { intros ->. apply Hk0. apply list_elem_of_fmap.
          by exists (k0, (i, c)). }
        assert (m !! k = Some i) as Hi' by (apply Hlk; eauto).
        destruct (d0 =? Z.of_nat (length c0))%Z; [|done].
        by rewrite lookup_insert_ne.
Qed.

Lemma match_dims_fold_raises (shp : list Z)
    (l : list (string * (Z * list V))) :
  Exists (λ kv, kv.2.1 < - Z.of_nat (length shp) ∨
                Z.of_nat (length shp) ≤ kv.2.1)%Z l →
  foldr (λ (kv : string * (Z * list V)) acc,
           rbind acc (λ m : gmap string Z,
           rbind (py_index shp kv.2.1) (λ d,
           Ok (if (d =? Z.of_nat (length kv.2.2))%Z
               then <[kv.1 := kv.2.1]> m else m))))
        (Ok ∅) l = Raise IndexError.
Proof.
  assert (∀ l : list (string * (Z * list V)),
    foldr (λ (kv : string * (Z * list V)) acc,
             rbind acc (λ m : gmap string Z,
             rbind (py_index shp kv.2.1) (λ d,
             Ok (if (d =? Z.of_nat (length kv.2.2))%Z
                 then <[kv.1 := kv.2.1]> m else m))))
          (Ok ∅) l = Raise IndexError ∨
    ∃ m : gmap string Z, foldr (λ (kv : string * (Z * list V)) acc,
             rbind acc (λ m : gmap string Z,
             rbind (py_index shp kv.2.1) (λ d,
             Ok (if (d =? Z.of_nat (length kv.2.2))%Z
                 then <[kv.1 := kv.2.1]> m else m))))
          (Ok ∅) l = Ok m) as Hcases.
  { clear l. induction l as [|[k0 [i0 c0]] l [IH|[m IH]]].
    - right. by exists ∅.
    - left. cbn [foldr]. by rewrite IH.
    - cbn [foldr]. rewrite IH. cbn [rbind fst snd].
      destruct (decide (- Z.of_nat (length shp) ≤ i0 < Z.of_nat (length shp))%Z)
        as [Hi|Hi].
      + destruct (py_index_in_range shp i0 Hi) as (d0 & -> & _).
        right. by eexists.
      + left. by rewrite py_index_out_of_range by lia. }
  induction 1 as [[k0 [i0 c0]] l Hout | [k0 [i0 c0]] l _ IH]; cbn [foldr].
  - cbn [fst snd] in Hout.
    destruct (Hcases l) as [->|[m ->]]; [done|]. cbn [rbind fst snd].
    by rewrite py_index_out_of_range.
  - by rewrite IH.
Qed.

(** X23.  [_match_dims] keeps a coordinate exactly when its vector is as
    long as the axis it names.  When every axis number is within the
    shape (negative numbers counting from the end), the result maps a
    key to its axis number iff the coordinate under that key has as many
    entries as the axis is long; an axis number outside the shape raises
    [IndexError]. *)
Theorem match_dims_spec (shp : list Z) (dim_coords : gmap string (Z * list V)) :
  ((∀ k i c, dim_coords !! k = Some (i, c) →
             - Z.of_nat (length shp) ≤ i < Z.of_nat (length shp))%Z →
   ∃ m, _match_dims shp dim_coords = Ok m ∧
        ∀ k i, m !! k = Some i ↔
               ∃ c, dim_coords !! k = Some (i, c) ∧
                    py_index shp i = Ok (Z.of_nat (length c))) ∧
  ((∃ k i c, dim_coords !! k = Some (i, c) ∧
             (i < - Z.of_nat (length shp) ∨ Z.of_nat (length shp) ≤ i)%Z) →
   _match_dims shp dim_coords = Raise IndexError).
Proof.
  split.
  - intros Hall.
    destruct (match_dims_fold shp (map_to_list dim_coords))
      as (m & Hm & Hlk).
    + apply NoDup_fst_map_to_list.
    + apply Forall_forall. intros [k [i c]] Hin%elem_of_map_to_list.
      by apply (Hall k i c).
    + exists m. split; [done|]. intros k i. rewrite Hlk.
      split; intros (c & Hin & Hpy); exists c; split; try done;
        by apply elem_of_map_to_list.
  - intros (k & i & c & Hin & Hout).
    apply match_dims_fold_raises. apply Exists_exists.
    exists (k, (i, c)). split; [by apply elem_of_map_to_list | done].
Qed.

End MatchDims.

(** ** A transform that returns has committed its stage *)

Section Commit.
Context `{Stats}.

Lemma ensures_bind {A B} (m : M DataObj A) (k : A → M DataObj B) Q :
  (∀ a, ensures (k a) Q) → ensures (m ≫= k) Q.
Proof.
  intros Hk s b s'. munfold.
  destruct (m s) as [[a|e] s1]; [|done]. apply Hk.
Qed.

Lemma ensures_raise {A} e (Q : A → DataObj → Prop) : ensures (raise e) Q.
Proof. by intros s a s'. Qed.

Lemma history_ends_with curr key (s s' : DataObj) :
  _add_to_operation_history curr key s = (Ok tt, s') →
  (∃ hist, _ops_performed s' !! key = Some (hist ++ [key])) ∧
  data s' = data s.
Proof.
  unfold _add_to_operation_history. destruct curr as [ck|]; mrun.
  - destruct (_ops_performed s !! ck) as [past|]; flat; [|done].
    intros [= <-]. flat. rewrite lookup_insert_eq. eauto.
  - intros [= <-]. flat. rewrite lookup_insert_eq. split; [by exists (@nil string) | done].
Qed.

(** The last statements of a transform. *)
Lemma ensures_commit curr key :
  ensures (_add_to_operation_history curr key;;
           _set_curr_data_key key;; gets data) (committed key).
Proof.
  intros s out s'. munfold.
  destruct (_add_to_operation_history curr key s) as [[[]|e] s1] eqn:Hh;
    [|done].
  apply history_ends_with in Hh as [[hist Hh] _].
  unfold _set_curr_data_key. mrun. intros [= <- <-]. flat.
  split_and!; [done..|]. by exists hist.
Qed.

Lemma ensures_commit_running_mean curr tc :
  ensures (_add_to_operation_history curr _RUNMEAN;;
           _set_curr_data_key _RUNMEAN;;
           modify (λ self, set_altered_time_coords
                             (<[_RUNMEAN := tc]> (_altered_time_coords self))
                             self);;
           gets data) (committed _RUNMEAN).
Proof.
  intros s out s'. munfold.
  destruct (_add_to_operation_history curr _RUNMEAN s) as [[[]|e] s1] eqn:Hh;
    [|done].
  apply history_ends_with in Hh as [[hist Hh] _].
  unfold _set_curr_data_key. mrun. intros [= <- <-]. flat.
  split_and!; [done..|]. by exists hist.
Qed.

Ltac ensures_step :=
  first
    [ apply ensures_commit | apply ensures_commit_running_mean
    | apply ensures_raise
    | apply ensures_bind; intros ?
    | match goal with
      | |- ensures (if ?b then _ else _) _ => destruct b
      | |- ensures (match ?x with _ => _ end) _ => destruct x
      | |- ensures (let _ := _ in _) _ => cbv zeta
      end ].

(** X3.  Whenever a transform returns, it has committed its stage: the
    array it returns is the current data, its stage is the current one,
    and the history recorded for the stage ends with the stage. *)
Theorem transforms_commit_stage (c : call) (self self' : DataObj)
    (out : ndarray V) :
  run_call c self = (Ok out, self') →
  committed (stage_key c) out self'.
Proof.
  revert self out self'. change (ensures (run_call c) (committed (stage_key c))).
  destruct c; unfold run_call; cbn [stage_key].
  - unfold time_average_resample. repeat ensures_step.
  - unfold calc_running_mean. repeat ensures_step.
  - unfold calc_anomaly. repeat ensures_step.
  - unfold detrend_data. repeat ensures_step.
  - unfold area_weight_data. repeat ensures_step.
  - unfold standardize_data. repeat ensures_step.
  - unfold eof_proj_data. repeat ensures_step.
Qed.

End Commit.

(** ** The further properties on concrete objects *)

Section ConcreteExtras.
#[local] Existing Instance sym_numeric.
#[local] Existing Instance sym_stats.

Local Open Scope Z_scope.

Ltac run := vm_compute; reflexivity.

Lemma two_cells_weighted_wf : wf_array (data two_cells_weighted).
Proof. split; [repeat constructor; lia | run]. Qed.

Lemma transforms_keep_fixed_attrs_witness :
  fixed_attrs (run_call (Resample "resampled" 3 1) (series 10)).2
  = fixed_attrs (series 10).
Proof.
  apply (transforms_keep_fixed_attrs (Resample "resampled" 3 1) (series 10)).
  run.
Defined.

Lemma transforms_write_own_stage_witness :
  stage _ORIGDATA (run_call (Resample "resampled" 3 1) (series 10)).2
  = stage _ORIGDATA (series 10).
Proof.
  apply (transforms_write_own_stage _ORIGDATA (Resample "resampled" 3 1)
           (series 10)).
  - run.
  - vm_compute. discriminate.
Defined.

Lemma reset_data_restores_witness :
  ∃ self',
    reset_data _ORIGDATA
      (time_average_resample "resampled" 3 1 (series 10)).2
    = (Ok (series_data 10), self') ∧
    time_axis self' = Some (0, series_time 10) ∧
    _time_shp self' = [10].
Proof.
  destruct (proj2 (proj2 (reset_data_restores
              (time_average_resample "resampled" 3 1 (series 10)).2
              _ORIGDATA))
              (series_data 10) 10 [] (series_time 10) 0
              (lits [101; 104; 107])) as [_ Hok]; [run..|].
  destruct Hok as (self' & Hrun & _ & _ & Hax & Hts & _); [run|].
  exists self'. by split_and!.
Defined.



Lemma eof_proj_shape_witness :
  ∃ out self',
    eof_proj_data 2 None true None None two_cells_weighted = (Ok out, self') ∧
    shape out = [3; 2] ∧
    _curr_data_key self' = Some _EOFPROJ.
Proof.
  destruct (eof_proj_shape two_cells_weighted 3 2 2 2 [_ORIGDATA; _AWGHT] None
              (NdArray [2; 2]
                 [SApp "eof" [SLit 0; SLit 0]; SApp "eof" [SLit 0; SLit 1];
                  SApp "eof" [SLit 1; SLit 0]; SApp "eof" [SLit 1; SLit 1]])
              true)
    as (out & self' & Hrun & _ & Hsh & _ & _ & Hck & _).
  - run.
  - run.
  - run.
  - run.
  - apply two_cells_weighted_wf.
  - lia.
  - right. run.
  - split; [done|]. eexists _, _. run.
  - done.
  - lia.
  - exists out, self'. by split_and!.
Defined.

Lemma eof_proj_basis_mismatch_witness :
  eof_proj_data 2 (Some (NdArray [3; 1] (lits [1; 2; 3]))) true None None
    two_cells_weighted
  = (Raise ValueError, two_cells_weighted).
Proof.
  apply (eof_proj_basis_mismatch two_cells_weighted 3 2 3 1);
    [run | right; run | run | done | lia].
Defined.

Lemma init_rejects_shape_witness :
  init (NdArray [1; 1; 1; 1; 1] (lits [7])) None None None false None false
       false None = Raise AssertionError ∧
  init (NdArray [2; 3] (lits [1; 2; 3; 4; 5; 6]))
       (Some {[ TIME := (1, lits [100; 101; 102]) ]}) None None false None
       false false None = Raise ValueError.
Proof.
  split.
  - apply init_rejects_shape. vm_compute. lia.
  - apply (proj2 (@init_rejects_shape sym_numeric
                    (NdArray [2; 3] (lits [1; 2; 3; 4; 5; 6]))
                    (Some {[ TIME := (1, lits [100; 101; 102]) ]})
                    None None false None false false None)
             {[ TIME := (1, lits [100; 101; 102]) ]} 1 (lits [100; 101; 102]));
      [vm_compute; lia | done | run | lia].
Defined.

Lemma init_dense_series_witness :
  ∃ self,
    init (series_data 10) (Some {[ TIME := (0, series_time 10) ]}) None None
         false None false false None = Ok self ∧
    has_time_axis self 10 [] 0 (series_time 10) ∧
    _curr_data_key self = Some _ORIGDATA.
Proof.
  destruct (@init_dense_series sym_numeric (series_data 10) 10 [] 
              {[ TIME := (0, series_time 10) ]} (series_time 10)
              {[ TIME := 0 ]} None None false false None)
    as (self & Hinit & Hax & _ & Hck & _).
  - split; [repeat constructor; lia | run].
  - run.
  - lia.
  - cbn. lia.
  - run.
  - run.
  - run.
  - run.
  - exists self. split; [done|]. split; [exact Hax | done].
Defined.

Lemma init_time_coord_mismatch_witness :
  init (series_data 10) (Some {[ TIME := (0, lits [100; 101; 102]) ]}) None
       None false None false false None = Raise ValueError.
Proof.
  apply (@init_time_coord_mismatch sym_numeric (series_data 10) 10 []
           {[ TIME := (0, lits [100; 101; 102]) ]} (lits [100; 101; 102]) ∅);
    [run | lia | cbn; lia | run | run | vm_compute; lia | run].
Defined.

Lemma copy_index_list_witness :
  ∃ new tc',
    copy (Some (IdxList [0; -1; 3])) (series 10) = (Ok new, series 10) ∧
    has_time_axis new 3 [] 0 tc' ∧
    tc' !! 1%nat = Some (SLit 109) ∧
    rows (data new) !! 1%nat = Some [SLit 9].
Proof.
  destruct (copy_index_list (series 10) 10 [] 0 (series_time 10) _ORIGDATA
              [_ORIGDATA] [0; -1; 3])
    as (new & tc' & Hrun & Hax & Hlk & _).
  - apply (series_has_time_axis 10). by left.
  - run.
  - run.
  - run.
  - refine (proj1 (bool_decide_eq_true _) _). run.
  - repeat constructor; lia.
  - exists new, tc'. destruct (Hlk 1%nat (-1)) as [Htc Hrow]; [done|].
    split; [done|]. split; [exact Hax|].
    split; [etrans; [exact Htc | run] | etrans; [exact Hrow | run]].
Defined.

Lemma copy_index_out_of_range_witness :
  copy (Some (IdxList [0; 10])) (series 10) = (Raise IndexError, series 10).
Proof.
  apply (copy_index_out_of_range (series 10) 10 [] 0 (series_time 10)
           _ORIGDATA [_ORIGDATA]).
  - apply (series_has_time_axis 10). by left.
  - run.
  - run.
  - apply Exists_cons_tl, Exists_cons_hd. lia.
Defined.

Lemma copy_slice_range_witness :
  ∃ new,
    copy (Some (IdxSlice (Slice (Some 2) (Some 5) None))) (series 10)
    = (Ok new, series 10) ∧
    has_time_axis new 3 [] 0 (lits [102; 103; 104]) ∧
    rows (data new) = [[SLit 2]; [SLit 3]; [SLit 4]].
Proof.
  destruct (copy_slice_range (series 10) 10 [] 0 (series_time 10) _ORIGDATA
              [_ORIGDATA] 2 5)
    as (new & Hrun & Hax & Hrows & _).
  - apply (series_has_time_axis 10). by left.
  - run.
  - run.
  - run.
  - refine (proj1 (bool_decide_eq_true _) _). run.
  - lia.
  - lia.
  - exists new. split; [done|]. split; [exact Hax | etrans; [exact Hrows | run]].
Defined.

Lemma inflate_reshape_orig_witness :
  (inflate_full_grid None 1 true gridded).1
  = Ok (Some (NdArray [3; 2; 2]
                [SLit 0; SLit 1; SNaN; SLit 3;
                 SLit 10; SLit 11; SNaN; SLit 13;
                 SLit 20; SLit 21; SNaN; SLit 23])) ∧
  ∃ full,
    (inflate_full_grid None (-1) true gridded).1 = Ok (Some full) ∧
    shape full = [2; 2; 3].
Proof.
  destruct (inflate_reshape_orig gridded [true; true; false; true] 3 4 [2; 2])
    as (full & Hplain & Hone & Hminus).
  - run.
  - run.
  - run.
  - run.
  - repeat constructor; lia.
  - run.
  - lia.
  - run.
  - run.
  - split.
    + rewrite Hone. assert (full
        = [SLit 0; SLit 1; SNaN; SLit 3;
           SLit 10; SLit 11; SNaN; SLit 13;
           SLit 20; SLit 21; SNaN; SLit 23]) as ->; [|done].
      assert ((inflate_full_grid None (-1) false gridded).1
              = Ok (Some (NdArray [3; 4]
                  [SLit 0; SLit 1; SNaN; SLit 3;
                   SLit 10; SLit 11; SNaN; SLit 13;
                   SLit 20; SLit 21; SNaN; SLit 23]))) as Hc by run.
      rewrite Hplain in Hc. by injection Hc.
    + eexists. rewrite Hminus. cbn [fst]. split; reflexivity.
Defined.

Lemma standardize_scales_witness :
  ∃ self',
    standardize_data (Some (SLit 2)) true (series 10)
    = (Ok (NdArray [10] (map (λ x, vmul x (SLit 2)) (buf (series_data 10)))),
       self') ∧
    _std_scaling self' = Some (SLit 2) ∧
    _curr_data_key self' = Some _STD.
Proof.
  destruct (standardize_scales (series 10) (SLit 2) true _ORIGDATA
              [_ORIGDATA])
    as (self' & Hrun & _ & Hstd & Hck & _).
  - split; [repeat constructor; lia | run].
  - run.
  - run.
  - exists self'. split; [etrans; [exact Hrun | run]|].
    split; [exact Hstd | exact Hck].
Defined.

Lemma area_weight_by_cell_area_witness :
  ∃ out self',
    area_weight_data false true two_cells = (Ok out, self') ∧
    shape out = [3; 2] ∧
    rows out !! 1%nat
    = Some [SApp "mul" [SLit 3; SApp "div" [SLit 1; SApp "sum" (lits [1; 3])]];
            SApp "mul" [SLit 4; SApp "div" [SLit 3; SApp "sum" (lits [1; 3])]]].
Proof.
  destruct (area_weight_by_cell_area two_cells 3 2
              (NdArray [2] (lits [1; 3])) false true _ORIGDATA [_ORIGDATA])
    as (out & self' & Hrun & Hsh & Hrows & _).
  - split; [repeat constructor; lia | run].
  - run.
  - run.
  - run.
  - run.
  - run.
  - run.
  - right. run.
  - exists out, self'. split; [exact Hrun|]. split; [exact Hsh|].
    etrans; [apply (Hrows 1%nat (lits [3; 4])); run | run].
Defined.

Lemma resample_rejects_block_witness :
  time_average_resample "resampled" 0 1 (series 10)
  = (Raise ZeroDivisionError, series 10) ∧
  time_average_resample "resampled" (-3) 1 (series 10)
  = (Raise ValueError, series 10).
Proof.
  split.
  - apply (resample_rejects_block (series 10) 10 [] 0 (series_time 10));
      [apply (series_has_time_axis 10); by left | lia | done].
  - apply (resample_rejects_block (series 10) 10 [] 0 (series_time 10));
      [apply (series_has_time_axis 10); by left | lia | lia | lia].
Defined.

Lemma running_mean_narrow_window_witness :
  ∃ res self',
    calc_running_mean 1 12 true (series 10) = (Ok res, self') ∧
    _time_shp self' = [10] ∧
    time_axis self' = Some (0, []).
Proof.
  destruct (running_mean_narrow_window (series 10) 10 [] 0 (series_time 10)
              1 12 true (smoothed 10 1 0))
    as (self' & Hrun & _ & Hts & Hax & _).
  - apply (series_has_time_axis 10). by left.
  - lia.
  - run.
  - run.
  - exists (smoothed 10 1 0), self'.
    split; [exact Hrun|]. split; [exact Hts | exact Hax].
Defined.

Lemma check_invalid_data_cells_witness :
  ∃ mask,
    _check_invalid_data gridded_data gridded
    = (Ok (true, Some (NdArray [2; 2] mask)), gridded) ∧
    mask !! 2%nat = Some false ∧ mask !! 3%nat = Some true.
Proof.
  destruct (proj2 (proj2 (check_invalid_data_cells gridded gridded_data))
              3 [2; 2])
    as (mask & Hrun & _ & Hlk).
  - run.
  - run.
  - run.
  - run.
  - split; [repeat constructor; lia | run].
  - exists mask. split; [exact Hrun|].
    split; (etrans; [apply Hlk; vm_compute; lia | run]).
Defined.

Lemma match_dims_spec_witness :
  ∃ m : gmap string Z,
    _match_dims [10; 4]
      {[ TIME := (0, series_time 10); LAT := (1, lits [0; 30; 60]) ]} = Ok m ∧
    m !! TIME = Some 0 ∧ m !! LAT = None.
Proof.
  destruct (proj1 (match_dims_spec [10; 4]
              {[ TIME := (0, series_time 10); LAT := (1, lits [0; 30; 60]) ]}))
    as (m & Hm & Hlk).
  - intros k i c Hk.
    destruct (decide (k = TIME)) as [->|Hne].
    + rewrite lookup_insert_eq in Hk. injection Hk as <- _. cbn. lia.
    + rewrite lookup_insert_ne in Hk by done.
      apply lookup_singleton_Some in Hk as [_ [= <- _]]. cbn. lia.
  - exists m. split; [exact Hm|]. split.
    + apply Hlk. exists (series_time 10). split; run.
    + destruct (m !! LAT) as [i|] eqn:Hi; [|done].
      apply Hlk in Hi as (c & Hc & Hpy).
      rewrite lookup_insert_ne in Hc by done.
      rewrite lookup_singleton_eq in Hc. injection Hc as <- <-.
      vm_compute in Hpy. discriminate Hpy.
Defined.

Lemma transforms_commit_stage_witness :
  ∃ out self',
    run_call (Resample "resampled" 3 1) (series 10) = (Ok out, self') ∧
    committed "resampled" out self'.
Proof.
  destruct (run_call (Resample "resampled" 3 1) (series 10))
    as [[out|e] self'] eqn:Hrun.
  - exists out, self'. split; [reflexivity|].
    apply (transforms_commit_stage (Resample "resampled" 3 1) (series 10)
             self' out Hrun).
  - vm_compute in Hrun. discriminate Hrun.
Defined.

End ConcreteExtras.
